(** * Проверяшка: scoring, persistence and dialogue state of the quiz bot

    A shallow embedding of the parts of the bot that grade answers, keep the
    per-session navigation state, validate answer options, store appeals and
    record score edits, followed by the properties stated about them.

    Conventions of the embedding.
    - A Python [dict] whose iteration order is irrelevant is a [gmap]; the
      results file, whose entries are scanned in file order, is an
      association list.
    - A Python [str] is the [string] of the bytes of its UTF-8 encoding,
      so equality, concatenation and [replace] are those of the bytes.  A
      character of the [str] is a code point: one lead byte with the
      continuation bytes that follow it ([Py.chars]); lengths, slices and
      the classes of characters (blanks, markup) are taken over these.
      Literals are written as in the source.  [None] is [None] of an
      [option].
    - [uuid.uuid4()] and [datetime.now()] are inputs of the functions that
      call them.  Binary floating point is not modelled: a finite Python
      [float] is the rational it denotes, [nan] and the two infinities are
      values of their own ([Py.float]), and the text rendering of a float
      is a parameter.
    - Exceptions are values ([exn]); logging is a list of records.  A
      handler under [tenacity]'s [retry] is the decorator applied to its
      body ([network_retry]).
    - Sending and editing Telegram messages always succeeds; a handler
      returns what it sent together with the new session.

    Part I holds the definitions, module by source file; Part II the
    lemmas and theorems. *)

From Stdlib Require Import Ascii QArith Qround Qcanon.
From stdpp Require Import gmap strings list fin_maps pretty.

Local Open Scope list_scope.

(* ===================================================================== *)
(** * Part I: the program *)
(* ===================================================================== *)

(** ** Python basics shared by the modules *)

Module Py.

(** The exceptions that the modelled code can raise; [RetryError] is the
    one of [tenacity]. *)
Inductive exn :=
| ValueError (msg : string)
| KeyError (key : string)
| IndexError
| TypeError
| RetryError.

(** *** Characters *)

(** The continuation bytes of UTF-8, [10xxxxxx]. *)
Definition is_cont (b : ascii) : bool :=
  match b with
  | Ascii _ _ _ _ _ _ false true => true
  | _ => false
  end.

(** A character: the bytes of one code point. *)
Definition char : Type := list ascii.

(** The characters of a list of bytes: a byte opens a character and the
    continuation bytes after it belong to the same character. *)
Definition starts_cont (s : list ascii) : bool :=
  match s with
  | b :: _ => is_cont b
  | [] => false
  end.

Fixpoint chars_of (s : list ascii) : list char :=
  match s with
  | [] => []
  | b :: s' =>
      match chars_of s' with
      | c :: cs => if starts_cont s' then (b :: c) :: cs else [b] :: c :: cs
      | [] => [[b]]
      end
  end.

(** [list(s)] and [''.join(l)] *)
Definition chars (s : string) : list char :=
  chars_of (String.list_ascii_of_string s).
Definition str (l : list char) : string :=
  String.string_of_list_ascii (concat l).

(** [len(s)] *)
Definition len (s : string) : nat := length (chars s).

(** The shape of the lists that [chars] returns: every character starts
    with a byte that is not a continuation byte and goes on with
    continuation bytes; only the first one may start with a continuation
    byte, when the bytes do. *)
Definition is_char (c : char) : bool :=
  match c with
  | b :: cs => negb (is_cont b) && forallb is_cont cs
  | [] => false
  end.

Definition is_piece (c : char) : bool :=
  match c with
  | _ :: cs => forallb is_cont cs
  | [] => false
  end.

Definition well_formed (l : list char) : Prop :=
  match l with
  | c :: l' => is_piece c = true ∧ Forall (fun c => is_char c = true) l'
  | [] => True
  end.

(** *** Floats *)

(** A [float]: a finite one is the rational it denotes. *)
Inductive float :=
| Finite (q : Qc)
| Infinity (negative : bool)
| NaN.

(** [x == y] on floats: [nan] equals nothing, itself included. *)
Definition float_eq (x y : float) : bool :=
  match x, y with
  | Finite p, Finite q => bool_decide (p = q)
  | Infinity a, Infinity b => bool_decide (a = b)
  | _, _ => false
  end.

(** ["\n"] *)
Definition nl : string := String "010"%char "".

(** [sep.join(parts)] *)
Fixpoint join (sep : string) (parts : list string) : string :=
  match parts with
  | [] => ""
  | [p] => p
  | p :: ps => p +:+ sep +:+ join sep ps
  end.

(** Truthiness of a string: [bool(s)]. *)
Definition truthy (s : string) : bool :=
  match s with
  | EmptyString => false
  | String _ _ => true
  end.

(** Truthiness of an optional string, as in [if not d.get(k):]. *)
Definition truthy_opt (o : option string) : bool :=
  match o with
  | None => false
  | Some s => truthy s
  end.

(** [text[:n]] for [n >= 0]: the first [n] characters. *)
Definition take_str (n : nat) (s : string) : string :=
  str (take n (chars s)).

(** [a.startswith(p)] *)
Fixpoint starts_with (p a : string) : bool :=
  match p, a with
  | EmptyString, _ => true
  | String c p', String d a' => if decide (c = d) then starts_with p' a' else false
  | String _ _, EmptyString => false
  end.

(** [s.replace(old, new)] for a non-empty [old]: occurrences are replaced
    from the left and do not overlap.  [skip] counts the characters of a
    matched occurrence that are still to be passed over. *)
Fixpoint replace_go (old new : string) (skip : nat) (s : string) : string :=
  match s with
  | EmptyString => ""
  | String c s' =>
      match skip with
      | S k => replace_go old new k s'
      | O =>
          if starts_with old s
          then new +:+ replace_go old new (String.length old - 1) s'
          else String c (replace_go old new 0 s')
      end
  end.

Definition replace (old new s : string) : string := replace_go old new 0 s.

(** The position that the index [i] denotes in a list of length [n]:
    negative indices count from the end; [None] stands for [IndexError]. *)
Definition position (n : nat) (i : Z) : option nat :=
  if bool_decide (0 ≤ i < Z.of_nat n)%Z then Some (Z.to_nat i)
  else if bool_decide (- Z.of_nat n ≤ i < 0)%Z then Some (Z.to_nat (Z.of_nat n + i))
  else None.

(** [l[i]] *)
Definition index {A} (l : list A) (i : Z) : option A :=
  p ← position (length l) i; l !! p.

(** [l[i] = x] *)
Definition set_index {A} (l : list A) (i : Z) (x : A) : option (list A) :=
  p ← position (length l) i; Some (<[p := x]> l).

End Py.

(** ** states *)

Module States.

(** Modelled from the spec: the module [states] is not among the sources;
    its constants name the dialogue states of the flows (the states of the
    spec's sections 4.4 to 4.6).  Only the names that the handlers below
    return or push are kept; their values play no role. *)
Inductive state :=
| STUDENT_MAIN
| STUDENT_APPEAL_SELECT
| STUDENT_APPEAL_COMMENT
| TEACHER_QUESTION_TYPE
| TEACHER_ADD_OPTIONS
| TEACHER_FINISH_CREATION
| TEACHER_EDIT_QUESTIONS
| TEACHER_EDIT_QUESTION_CONTENT
| TEACHER_CHECK_ANSWERS
| TEACHER_EDIT_SCORE.

#[global] Instance state_eq_dec : EqDecision state.
Proof. solve_decision. Defined.

Definition state_to_nat (s : state) : nat :=
  match s with
  | STUDENT_MAIN => 0
  | STUDENT_APPEAL_SELECT => 1
  | STUDENT_APPEAL_COMMENT => 2
  | TEACHER_QUESTION_TYPE => 3
  | TEACHER_ADD_OPTIONS => 4
  | TEACHER_FINISH_CREATION => 5
  | TEACHER_EDIT_QUESTIONS => 6
  | TEACHER_EDIT_QUESTION_CONTENT => 7
  | TEACHER_CHECK_ANSWERS => 8
  | TEACHER_EDIT_SCORE => 9
  end.

Definition state_of_nat (n : nat) : state :=
  match n with
  | 0 => STUDENT_MAIN
  | 1 => STUDENT_APPEAL_SELECT
  | 2 => STUDENT_APPEAL_COMMENT
  | 3 => TEACHER_QUESTION_TYPE
  | 4 => TEACHER_ADD_OPTIONS
  | 5 => TEACHER_FINISH_CREATION
  | 6 => TEACHER_EDIT_QUESTIONS
  | 7 => TEACHER_EDIT_QUESTION_CONTENT
  | 8 => TEACHER_CHECK_ANSWERS
  | _ => TEACHER_EDIT_SCORE
  end.

#[global] Instance state_countable : Countable state.
Proof.
  apply (inj_countable' state_to_nat state_of_nat).
  intros s. by destruct s.
Defined.

End States.

(** ** logic/student_do_test.py: [class StateManager]

    The class of the same name in [logic/teacher_create.py] has the same
    methods with the same bodies. *)

Module StateManager.
Section state_manager.

(** States are the constants of [states]; keys are strings in the bot and
    values are arbitrary Python objects.  Nothing below depends on what
    they are beyond being usable as dictionary keys. *)
Context {St Key Val : Type}.
Context `{Countable St, Countable Key}.

(** The two entries of [context.user_data] that the manager owns. *)
Record user_data := UserData {
  state_stack : list St;
  state_data : gmap St (gmap Key Val)
}.

(** [__init__]: both entries are created empty when missing. *)
Definition init : user_data := UserData [] ∅.

(** [self.context.user_data["state_stack"].append(state)] *)
Definition push (state : St) (ud : user_data) : user_data :=
  UserData (state_stack ud ++ [state]) (state_data ud).

(** [stack.pop() if stack else None]: the returned value and the session
    after the call. *)
Definition pop (ud : user_data) : option St * user_data :=
  match state_stack ud with
  | [] => (None, ud)
  | _ :: _ =>
      (last (state_stack ud),
       UserData (removelast (state_stack ud)) (state_data ud))
  end.

(** [stack[-1] if stack else None] *)
Definition current (ud : user_data) : option St :=
  match state_stack ud with
  | [] => None
  | _ :: _ => last (state_stack ud)
  end.

(** [set_data]: the dictionary of the state is created when missing, then
    the key is assigned. *)
Definition set_data (state : St) (key : Key) (value : Val)
    (ud : user_data) : user_data :=
  let sd :=
    match state_data ud !! state with
    | None => <[state := ∅]> (state_data ud)
    | Some _ => state_data ud
    end in
  let inner := default ∅ (sd !! state) in
  UserData (state_stack ud) (<[state := <[key := value]> inner]> sd).

(** [state_data.get(state, {}).get(key, default)] *)
Definition get_data (state : St) (key : Key) (dflt : Val)
    (ud : user_data) : Val :=
  default dflt (default ∅ (state_data ud !! state) !! key).

(** [state_data.clear()] *)
Definition clear_data (ud : user_data) : user_data :=
  UserData (state_stack ud) ∅.

(** [if state in state_data: del state_data[state]] *)
Definition clear_state_data (state : St) (ud : user_data) : user_data :=
  match state_data ud !! state with
  | Some _ => UserData (state_stack ud) (delete state (state_data ud))
  | None => ud
  end.

(** What the handlers do to the stack between two accesses to the data: any
    sequence of pushes and pops. *)
Inductive stack_op := Push (s : St) | Pop.

Definition run_op (o : stack_op) (ud : user_data) : user_data :=
  match o with
  | Push s => push s ud
  | Pop => snd (pop ud)
  end.

Definition run_ops (os : list stack_op) (ud : user_data) : user_data :=
  foldl (fun u o => run_op o u) ud os.

End state_manager.
Global Arguments user_data _ _ _ {_ _ _ _}.
Global Arguments stack_op : clear implicits.
End StateManager.

(** ** logic/teacher_create.py *)

Module TeacherCreate.

(** *** [sanitize_input] and the parsing of an options message *)

(** The characters that [str.strip] and the pattern [\s] treat as blank:
    U+0009 to U+000D, U+001C to U+0020, U+0085, U+00A0, U+1680, U+2000 to
    U+200A, U+2028, U+2029, U+202F, U+205F and U+3000, each as the bytes of
    its encoding. *)
Definition blanks : list Py.char :=
  [ ["009"]; ["010"]; ["011"]; ["012"]; ["013"];
    ["028"]; ["029"]; ["030"]; ["031"]; [" "];
    ["194"; "133"]; ["194"; "160"];
    ["225"; "154"; "128"];
    ["226"; "128"; "128"]; ["226"; "128"; "129"]; ["226"; "128"; "130"];
    ["226"; "128"; "131"]; ["226"; "128"; "132"]; ["226"; "128"; "133"];
    ["226"; "128"; "134"]; ["226"; "128"; "135"]; ["226"; "128"; "136"];
    ["226"; "128"; "137"]; ["226"; "128"; "138"];
    ["226"; "128"; "168"]; ["226"; "128"; "169"]; ["226"; "128"; "175"];
    ["226"; "129"; "159"];
    ["227"; "128"; "128"] ]%char.

Definition is_space (c : Py.char) : bool := bool_decide (c ∈ blanks).

(** The space, as a character. *)
Definition space : Py.char := [" "%char].

(** The class [[<>|&]] of the first substitution. *)
Definition is_markup (c : Py.char) : bool :=
  bool_decide (c ∈ [["<"]; [">"]; ["|"]; ["&"]]%char).

Fixpoint lstrip (s : list Py.char) : list Py.char :=
  match s with
  | c :: s' => if is_space c then lstrip s' else s
  | [] => []
  end.

(** [text.strip()] on a list of characters. *)
Definition strip_chars (s : list Py.char) : list Py.char :=
  reverse (lstrip (reverse (lstrip s))).

(** [re.sub(r'\s+', ' ', s)]: every maximal run of blanks becomes one
    space.  [in_run] tells that the previous character was a blank. *)
Fixpoint collapse (in_run : bool) (s : list Py.char) : list Py.char :=
  match s with
  | [] => []
  | c :: s' =>
      if is_space c
      then (if in_run then collapse true s' else space :: collapse true s')
      else c :: collapse false s'
  end.

(** [text.strip()] *)
Definition strip (s : string) : string :=
  Py.str (strip_chars (Py.chars s)).

(** [sanitize_input]:
<<
    if not text: return text
    text = re.sub(r'[<>|&]', '', text)
    text = re.sub(r'\s+', ' ', text.strip())
    return text[:200]
>> *)
Definition sanitize_input (text : string) : string :=
  if Py.truthy text then
    let text1 := filter (fun c => is_markup c = false) (Py.chars text) in
    let text2 := collapse false (strip_chars text1) in
    Py.str (take 200 text2)
  else text.

(** The comma, as a character. *)
Definition comma : Py.char := [","%char].

(** [s.split(',')] on a list of characters: the pieces between commas, the
    piece in progress being [cur] (reversed). *)
Fixpoint split_go (cur : list Py.char) (s : list Py.char)
    : list (list Py.char) :=
  match s with
  | [] => [reverse cur]
  | c :: s' =>
      if decide (c = comma) then reverse cur :: split_go [] s'
      else split_go (c :: cur) s'
  end.

Definition split_comma (s : string) : list string :=
  Py.str <$> split_go [] (Py.chars s).

(** [[opt.strip() for opt in s.split(',') if opt.strip()]] *)
Definition parse_options (s : string) : list string :=
  filter (fun o => Py.truthy o = true) (strip <$> split_comma s).

(** *** [TeacherTestValidator.validate_options]
<<
    all_options = options + [correct_answer]
    if len(all_options) < 2 or len(all_options) > 7: return False
    if len(set(all_options)) != len(all_options): return False
    return True
>>
    The function is used at strings and at [None]; it is stated for any
    type of hashable values. *)
Definition validate_options `{Countable A}
    (options : list A) (correct_answer : A) : bool :=
  let all_options := options ++ [correct_answer] in
  if (length all_options <? 2) || (7 <? length all_options) then false
  else if negb (size (list_to_set all_options : gset A)
                =? length all_options) then false
  else true.

(** *** Questions of the test under construction *)

(** A question as [process_question_type] creates it; every field but the
    type starts at [None] or empty.  An option is a string, or the correct
    answer, which may still be [None]. *)
Record question := Question {
  q_type : string;
  text : option string;
  correct_answer : option string;
  options : list (option string);
  check_comment : option string
}.

Definition set_options (o : list (option string)) (q : question) : question :=
  Question (q_type q) (text q) (correct_answer q) o (check_comment q).
Definition set_text (t : option string) (q : question) : question :=
  Question (q_type q) t (correct_answer q) (options q) (check_comment q).
Definition set_correct_answer (c : option string) (q : question) : question :=
  Question (q_type q) (text q) c (options q) (check_comment q).
Definition set_check_comment (c : option string) (q : question) : question :=
  Question (q_type q) (text q) (correct_answer q) (options q) c.

(** The part of [context.user_data] that the handlers of the options read
    and write: the questions of [current_test], the indices of the edit
    sub-flow and the options remembered for [TEACHER_ADD_OPTIONS]. *)
Record draft := Draft {
  questions : list question;
  editing_question_idx : Z;
  editing_part : string;
  saved_options : option (list string)
}.

(** What a handler hands back: the state it returns and the draft, or the
    exception that escaped it and the draft at that moment. *)
Inductive outcome :=
| Done (next : States.state) (d : draft)
| Raised (e : Py.exn) (d : draft).

(** [network_retry]:
<<
    @retry(stop=stop_after_attempt(3), wait=wait_fixed(1))
    async def wrapper(self, *args, **kwargs):
        try:
            return await func(self, *args, **kwargs)
        except (NetworkError, TimedOut) as e: ... raise
        except BadRequest as e: ... return
>>
    Whatever [func] raises leaves [wrapper] and makes [retry] call it
    again, on [context.user_data] as the failed attempt left it; after the
    third failure [retry] raises [RetryError]. *)
Definition network_retry (func : draft → outcome) (d : draft) : outcome :=
  match func d with
  | Raised _ d1 =>
      match func d1 with
      | Raised _ d2 =>
          match func d2 with
          | Raised _ d3 => Raised Py.RetryError d3
          | Done next d' => Done next d'
          end
      | Done next d' => Done next d'
      end
  | Done next d' => Done next d'
  end.

(** [questions[-1] = q] on a non-empty list. *)
Definition set_last (q : question) (qs : list question) : list question :=
  removelast qs ++ [q].

(** The body of [process_options], the handler of a text message in
    [TEACHER_ADD_OPTIONS].  [_finalize_question] pushes
    [TEACHER_FINISH_CREATION], forgets the data of the question steps (so
    the remembered options too) and returns that state. *)
Definition process_options_body (message_text : string) (d : draft)
    : outcome :=
  let options_input := sanitize_input message_text in
  let opts := parse_options options_input in
  match last (questions d) with
  | None => Raised Py.IndexError d
  | Some current_question =>
      let correct := correct_answer current_question in
      if negb (validate_options (Some <$> opts) correct) then
        Done States.TEACHER_ADD_OPTIONS d
      else
        let q' := set_options ((Some <$> opts) ++ [correct]) current_question in
        Done States.TEACHER_FINISH_CREATION
          (Draft (set_last q' (questions d)) (editing_question_idx d)
                 (editing_part d) None)
  end.

(** [process_options], as decorated with [@network_retry]. *)
Definition process_options (message_text : string) : draft → outcome :=
  network_retry (process_options_body message_text).

(** The body of [move_forward_options], the button "next" in
    [TEACHER_ADD_OPTIONS]; the options are the remembered ones, [[]] when
    there are none. *)
Definition move_forward_options_body (d : draft) : outcome :=
  let opts := default [] (saved_options d) in
  match last (questions d) with
  | None => Raised Py.IndexError d
  | Some current_question =>
      let correct := correct_answer current_question in
      if negb (validate_options (Some <$> opts) correct) then
        Done States.TEACHER_ADD_OPTIONS d
      else
        let q' := set_options ((Some <$> opts) ++ [correct]) current_question in
        Done States.TEACHER_FINISH_CREATION
          (Draft (set_last q' (questions d)) (editing_question_idx d)
                 (editing_part d) None)
  end.

(** [move_forward_options], as decorated with [@network_retry]. *)
Definition move_forward_options : draft → outcome :=
  network_retry move_forward_options_body.

(** The branches of [save_edited_question] on one question.  [None] stands
    for the early return after a failed validation. *)
Definition edit_question (part new_value : string) (q : question)
    : option question :=
  if decide (part = "options") then
    let opts := parse_options new_value in
    if negb (validate_options (Some <$> opts) (correct_answer q)) then None
    else Some (set_options ((Some <$> opts) ++ [correct_answer q]) q)
  else if decide (part = "text") then
    Some (set_text (Some new_value) q)
  else if decide (part = "correct") then
    let q1 := set_correct_answer (Some new_value) q in
    if bool_decide (q_type q1 = "test") && bool_decide (options q1 ≠ []) then
      Some (set_options
              (filter (fun opt => opt ≠ correct_answer q1) (options q1)
               ++ [Some new_value]) q1)
    else Some q1
  else if decide (part = "comment") then
    Some (set_check_comment (Some new_value) q)
  else Some q.

(** [show_question_list], as far as the returned state goes. *)
Definition show_question_list (d : draft) : outcome :=
  match questions d with
  | [] => Done States.TEACHER_QUESTION_TYPE d
  | _ :: _ => Done States.TEACHER_EDIT_QUESTIONS d
  end.

(** The body of [save_edited_question], the handler of a text message in
    [TEACHER_EDIT_QUESTION_CONTENT]. *)
Definition save_edited_question_body (message_text : string) (d : draft)
    : outcome :=
  let new_value := sanitize_input message_text in
  let idx := editing_question_idx d in
  match Py.index (questions d) idx with
  | None => Raised Py.IndexError d
  | Some question =>
      match edit_question (editing_part d) new_value question with
      | None => Done States.TEACHER_EDIT_QUESTION_CONTENT d
      | Some q' =>
          show_question_list
            (Draft (default (questions d) (Py.set_index (questions d) idx q'))
                   idx (editing_part d) (saved_options d))
      end
  end.

(** [save_edited_question], as decorated with [@network_retry]. *)
Definition save_edited_question (message_text : string) : draft → outcome :=
  network_retry (save_edited_question_body message_text).

End TeacherCreate.

(** ** logic/student_do_test.py: the scoring engine *)

Module StudentDoTest.

(** A question of a stored test, as the grader reads it: [question["type"]]
    and [question["correct_answer"]]. *)
Record question := Question {
  q_type : string;
  correct_answer : string
}.

(** The local variables that the loop of [_generate_score_report] carries
    from one question to the next. *)
Record loop_state := LoopState {
  report : list string;
  total_score : Z;
  max_score : Z;
  scores : gmap string Z;
  Comment_LLM : gmap string string
}.

(** The dictionary that [_generate_score_report] returns. *)
Record score_report := ScoreReport {
  report_text : string;
  sr_scores : gmap string Z;
  sr_Comment_LLM : gmap string string
}.

(** [int(x)] of a float: truncation towards zero. *)
Definition py_int (x : Q) : Z := Z.quot (Qnum x) (Z.pos (Qden x)).

(** The answer that stands for "no answer": [user_answers.get(idx, ...)]. *)
Definition NOT_ANSWERED : string := "Не отвечен".

Definition COMMENT_PREFIX : string :=
  "Комментарий модели-проверяющего (Grok-3): ".

(** The four comments of [_check_open_answer], chosen in this order. *)
Definition band_comment (score : Z) : string :=
  if (8 <=? score)%Z then "Ответ близок к правильному, отличная работа!"
  else if (5 <=? score)%Z then
    "Ответ частично правильный, но требует уточнений."
  else if (2 <=? score)%Z then
    "Ответ имеет некоторое сходство, но нуждается в доработке."
  else
    "Ответ не соответствует правильному, требуется более точное объяснение.".

(** [sum(d.values())] *)
Definition sum_values (d : gmap string Z) : Z :=
  map_fold (fun _ v acc => (v + acc)%Z) 0%Z d.

(** [(total_score / max_score) * 100 if max_score > 0 else 0] *)
Definition percentage (total_score max_score : Z) : Q :=
  if (0 <? max_score)%Z
  then (inject_Z total_score / inject_Z max_score * 100)%Q
  else 0%Q.

Section grader.

(** The library functions that the grader calls: [str.lower],
    [difflib.SequenceMatcher(None, a, b).ratio()] and the format [.1f]. *)
Variable lower : string → string.
Variable ratio : string → string → Q.
Variable format_1f : Q → string.

(** [_check_open_answer]:
<<
    similarity = SequenceMatcher(None, user_answer.lower(),
                                 correct_answer.lower()).ratio()
    score = int(similarity * 10)
    score = max(0, min(10, score))
    ...
    return score, f"Комментарий модели-проверяющего (Grok-3): {comment}"
>> *)
Definition _check_open_answer (user_answer correct_answer : string)
    : Z * string :=
  let similarity := ratio (lower user_answer) (lower correct_answer) in
  let score := py_int (similarity * 10)%Q in
  let score := Z.max 0 (Z.min 10 score) in
  (score, COMMENT_PREFIX +:+ band_comment score).

(** The body of the loop of [_generate_score_report] for the question
    [question] at position [idx]. *)
Definition grade_step (user_answers : gmap nat string) (idx : nat)
    (question : question) (st : loop_state) : loop_state :=
  let max_score' := (max_score st + 10)%Z in
  let user_answer := default NOT_ANSWERED (user_answers !! idx) in
  let '(status, question_score, total', llm') :=
    if decide (q_type question = "test") then
      if decide (user_answer = correct_answer question) then
        ("✅ Верно (+10 баллов)", 10%Z, (total_score st + 10)%Z,
         Comment_LLM st)
      else
        ("❌ Неверно" +:+ Py.nl +:+ "Правильный ответ: "
           +:+ correct_answer question +:+ Py.nl +:+ "Ваш ответ: "
           +:+ user_answer,
         0%Z, total_score st, Comment_LLM st)
    else
      let '(status, question_score, comment, total', llm1) :=
        if decide (user_answer = NOT_ANSWERED) then
          ("❌ Не отвечен", 0%Z, "", total_score st, Comment_LLM st)
        else
          let '(question_score, comment) :=
            _check_open_answer user_answer (correct_answer question) in
          ("📝 Оценка: " +:+ pretty question_score +:+ "/10" +:+ Py.nl
             +:+ "Ваш ответ: " +:+ user_answer +:+ Py.nl +:+ comment,
           question_score, comment, (total_score st + question_score)%Z,
           <[pretty idx := comment]> (Comment_LLM st)) in
      let llm2 :=
        if Py.truthy comment
        then <[pretty idx := Py.replace COMMENT_PREFIX "" comment]> llm1
        else llm1 in
      (status, question_score, total', llm2) in
  LoopState
    (report st ++ ["**Вопрос " +:+ pretty (idx + 1) +:+ ":**" +:+ Py.nl
                   +:+ status])
    total' max_score'
    (<[pretty idx := question_score]> (scores st))
    llm'.

(** The value of [question_score] at the end of the loop body. *)
Definition body_score (user_answers : gmap nat string) (idx : nat)
    (question : question) : Z :=
  let user_answer := default NOT_ANSWERED (user_answers !! idx) in
  if decide (q_type question = "test") then
    if decide (user_answer = correct_answer question) then 10%Z else 0%Z
  else if decide (user_answer = NOT_ANSWERED) then 0%Z
  else fst (_check_open_answer user_answer (correct_answer question)).

(** The value of [comment] at the end of the loop body. *)
Definition body_comment (user_answers : gmap nat string) (idx : nat)
    (question : question) : string :=
  let user_answer := default NOT_ANSWERED (user_answers !! idx) in
  if decide (q_type question = "test") then ""
  else if decide (user_answer = NOT_ANSWERED) then ""
  else Py.replace COMMENT_PREFIX ""
         (snd (_check_open_answer user_answer (correct_answer question))).

(** [for idx, question in enumerate(test["questions"])], from [idx] on. *)
Fixpoint grade_loop (user_answers : gmap nat string) (idx : nat)
    (questions : list question) (st : loop_state) : loop_state :=
  match questions with
  | [] => st
  | question :: rest =>
      grade_loop user_answers (S idx) rest
        (grade_step user_answers idx question st)
  end.

(** The variables before the loop. *)
Definition initial_state : loop_state :=
  LoopState ["📊 Результаты теста:"] 0 0 ∅ ∅.

(** The line of the report that gives the total:
    [f"\n💡 Итоговый балл: {total_score}/{max_score} ({percentage:.1f}%)"] *)
Definition total_line (total_score max_score : Z) : string :=
  Py.nl +:+ "💡 Итоговый балл: " +:+ pretty total_score +:+ "/"
    +:+ pretty max_score +:+ " ("
    +:+ format_1f (percentage total_score max_score) +:+ "%)".

Definition NOTICE : string :=
  "⚠ Это предварительная оценка. Итоговую оценку сообщит учитель.".

(** [_generate_score_report(test, user_answers)], [questions] being
    [test["questions"]]. *)
Definition _generate_score_report (questions : list question)
    (user_answers : gmap nat string) : score_report :=
  let st := grade_loop user_answers 0 questions initial_state in
  let report :=
    report st ++ [total_line (total_score st) (max_score st)] ++ [NOTICE] in
  ScoreReport (Py.join Py.nl report) (scores st) (Comment_LLM st).

End grader.

(** *** [start_appeal] *)

(** A naive [datetime], counted in microseconds; a [timedelta] likewise. *)
Definition datetime := Z.
Definition timedelta := Z.

(** [timedelta.total_seconds()] *)
Definition total_seconds (d : timedelta) : Q := (inject_Z d / 1000000)%Q.

(** An inline button: its label and its callback data. *)
Definition button : Type := string * string.

(** A message shown to the user: its text and its keyboard. *)
Record message := Message {
  m_text : string;
  m_keyboard : list (list button)
}.

(** [utils.create_back_button()] *)
Definition create_back_button : button := ("🔙 Назад", "back").

(** The entries of [context.user_data] that [start_appeal] reads and
    writes.  [test_completed_at] holds the moment that [finish_test] stored
    as ISO text; [datetime.fromisoformat] gives it back. *)
Record session := Session {
  test_completed_at : option datetime;
  questions : list question;
  sm : StateManager.user_data States.state string string
}.

Section appeal.

(** [datetime.strftime("%H:%M:%S")] *)
Variable strftime_HMS : datetime → string.

(** [[[InlineKeyboardButton(f"Вопрос {i+1}", callback_data=f"appeal_{i}")]
      for i in range(n)]] *)
Definition question_buttons (n : nat) : list (list button) :=
  (fun i => [("Вопрос " +:+ pretty (i + 1), "appeal_" +:+ pretty i)])
    <$> seq 0 n.

(** [start_appeal]: the message it shows, the state it returns and the
    session after the call.  The clock is read twice: [now] for the
    comparison with the completion time, [now'] for the time shown. *)
Definition start_appeal (now now' : datetime) (s : session)
    : message * States.state * session :=
  let expired :=
    match test_completed_at s with
    | Some completed_time =>
        negb (Qle_bool (total_seconds (now - completed_time)%Z) (24 * 3600)%Q)
    | None => false
    end in
  if expired then
    (Message "❌ Срок подачи апелляции (24 часа) истёк."
             [[create_back_button]],
     States.STUDENT_APPEAL_SELECT, s)
  else
    let keyboard :=
      question_buttons (length (questions s)) ++ [[create_back_button]] in
    let appeal_text :=
      "🔍 Выберите вопрос для апелляции (время: " +:+ strftime_HMS now'
        +:+ "):" in
    (Message appeal_text keyboard,
     States.STUDENT_APPEAL_SELECT,
     Session (test_completed_at s) (questions s)
             (StateManager.push States.STUDENT_APPEAL_SELECT (sm s))).

End appeal.

End StudentDoTest.

(** ** database.py *)

Module Database.

(** The appeal that a caller hands to [save_appeal]. *)
Record appeal_data := AppealData {
  ad_question_idx : Z;
  ad_student_comment : string;
  ad_status : string;
  ad_timestamp : string
}.

(** An appeal as stored inside a result. *)
Record appeal := Appeal {
  a_id : string;
  a_question_idx : Z;
  a_student_comment : string;
  a_status : string;
  a_timestamp : string;
  a_teacher_comment : option string;
  a_response_timestamp : option string
}.

(** A result as stored in [results.json].  The keys ["user_id"], ["scores"],
    ["comments"] and ["appeals"] may be missing. *)
Record result := Result {
  r_id : string;
  r_test_id : string;
  r_user_id : option string;
  r_student_info : string;
  r_answers : gmap string string;
  r_scores : option (gmap string Py.float);
  r_comments : option (gmap string string);
  r_Comment_LLM : gmap string string;
  r_appeals : option (list appeal);
  r_timestamp : string
}.

(** The value stored under a user id: [{"tests": [...]}], the key possibly
    missing. *)
Record user_record := UserRecord {
  tests : option (list result)
}.

(** The content of [results.json], in the order of the file. *)
Definition results_data : Type := list (string * user_record).

#[global] Instance appeal_eq_dec : EqDecision appeal.
Proof. solve_decision. Defined.

Definition set_appeals (l : option (list appeal)) (r : result) : result :=
  Result (r_id r) (r_test_id r) (r_user_id r) (r_student_info r)
         (r_answers r) (r_scores r) (r_comments r) (r_Comment_LLM r)
         l (r_timestamp r).

Definition set_id (i : string) (r : result) : result :=
  Result i (r_test_id r) (r_user_id r) (r_student_info r)
         (r_answers r) (r_scores r) (r_comments r) (r_Comment_LLM r)
         (r_appeals r) (r_timestamp r).

Definition set_user_id (u : option string) (r : result) : result :=
  Result (r_id r) (r_test_id r) u (r_student_info r)
         (r_answers r) (r_scores r) (r_comments r) (r_Comment_LLM r)
         (r_appeals r) (r_timestamp r).

Definition set_scores (sc : option (gmap string Py.float)) (r : result)
    : result :=
  Result (r_id r) (r_test_id r) (r_user_id r) (r_student_info r)
         (r_answers r) sc (r_comments r) (r_Comment_LLM r)
         (r_appeals r) (r_timestamp r).

(** [d.get(k)] on a dictionary kept in file order. *)
Fixpoint dict_get {V} (k : string) (d : list (string * V)) : option V :=
  match d with
  | [] => None
  | (k', v) :: d' => if decide (k' = k) then Some v else dict_get k d'
  end.

(** [d[k] = v]: an existing key keeps its place, a new key goes last. *)
Fixpoint dict_set {V} (k : string) (v : V) (d : list (string * V))
    : list (string * V) :=
  match d with
  | [] => [(k, v)]
  | (k', v') :: d' =>
      if decide (k' = k) then (k, v) :: d' else (k', v') :: dict_set k v d'
  end.

(** A record of the log: its level and its text. *)
Inductive log_record :=
| LogError (msg : string)
| LogInfo (msg : string).

(** [str(e)] for the exceptions of this module. *)
Definition exn_str (e : Py.exn) : string :=
  match e with
  | Py.ValueError msg => msg
  | Py.KeyError k => "'" +:+ k +:+ "'"
  | Py.IndexError => "list index out of range"
  | Py.TypeError => "TypeError"
  | Py.RetryError => "RetryError"
  end.

(** What a write task did: the records it logged, the file as it left it,
    and the exception that ended it, if any. *)
Record task_result := TaskResult {
  t_log : list log_record;
  t_file : results_data;
  t_raised : option Py.exn
}.

(** The database: the results file and the log. *)
Record db := Db {
  results_file : results_data;
  log : list log_record
}.

(** The stored form of [appeal_data] once [appeal_data["id"]] is set. *)
Definition stored (id : string) (a : appeal_data) : appeal :=
  Appeal id (ad_question_idx a) (ad_student_comment a) (ad_status a)
         (ad_timestamp a) None None.

(** The inner loop of [_save_appeal] over [test["appeals"]]: the first
    appeal on the same question is replaced and its id kept; without one
    the appeal is appended under a new id. *)
Fixpoint upsert_appeal (fresh_id : string) (a : appeal_data)
    (appeals : list appeal) : list appeal :=
  match appeals with
  | [] => [stored fresh_id a]
  | existing_appeal :: rest =>
      if decide (a_question_idx existing_appeal = ad_question_idx a)
      then stored (a_id existing_appeal) a :: rest
      else existing_appeal :: upsert_appeal fresh_id a rest
  end.

(** Whether the inner loop found an appeal to replace (it decides which of
    the two records is logged). *)
Definition has_appeal_on (q : Z) (appeals : list appeal) : bool :=
  bool_decide (Exists (fun e => a_question_idx e = q) appeals).

(** The outer loop of [_save_appeal] over [data[user_id]["tests"]]: the
    first result with the id is updated; [None] when there is none. *)
Fixpoint upsert_in_tests (fresh_id result_id : string) (a : appeal_data)
    (ts : list result) : option (list result) :=
  match ts with
  | [] => None
  | test :: rest =>
      if decide (r_id test = result_id) then
        let appeals := default [] (r_appeals test) in
        Some (set_appeals (Some (upsert_appeal fresh_id a appeals)) test
              :: rest)
      else (fun rest' => test :: rest') <$> upsert_in_tests fresh_id result_id a rest
  end.

(** The first result with the id among [ts]. *)
Definition find_result (result_id : string) (ts : list result)
    : option result :=
  find (fun t => bool_decide (r_id t = result_id)) ts.

(** The closure [_save_appeal] of [save_appeal], run on the content of the
    file.  [fresh_id] is the value of [str(uuid.uuid4())]. *)
Definition _save_appeal (fresh_id user_id result_id : string)
    (a : appeal_data) (data : results_data) : task_result :=
  let question_idx := ad_question_idx a in
  match dict_get user_id data ≫= tests with
  | None =>
      TaskResult
        [LogError ("Пользователь " +:+ user_id
                   +:+ " не найден или не имеет тестов")]
        data
        (Some (Py.ValueError ("Пользователь " +:+ user_id +:+ " не найден")))
  | Some ts =>
      match upsert_in_tests fresh_id result_id a ts with
      | None =>
          TaskResult
            [LogError ("Результат " +:+ result_id
                       +:+ " не найден для user_id=" +:+ user_id)]
            data
            (Some (Py.ValueError ("Результат " +:+ result_id
                                  +:+ " не найден")))
      | Some ts' =>
          let updated :=
            has_appeal_on question_idx
              (default [] (find_result result_id ts ≫= r_appeals)) in
          TaskResult
            [LogInfo ((if updated then "Апелляция обновлена для user_id="
                       else "Новая апелляция добавлена для user_id=")
                      +:+ user_id +:+ ", result_id=" +:+ result_id
                      +:+ ", вопрос " +:+ pretty question_idx)]
            (dict_set user_id (UserRecord (Some ts')) data)
            None
      end
  end.

(** The worker of [_start_orchestrator] on one task of the queue:
<<
    try:
        func()
    except Exception as e:
        logger.error(f"Ошибка в оркестраторе: {e}")
    self.write_queue.task_done()
>> *)
Definition worker (task : results_data → task_result) (d : db) : db :=
  let r := task (results_file d) in
  Db (t_file r)
     (log d ++ t_log r ++
      match t_raised r with
      | Some e => [LogError ("Ошибка в оркестраторе: " +:+ exn_str e)]
      | None => []
      end).

(** How a call ends for its caller. *)
Inductive call_end :=
| Returned
| Propagated (e : Py.exn).

(** [save_appeal]: the task is queued and the caller waits for the queue
    to be empty ([write_queue.join()]); the method then returns [None]. *)
Definition save_appeal (fresh_id user_id result_id : string)
    (a : appeal_data) (d : db) : call_end * db :=
  (Returned, worker (_save_appeal fresh_id user_id result_id a) d).

(** The closure [_save_result] of [save_result]. *)
Definition _save_result (fresh_id user_id : string) (result_data : result)
    (data : results_data) : task_result :=
  let data1 :=
    match dict_get user_id data with
    | None => dict_set user_id (UserRecord (Some [])) data
    | Some _ => data
    end in
  let stored_result := set_appeals (Some []) (set_id fresh_id result_data) in
  match dict_get user_id data1 ≫= tests with
  | None => TaskResult [] data (Some (Py.KeyError "tests"))
  | Some ts =>
      TaskResult
        [LogInfo ("Результат сохранён для пользователя " +:+ user_id
                  +:+ ", тест " +:+ r_test_id result_data)]
        (dict_set user_id (UserRecord (Some (ts ++ [stored_result]))) data1)
        None
  end.

(** [save_result]: the returned id is the one the task stored, [""] when
    the task raised before storing it. *)
Definition save_result (fresh_id user_id : string) (result_data : result)
    (d : db) : string * db :=
  let r := _save_result fresh_id user_id result_data (results_file d) in
  (match t_raised r with None => fresh_id | Some _ => "" end,
   worker (_save_result fresh_id user_id result_data) d).

(** [load_all_results]: every result of every user, in file order, with
    the user id written into it. *)
Definition load_all_results (data : results_data) : list result :=
  flat_map
    (fun '(user_id, user_data) =>
       set_user_id (Some user_id) <$> default [] (tests user_data))
    data.

(** [load_student_results] *)
Definition load_student_results (user_id : string) (data : results_data)
    : list result :=
  default [] (dict_get user_id data ≫= tests).

End Database.

(** ** logic/teacher_show_result.py: saving an edited score *)

Module TeacherShowResult.
Import Database.

(** A stored test, as [save_score] reads it: its id, its name and the
    texts of its questions. *)
Record test := Test {
  t_id : string;
  t_name : string;
  t_questions : list string
}.

(** A pending notification ("change"). *)
Record change := Change {
  c_type : string;
  c_student_id : option string;
  c_test_id : string;
  c_test_name : string;
  c_question_idx : Z;
  c_question_text : string;
  c_score : Py.float;
  c_comment : string;
  c_change_id : option string
}.

(** The entries of [context.user_data] that [save_score] reads and writes.
    A missing ["test_changes"] is the empty dictionary. *)
Record session := Session {
  current_result_id : option string;
  current_question_idx : option Z;
  current_test_id : option string;
  return_state : option States.state;
  test_changes : gmap string (list change)
}.

(** How the handler ends: with a state, with the tail call
    [_return_to_previous(update, context)], or with an exception. *)
Inductive handler_end :=
| Return (s : States.state)
| ReturnToPrevious
| Raise (e : Py.exn).

(** What the handler did: the file as it left it, the contents it passed
    to [_save_to_file] (one per call), the session, the texts it replied
    with, and how it ended. *)
Record handler_result := HandlerResult {
  h_file : results_data;
  h_writes : list results_data;
  h_session : session;
  h_replies : list string;
  h_end : handler_end
}.

(** [load_test_by_id] over the tests of the file, in file order. *)
Definition load_test_by_id (test_id : string) (tests : list test)
    : option test :=
  find (fun t => bool_decide (t_id t = test_id)) tests.

(** [_add_change]: nothing without a student id; otherwise the change gets
    its [change_id] and is appended to the changes of its test. *)
Definition _add_change (uuid : string) (c : change) (s : session) : session :=
  match c_student_id c with
  | Some student_id =>
      if Py.truthy student_id then
        let changes := default [] (test_changes s !! c_test_id c) in
        let change_id :=
          student_id +:+ "_" +:+ c_test_id c +:+ "_"
            +:+ pretty (c_question_idx c) +:+ "_" +:+ c_type c +:+ "_"
            +:+ uuid in
        let c' :=
          Change (c_type c) (c_student_id c) (c_test_id c) (c_test_name c)
                 (c_question_idx c) (c_question_text c) (c_score c)
                 (c_comment c) (Some change_id) in
        Session (current_result_id s) (current_question_idx s)
                (current_test_id s) (return_state s)
                (<[c_test_id c := changes ++ [c']]> (test_changes s))
      else s
  | None => s
  end.

(** [_get_user_id_by_result_id]: the user id of the first result with the
    id among [load_all_results()]. *)
Definition _get_user_id_by_result_id (result_id : string)
    (data : results_data) : option string :=
  find (fun r => bool_decide (r_id r = result_id)) (load_all_results data)
    ≫= r_user_id.

(** The search of [save_score] through the file:
<<
    for user_id, user_data in results_data.items():
        for r in user_data.get("tests", []):
            if r["id"] == result_id:
                result = r
                break
        if result:
            break
>> *)
Definition find_stored (result_id : string) (data : results_data)
    : option result :=
  find (fun r => bool_decide (r_id r = result_id))
       (flat_map (fun '(_, user_data) => default [] (tests user_data)) data).

(** The dictionaries are mutated in place: [f] is applied to the result
    that the search found, everything else stays where it is. *)
Fixpoint update_first (result_id : string) (f : result → result)
    (ts : list result) : option (list result) :=
  match ts with
  | [] => None
  | r :: rest =>
      if bool_decide (r_id r = result_id) then Some (f r :: rest)
      else (fun rest' => r :: rest') <$> update_first result_id f rest
  end.

Fixpoint update_stored (result_id : string) (f : result → result)
    (data : results_data) : results_data :=
  match data with
  | [] => []
  | (user_id, user_data) :: rest =>
      match update_first result_id f (default [] (tests user_data)) with
      | Some ts' => (user_id, UserRecord (Some ts')) :: rest
      | None => (user_id, user_data) :: update_stored result_id f rest
      end
  end.

(** [result.setdefault("scores", {})[key] = score] *)
Definition put_score (key : string) (score : Py.float) (r : result)
    : result :=
  set_scores (Some (<[key := score]> (default ∅ (r_scores r)))) r.

(** [result.get("scores", {}).get(key, 0)] *)
Definition get_score (key : string) (r : result) : Py.float :=
  default (Py.Finite 0%Qc) (default ∅ (r_scores r) !! key).

(** [result.get("comments", {}).get(key, "Нет")] *)
Definition get_comment (key : string) (r : result) : string :=
  default "Нет" (default ∅ (r_comments r) !! key).

(** [all([result_id, q_idx is not None, test_id])] and the three values. *)
Definition edit_target (s : session) : option (string * Z * string) :=
  match current_result_id s, current_question_idx s, current_test_id s with
  | Some result_id, Some q_idx, Some test_id =>
      if Py.truthy result_id && Py.truthy test_id
      then Some (result_id, q_idx, test_id)
      else None
  | _, _, _ => None
  end.

Section save_score.

(** [float(text)], [None] standing for its [ValueError]. *)
Variable py_float : string → option Py.float.

(** [TeacherResultsValidator.validate_score]:
<<
    try:
        return float(score_text)
    except ValueError:
        return None
>> *)
Definition validate_score (score_text : string) : option Py.float :=
  py_float score_text.

(** The second half of [save_score], after the file was written: the
    notification.  [result] is the result as mutated, [file] the file as
    written. *)
Definition notify (uuid result_id : string) (q_idx : Z) (test_id : string)
    (score : Py.float) (tests : list test) (file : results_data)
    (result : result) (s : session) : Py.exn + session :=
  let test := load_test_by_id test_id tests in
  let test_name :=
    match test with Some t => t_name t | None => "Неизвестный тест" end in
  let question_text :=
    match test with
    | Some t =>
        match Py.index (t_questions t) q_idx with
        | Some txt => inr (Py.take_str 50 txt +:+ "...")
        | None => inl Py.IndexError
        end
    | None => inr "Неизвестный вопрос"
    end in
  match question_text with
  | inl e => inl e
  | inr question_text =>
      let comment := get_comment (pretty q_idx) result in
      let student_id := r_user_id result in
      if negb (Py.truthy_opt student_id) then
        let student_id := _get_user_id_by_result_id result_id file in
        if negb (Py.truthy_opt student_id) then inr s
        else
          inr (_add_change uuid
                 (Change "score" student_id test_id test_name (q_idx + 1)%Z
                         question_text score comment None) s)
      else inr s
  end.

(** [save_score]: the handler of a text message in [TEACHER_EDIT_SCORE].
    [message] is [update.message] (its text), [tests] and [file] the two
    data files, [uuid] the value of [uuid.uuid4()] in [_add_change]. *)
Definition save_score (uuid : string) (message : option string)
    (tests : list test) (file : results_data) (s : session)
    : handler_result :=
  match message with
  | None => HandlerResult file [] s [] (Return States.TEACHER_EDIT_SCORE)
  | Some message_text =>
      let return_state :=
        default States.TEACHER_CHECK_ANSWERS (return_state s) in
      match edit_target s with
      | None =>
          HandlerResult file [] s
            ["Ошибка: данные для редактирования не найдены."]
            (Return return_state)
      | Some (result_id, q_idx, test_id) =>
          match validate_score (TeacherCreate.strip message_text) with
          | None =>
              HandlerResult file [] s
                ["Ошибка: оценка должна быть числом (например, 5.0)."]
                (Return States.TEACHER_EDIT_SCORE)
          | Some score =>
              match find_stored result_id file with
              | None =>
                  HandlerResult file [] s ["Ошибка: результат не найден."]
                    (Return return_state)
              | Some result =>
                  let old_score := get_score (pretty q_idx) result in
                  if Py.float_eq old_score score then
                    HandlerResult file [] s ["Оценка сохранена."]
                      ReturnToPrevious
                  else
                    let result' := put_score (pretty q_idx) score result in
                    let file' :=
                      update_stored result_id
                        (put_score (pretty q_idx) score) file in
                    match notify uuid result_id q_idx test_id score tests
                            file' result' s with
                    | inl e => HandlerResult file' [file'] s [] (Raise e)
                    | inr s' =>
                        HandlerResult file' [file'] s' ["Оценка сохранена."]
                          ReturnToPrevious
                    end
              end
          end
      end
  end.

End save_score.

End TeacherShowResult.

(** ** logic/student_do_test.py: the caller of [save_appeal] *)

Module StudentAppeal.
Import Database.

(** The entries of [context.user_data] that [process_appeal_comment] reads
    and writes. *)
Record session := Session {
  user_id : option string;
  current_result_id : option string;
  appeal_question_idx : option Z;
  questions : list StudentDoTest.question;
  sm : StateManager.user_data States.state string string
}.

(** What the handler did: its reply, the state it returns, the session and
    the database after it; or the exception that escaped it. *)
Inductive handled :=
| Handled (reply : StudentDoTest.message) (next : States.state)
    (s : session) (d : db)
| Escaped (e : Py.exn).

Section handler.

(** [datetime.isoformat()] and [datetime.strftime("%H:%M:%S")] *)
Variable isoformat : StudentDoTest.datetime → string.
Variable strftime_HMS : StudentDoTest.datetime → string.

(** [network_retry] of [StudentTestHandler]:
<<
    @retry(stop=stop_after_attempt(3), wait=wait_fixed(1))
    async def wrapper(self, *args, **kwargs):
        try:
            return await func(self, *args, **kwargs)
        except (NetworkError, TimedOut) as e: ... raise
        except BadRequest as e: ...
>>
    Whatever [func] raises makes [retry] call it again; after the third
    failure [retry] raises [RetryError].  The body below raises only
    before its first write, so every attempt starts from the session and
    the database that the call was given. *)
Definition network_retry (func : session → db → handled) (s : session)
    (d : db) : handled :=
  match func s d with
  | Escaped _ =>
      match func s d with
      | Escaped _ =>
          match func s d with
          | Escaped _ => Escaped Py.RetryError
          | handled => handled
          end
      | handled => handled
      end
  | handled => handled
  end.

(** The body of [process_appeal_comment], the handler of a text message
    in [STUDENT_APPEAL_COMMENT].  [now] is the clock, [fresh_id] the value
    of [uuid.uuid4()] inside [save_appeal]. *)
Definition process_appeal_comment_body (now : StudentDoTest.datetime)
    (fresh_id message_text : string) (s : session) (d : db) : handled :=
  let comment := TeacherCreate.strip (Py.take_str 500 message_text) in
  if negb (Py.truthy comment) then
    Handled
      (StudentDoTest.Message
         "❌ Комментарий не может быть пустым. Попробуйте ещё раз."
         [[StudentDoTest.create_back_button]])
      States.STUDENT_APPEAL_COMMENT s d
  else
    let user := default "unknown" (user_id s) in
    match current_result_id s, appeal_question_idx s with
    | None, _ => Escaped (Py.KeyError "current_result_id")
    | Some _, None => Escaped (Py.KeyError "appeal_question_idx")
    | Some result_id, Some question_idx =>
        let sm1 :=
          StateManager.set_data States.STUDENT_APPEAL_COMMENT
            ("comment_" +:+ pretty question_idx) comment (sm s) in
        let s1 :=
          Session (user_id s) (current_result_id s) (appeal_question_idx s)
                  (questions s) sm1 in
        let appeal :=
          AppealData question_idx comment "pending" (isoformat now) in
        match save_appeal fresh_id user result_id appeal d with
        | (Propagated _, d') =>
            Handled
              (StudentDoTest.Message
                 "❌ Ошибка при сохранении апелляции. Попробуйте снова."
                 [[StudentDoTest.create_back_button]])
              States.STUDENT_APPEAL_COMMENT s1 d'
        | (Returned, d') =>
            let keyboard :=
              StudentDoTest.question_buttons (length (questions s))
                ++ [[StudentDoTest.create_back_button]] in
            let appeal_text :=
              "✅ Апелляция по вопросу " +:+ pretty (question_idx + 1)%Z
                +:+ " отправлена (время: " +:+ strftime_HMS now +:+ "):"
                +:+ Py.nl +:+ "🔍 Выберите другой вопрос для апелляции:" in
            Handled (StudentDoTest.Message appeal_text keyboard)
              States.STUDENT_APPEAL_SELECT
              (Session (user_id s) (current_result_id s)
                       (appeal_question_idx s) (questions s)
                       (StateManager.push States.STUDENT_APPEAL_SELECT sm1))
              d'
        end
    end.

(** [process_appeal_comment], as decorated with [@network_retry]. *)
Definition process_appeal_comment (now : StudentDoTest.datetime)
    (fresh_id message_text : string) : session → db → handled :=
  network_retry (process_appeal_comment_body now fresh_id message_text).

End handler.

End StudentAppeal.

(** ** More of Python's strings *)

Module PyStr.

(** [s.split(sep)] for a separator of one character, on a list of
    characters: the pieces between the separators, the piece in progress
    being [cur] (reversed). *)
Fixpoint split_go (sep : Py.char) (cur : list Py.char) (s : list Py.char)
    : list (list Py.char) :=
  match s with
  | [] => [reverse cur]
  | c :: s' =>
      if decide (c = sep) then reverse cur :: split_go sep [] s'
      else split_go sep (c :: cur) s'
  end.

(** [sep] is a character of one byte. *)
Definition split (sep : ascii) (s : string) : list string :=
  Py.str <$> split_go [sep] [] (Py.chars s).

(** What the encoding of every [str] does: it does not begin with a
    continuation byte. *)
Definition proper (s : string) : Prop :=
  Py.starts_cont (String.list_ascii_of_string s) = false.

End PyStr.

(** ** logic/teacher_create.py: [split_message] *)

Module TeacherCreateText.

(** The loop of [split_message] over the lines of the text:
<<
    for line in text.split("\n"):
        if len(current_part) + len(line) + 1 > max_length:
            parts.append(current_part)
            current_part = line + "\n"
        else:
            current_part += line + "\n"
>> *)
Fixpoint split_loop (max_length : nat) (lines : list string)
    (parts : list string) (current_part : string) : list string * string :=
  match lines with
  | [] => (parts, current_part)
  | line :: rest =>
      if max_length <? Py.len current_part + Py.len line + 1
      then split_loop max_length rest (parts ++ [current_part])
             (line +:+ Py.nl)
      else split_loop max_length rest parts
             (current_part +:+ line +:+ Py.nl)
  end.

(** [split_message(text, max_length)] *)
Definition split_message (text : string) (max_length : nat) : list string :=
  let '(parts, current_part) :=
    split_loop max_length (PyStr.split "010" text) [] "" in
  if Py.truthy current_part then parts ++ [current_part] else parts.

(** The lines of a text written one after the other, each followed by a
    line break. *)
Definition lines_text (lines : list string) : string :=
  Py.join "" ((fun line => line +:+ Py.nl) <$> lines).

(** Two notions for the statements about [sanitize_input] and
    [parse_options].  In a list of characters no blank is followed by a
    blank: *)
Definition single_blanks (l : list Py.char) : Prop :=
  ∀ i c c', l !! i = Some c → l !! S i = Some c' →
            TeacherCreate.is_space c = true →
            TeacherCreate.is_space c' = false.

(** An option as the teacher means it: not empty, without a comma, without
    a blank at either end. *)
Definition well_formed_option (o : string) : Prop :=
  o ≠ "" ∧ (TeacherCreate.comma ∉ Py.chars o) ∧ TeacherCreate.strip o = o.

End TeacherCreateText.

(** ** logic/teacher_show_result.py: [split_message] *)

Module TeacherShowResultText.

(** The line break, as a character. *)
Definition newline : Py.char := ["010"%char].

(** [s.rfind(c)] on a list of characters: the last position of [c], [None]
    standing for -1.  [i] is the position of the head of [l] and [found]
    the last position seen so far. *)
Fixpoint rfind_go (c : Py.char) (l : list Py.char) (i : nat)
    (found : option nat) : option nat :=
  match l with
  | [] => found
  | x :: l' => rfind_go c l' (S i) (if decide (x = c) then Some i else found)
  end.

Definition rfind (c : Py.char) (l : list Py.char) : option nat :=
  rfind_go c l 0 None.

(** The loop of [split_message]:
<<
    while text:
        if len(text) <= max_length:
            parts.append(text)
            break
        split_idx = text[:max_length].rfind('\n')
        if split_idx == -1:
            split_idx = text[:max_length].rfind(' ')
        if split_idx == -1:
            split_idx = max_length
        parts.append(text[:split_idx])
        text = text[split_idx:].strip()
>>
    [fuel] bounds the number of times the condition of the loop is
    evaluated; [None] tells that it did not suffice. *)
Fixpoint split_loop (fuel : nat) (max_length : nat) (text : list Py.char)
    (parts : list (list Py.char)) : option (list (list Py.char)) :=
  match fuel with
  | O => None
  | S fuel' =>
      match text with
      | [] => Some parts
      | _ :: _ =>
          if length text <=? max_length then Some (parts ++ [text])
          else
            let split_idx :=
              match rfind newline (take max_length text) with
              | Some i => i
              | None =>
                  match rfind TeacherCreate.space (take max_length text) with
                  | Some i => i
                  | None => max_length
                  end
              end in
            split_loop fuel' max_length
              (TeacherCreate.strip_chars (drop split_idx text))
              (parts ++ [take split_idx text])
      end
  end.

(** [split_message(text, max_length)] *)
Definition split_message (fuel : nat) (text : string) (max_length : nat)
    : option (list string) :=
  if Py.len text <=? max_length then Some [text]
  else
    fmap (M:=list) Py.str
      <$> split_loop fuel max_length (Py.chars text) [].

End TeacherShowResultText.

(** ** utils.py: the history of states *)

Module Utils.
Section state_history.

Context {St : Type} `{EqDecision St}.

(** [push_state]: the entry ["state_history"] of [context.user_data],
    [None] when the key is missing, is created when missing; the state is
    appended unless it is the last one already. *)
Definition push_state (state : St) (state_history : option (list St))
    : option (list St) :=
  let h := default [] state_history in
  match last h with
  | None => Some (h ++ [state])
  | Some s => if decide (s = state) then Some h else Some (h ++ [state])
  end.

(** [pop_state]: the state returned and the entry after the call. *)
Definition pop_state (state_history : option (list St))
    : option St * option (list St) :=
  match state_history with
  | Some (s :: l) => (last (s :: l), Some (removelast (s :: l)))
  | _ => (None, state_history)
  end.

(** What a dialogue does to the history: pushes and pops in any order. *)
Inductive history_op := PushState (s : St) | PopState.

Definition run_history_op (o : history_op) (h : option (list St))
    : option (list St) :=
  match o with
  | PushState s => push_state s h
  | PopState => snd (pop_state h)
  end.

End state_history.
Global Arguments history_op : clear implicits.
End Utils.

(** ** database.py: the tests file and the list of all appeals *)

Module DatabaseTests.
Import Database.

(** A test as [reset_state] of [logic/teacher_create.py] lays it out; every
    field starts at [None] or empty. *)
Record test := Test {
  t_id : option string;
  subject : option string;
  classes : list string;
  name : option string;
  questions : list TeacherCreate.question;
  global_comment : option string;
  teacher_id : option string;
  created_at : option string
}.

(** The value stored under a teacher id: [{"tests": [...]}], the key
    possibly missing. *)
Record teacher_record := TeacherRecord {
  tests : option (list test)
}.

(** The content of [tests.json], in the order of the file. *)
Definition tests_data : Type := list (string * teacher_record).

(** [str(x)] of a string or [None]. *)
Definition py_str (x : option string) : string := default "None" x.

(** What the task of [save_test] did: the records it logged, the file as
    it left it, the exception that ended it, and the test as it left it
    (the caller's dictionary is mutated in place). *)
Record task_result := TaskResult {
  k_log : list log_record;
  k_file : tests_data;
  k_raised : option Py.exn;
  k_test : test
}.

(** The closure [_save_test] of [save_test], run on the content of the
    file.  [fresh_id] is the value of [str(uuid.uuid4())] and [now_iso] the
    value of [datetime.now().isoformat()]. *)
Definition _save_test (fresh_id now_iso : string) (test_data : test)
    (data : tests_data) : task_result :=
  let teacher := py_str (teacher_id test_data) in
  let data1 :=
    match dict_get teacher data with
    | None => dict_set teacher (TeacherRecord (Some [])) data
    | Some _ => data
    end in
  let test_data' :=
    Test (Some fresh_id) (subject test_data) (classes test_data)
         (name test_data) (questions test_data) (global_comment test_data)
         (Some teacher) (Some now_iso) in
  match dict_get teacher data1 ≫= tests with
  | None => TaskResult [] data (Some (Py.KeyError "tests")) test_data'
  | Some ts =>
      TaskResult
        [LogInfo ("Тест сохранён с ID " +:+ fresh_id +:+ " для teacher_id "
                  +:+ teacher)]
        (dict_set teacher (TeacherRecord (Some (ts ++ [test_data']))) data1)
        None test_data'
  end.

(** The tests file and the log. *)
Record db := Db {
  tests_file : tests_data;
  log : list log_record
}.

(** [save_test]: the task goes through the worker of the orchestrator,
    which logs the exception of a task and goes on; the returned id is the
    one the task stored, [""] when the task raised before storing it. *)
Definition save_test (fresh_id now_iso : string) (test_data : test) (d : db)
    : string * db :=
  let r := _save_test fresh_id now_iso test_data (tests_file d) in
  (match k_raised r with None => fresh_id | Some _ => "" end,
   Db (k_file r)
      (log d ++ k_log r ++
       match k_raised r with
       | Some e => [LogError ("Ошибка в оркестраторе: " +:+ exn_str e)]
       | None => []
       end)).

(** [load_teacher_tests] *)
Definition load_teacher_tests (teacher : string) (data : tests_data)
    : list test :=
  default [] (dict_get teacher data ≫= tests).

(** The tests that the two loops of [load_test_by_id] go through:
<<
    for teacher_data in tests_data.values():
        for test in teacher_data.get("tests", []):
>> *)
Definition all_tests (data : tests_data) : list test :=
  flat_map (fun '(_, teacher_data) => default [] (tests teacher_data)) data.

(** [load_test_by_id]: the first test with the id. *)
Definition load_test_by_id (test_id : string) (data : tests_data)
    : option test :=
  find (fun t => bool_decide (t_id t = Some test_id)) (all_tests data).

(** An appeal as [load_all_appeals] hands it out: the stored appeal with
    the keys ["user_id"] and ["test_id"] written into it. *)
Record listed_appeal := ListedAppeal {
  la_appeal : appeal;
  la_user_id : string;
  la_test_id : string
}.

(** [load_all_appeals]:
<<
    for user_id, user_data in data.items():
        for test in user_data.get("tests", []):
            for appeal in test.get("appeals", []):
                appeal["user_id"] = user_id
                appeal["test_id"] = test["test_id"]
                all_appeals.append(appeal)
>> *)
Definition load_all_appeals (data : results_data) : list listed_appeal :=
  flat_map
    (fun '(user_id, user_data) =>
       flat_map
         (fun test =>
            (fun appeal => ListedAppeal appeal user_id (r_test_id test))
              <$> default [] (r_appeals test))
         (default [] (Database.tests user_data)))
    data.

End DatabaseTests.

(** ** logic/student_do_test.py: answering the questions *)

Module StudentAnswering.

(** A question of the test being taken, as the handlers and the grader
    read it. *)
Record question := Question {
  q_type : string;
  text : string;
  options : list string;
  correct_answer : string
}.

(** The part of a question that the grader reads. *)
Definition graded (q : question) : StudentDoTest.question :=
  StudentDoTest.Question (q_type q) (correct_answer q).

Section answering.

(** The dialogue states of this part of the flow and
    [ConversationHandler.END].  They are constants of [states] and of the
    Telegram library; the handlers only return and push them. *)
Context {St : Type} `{Countable St}.
Variables STUDENT_MAIN STUDENT_ANSWER_QUESTIONS STUDENT_REVIEW_ANSWERS END
  : St.

(** [datetime.strftime("%H:%M:%S")] and [int(text)], [None] standing for
    its [ValueError]. *)
Variable strftime_HMS : StudentDoTest.datetime → string.
Variable py_int : string → option Z.

(** The entries of [context.user_data] that the handlers read and write.
    ["questions"] and ["user_answers"] are present from [start_test] on; a
    missing ["current_question_idx"] reads as 0 and is kept as such. *)
Record session := Session {
  questions : list question;
  current_question_idx : Z;
  current_test_id : option string;
  user_answers : gmap Z string;
  test_started : bool;
  sm : StateManager.user_data St string string
}.

Definition set_idx (i : Z) (s : session) : session :=
  Session (questions s) i (current_test_id s) (user_answers s)
          (test_started s) (sm s).

Definition set_sm (m : StateManager.user_data St string string)
    (s : session) : session :=
  Session (questions s) (current_question_idx s) (current_test_id s)
          (user_answers s) (test_started s) m.

(** What a handler hands back: the message it showed last, the state it
    returns and the session; or the exception that escaped it and the
    session at that moment. *)
Inductive outcome :=
| Shown (reply : StudentDoTest.message) (next : St) (s : session)
| Raised (e : Py.exn) (s : session).

(** For the statements: the outcome [o] is a reply whose session has the
    questions of [s], the index [i] and the answers [ua]. *)
Definition shows (s : session) (i : Z) (ua : gmap Z string) (o : outcome)
    : Prop :=
  match o with
  | Shown _ _ s' =>
      questions s' = questions s ∧ current_question_idx s' = i
      ∧ user_answers s' = ua
  | Raised _ _ => False
  end.

(** [network_retry]:
<<
    @retry(stop=stop_after_attempt(3), wait=wait_fixed(1))
    async def wrapper(self, *args, **kwargs):
        try:
            return await func(self, *args, **kwargs)
        except (NetworkError, TimedOut) as e: ... raise
        except BadRequest as e: ...
>>
    Whatever [func] raises leaves [wrapper] and makes [retry] call it
    again, on [context.user_data] as the failed attempt left it; after the
    third failure [retry] raises [RetryError]. *)
Definition network_retry (func : session → outcome) (s : session)
    : outcome :=
  match func s with
  | Raised _ s1 =>
      match func s1 with
      | Raised _ s2 =>
          match func s2 with
          | Raised _ s3 => Raised Py.RetryError s3
          | Shown reply next s' => Shown reply next s'
          end
      | Shown reply next s' => Shown reply next s'
      end
  | Shown reply next s' => Shown reply next s'
  end.

(** The body of [show_review].  [now] is the clock, [uuid4 i] the value of
    the call of [uuid.uuid4()] for the button number [i].  The review is
    the last thing that a call of any handler below does, and nothing
    fails after it: the clock is read once in a call, retries included. *)
Definition show_review_body (now : StudentDoTest.datetime)
    (uuid4 : nat → string) (s : session) : outcome :=
  let review_text :=
    "📝 Проверьте ваши ответы (время: " +:+ strftime_HMS now +:+ "):" in
  let n := length (questions s) in
  let keyboard :=
    ((fun i => [("Вопрос " +:+ pretty (i + 1),
                 "edit_" +:+ pretty i +:+ "_" +:+ uuid4 i)]) <$> seq 0 n)
    ++ [[("✅ Завершить тест", "finish_" +:+ uuid4 n)]] in
  Shown (StudentDoTest.Message review_text keyboard)
        STUDENT_REVIEW_ANSWERS
        (set_sm (StateManager.push STUDENT_REVIEW_ANSWERS (sm s)) s).

(** [show_review], as decorated with [@network_retry]. *)
Definition show_review (now : StudentDoTest.datetime)
    (uuid4 : nat → string) : session → outcome :=
  network_retry (show_review_body now uuid4).

(** [_generate_question_markup]: one row per option of a closed question,
    then the row of the navigation buttons. *)
Definition _generate_question_markup (s : session)
    : option (list (list StudentDoTest.button)) :=
  let idx := current_question_idx s in
  question ← Py.index (questions s) idx;
  let buttons :=
    if decide (q_type question = "test") then
      imap (fun opt_idx opt => [(opt, "ans_" +:+ pretty opt_idx)])
           (options question)
    else [] in
  let nav_buttons :=
    (if bool_decide (0 < idx)%Z then [("◀️ Назад", "prev")] else [])
    ++ (if bool_decide (idx < Z.of_nat (length (questions s)) - 1)%Z
        then [("Вперед ▶️", "next")] else [])
    ++ [("📝 Завершить", "review")] in
  Some (buttons ++ [nav_buttons]).

(** The body of [show_question]. *)
Definition show_question_body (now : StudentDoTest.datetime)
    (uuid4 : nat → string) (s : session) : outcome :=
  let idx := current_question_idx s in
  if bool_decide (Z.of_nat (length (questions s)) ≤ idx)%Z then
    show_review now uuid4 s
  else
    match Py.index (questions s) idx, _generate_question_markup s with
    | Some question, Some markup =>
        let user_answer := user_answers s !! idx in
        let text :=
          "❓ Вопрос " +:+ pretty (idx + 1)%Z +:+ "/"
            +:+ pretty (length (questions s)) +:+ ":" +:+ Py.nl
            +:+ text question
            +:+ (if Py.truthy_opt user_answer
                 then Py.nl +:+ Py.nl +:+ "Ваш ответ: "
                        +:+ default "" user_answer
                 else "") in
        Shown (StudentDoTest.Message text markup)
              STUDENT_ANSWER_QUESTIONS
              (Session (questions s) idx (current_test_id s)
                       (user_answers s) false
                       (StateManager.push STUDENT_ANSWER_QUESTIONS (sm s)))
    | _, _ => Raised Py.IndexError s
    end.

(** [show_question], as decorated with [@network_retry]. *)
Definition show_question (now : StudentDoTest.datetime)
    (uuid4 : nat → string) : session → outcome :=
  network_retry (show_question_body now uuid4).

(** The common end of [process_answer] and [process_choice]: the answer is
    recorded for the current question, then the next question is shown, or
    the review after the last one. *)
Definition record_answer (now : StudentDoTest.datetime)
    (uuid4 : nat → string) (answer : string) (s : session) : outcome :=
  let idx := current_question_idx s in
  let s1 :=
    Session (questions s) idx (current_test_id s)
            (<[idx := answer]> (user_answers s)) (test_started s)
            (StateManager.set_data STUDENT_ANSWER_QUESTIONS
               ("answer_" +:+ pretty idx) answer (sm s)) in
  if bool_decide (idx < Z.of_nat (length (questions s)) - 1)%Z then
    show_question now uuid4 (set_idx (idx + 1)%Z s1)
  else show_review now uuid4 s1.

(** The body of [process_answer], the handler of a text message while a
    question is shown. *)
Definition process_answer_body (now : StudentDoTest.datetime)
    (uuid4 : nat → string) (message_text : string) (s : session) : outcome :=
  let answer := TeacherCreate.strip message_text in
  if negb (Py.truthy answer) then
    Shown (StudentDoTest.Message
             "❌ Ответ не может быть пустым. Попробуйте ещё раз."
             [[StudentDoTest.create_back_button]])
          STUDENT_ANSWER_QUESTIONS s
  else record_answer now uuid4 answer s.

(** [process_answer], as decorated with [@network_retry]. *)
Definition process_answer (now : StudentDoTest.datetime)
    (uuid4 : nat → string) (message_text : string) : session → outcome :=
  network_retry (process_answer_body now uuid4 message_text).

(** The body of [process_choice], the handler of the buttons of the
    options; [data] is the callback data of the button.  Only the
    [ValueError] of [int] is caught. *)
Definition process_choice_body (now : StudentDoTest.datetime)
    (uuid4 : nat → string) (data : string) (s : session) : outcome :=
  let parts := PyStr.split "_" data in
  match parts !! 1%nat with
  | None =>
      Shown (StudentDoTest.Message "❌ Ошибка выбора ответа." [])
            STUDENT_ANSWER_QUESTIONS s
  | Some part1 =>
      let idx := current_question_idx s in
      match Py.index (questions s) idx with
      | None => Raised Py.IndexError s
      | Some question =>
          match py_int part1 with
          | None =>
              Shown (StudentDoTest.Message "❌ Неверный формат ответа!" [])
                    STUDENT_ANSWER_QUESTIONS s
          | Some option_idx =>
              if bool_decide
                   (Z.of_nat (length (options question)) ≤ option_idx)%Z
              then
                Shown (StudentDoTest.Message "❌ Неверный вариант ответа!" [])
                      STUDENT_ANSWER_QUESTIONS s
              else
                match Py.index (options question) option_idx with
                | None => Raised Py.IndexError s
                | Some chosen_option =>
                    record_answer now uuid4 chosen_option s
                end
          end
      end
  end.

(** [process_choice], as decorated with [@network_retry]. *)
Definition process_choice (now : StudentDoTest.datetime)
    (uuid4 : nat → string) (data : string) : session → outcome :=
  network_retry (process_choice_body now uuid4 data).

(** The body of [navigate_questions], the handler of the buttons "prev",
    "next" and "review"; [action] is the callback data. *)
Definition navigate_questions_body (now : StudentDoTest.datetime)
    (uuid4 : nat → string) (action : string) (s : session) : outcome :=
  match questions s with
  | [] =>
      Shown (StudentDoTest.Message "❌ Нет вопросов для навигации!" []) END s
  | _ :: _ =>
      let current_idx := current_question_idx s in
      let n := Z.of_nat (length (questions s)) in
      if bool_decide (action = "prev") && bool_decide (0 < current_idx)%Z then
        show_question now uuid4 (set_idx (current_idx - 1)%Z s)
      else if bool_decide (action = "next")
              && bool_decide (current_idx < n - 1)%Z then
        show_question now uuid4 (set_idx (current_idx + 1)%Z s)
      else if bool_decide (action = "review") then show_review now uuid4 s
      else show_question now uuid4 (set_idx current_idx s)
  end.

(** [navigate_questions], as decorated with [@network_retry]. *)
Definition navigate_questions (now : StudentDoTest.datetime)
    (uuid4 : nat → string) (action : string) : session → outcome :=
  network_retry (navigate_questions_body now uuid4 action).

(** [reset_state]; the entry ["current_test"], which only the steps of the
    selection of a test read, is not kept in [session]. *)
Definition reset_state (s : session) : session :=
  Session (questions s) 0 None ∅ (test_started s)
          (StateManager.clear_data (sm s)).

(** The body of [cancel_test]. *)
Definition cancel_test_body (s : session) : outcome :=
  let s1 := reset_state s in
  Shown (StudentDoTest.Message "🏠 Меню учащегося:"
           [[("📝 Начать проверочную работу", "start_test")];
            [("📊 Посмотреть работы", "view_results")];
            [("🔙 Назад", "back")]])
        STUDENT_MAIN
        (set_sm (StateManager.push STUDENT_MAIN (sm s1)) s1).

(** [cancel_test], as decorated with [@network_retry]. *)
Definition cancel_test : session → outcome := network_retry cancel_test_body.

(** The body of [edit_answer], the handler of the buttons of the review;
    [data] is the callback data.  Whatever the parsing of the data raises
    is caught and ends in [cancel_test]. *)
Definition edit_answer_body (now : StudentDoTest.datetime)
    (uuid4 : nat → string) (data : string) (s : session) : outcome :=
  let parts := PyStr.split "_" data in
  match parts !! 1%nat ≫= py_int with
  | None => cancel_test s
  | Some question_idx =>
      show_question now uuid4 (set_idx question_idx s)
  end.

(** [edit_answer], as decorated with [@network_retry]. *)
Definition edit_answer (now : StudentDoTest.datetime) (uuid4 : nat → string)
    (data : string) : session → outcome :=
  network_retry (edit_answer_body now uuid4 data).

End answering.

Global Arguments session _ {_ _}.
Global Arguments outcome _ {_ _}.

End StudentAnswering.

(* ===================================================================== *)
(** * Part II: properties *)
(* ===================================================================== *)

(** ** The state manager *)

Section state_manager_facts.
Import StateManager.
Context {St Key Val : Type}.
Context `{Countable St, Countable Key}.
Implicit Types (ud : user_data St Key Val) (state : St) (key : Key).
Implicit Types (value dflt : Val) (os : list (stack_op St)).

Lemma pop_push state ud : pop (push state ud) = (Some state, ud).
Proof.
  destruct ud as [stk sd]. unfold pop, push; simpl.
  destruct (stk ++ [state]) eqn:E.
  - by destruct stk.
  - rewrite <- E, last_snoc, removelast_last. done.
Qed.

Lemma current_push state ud : current (push state ud) = Some state.
Proof.
  destruct ud as [stk sd]. unfold current, push; simpl.
  destruct (stk ++ [state]) eqn:E.
  - by destruct stk.
  - by rewrite <- E, last_snoc.
Qed.

Lemma pop_keeps_data ud : state_data (snd (pop ud)) = state_data ud.
Proof. unfold pop. by destruct (state_stack ud). Qed.

Lemma run_op_keeps_data (o : stack_op St) ud :
  state_data (run_op o ud) = state_data ud.
Proof. destruct o as [s|]; simpl; [done|apply pop_keeps_data]. Qed.

Lemma run_ops_keeps_data os ud : state_data (run_ops os ud) = state_data ud.
Proof.
  unfold run_ops. revert ud.
  induction os as [|o os IH]; intros ud; simpl; [done|].
  by rewrite IH, run_op_keeps_data.
Qed.

Lemma get_data_run_ops os state key dflt ud :
  get_data state key dflt (run_ops os ud) = get_data state key dflt ud.
Proof. unfold get_data. by rewrite run_ops_keeps_data. Qed.

Lemma get_set_data state key value dflt ud :
  get_data state key dflt (set_data state key value ud) = value.
Proof.
  unfold get_data, set_data; simpl.
  by rewrite lookup_insert_eq; simpl; rewrite lookup_insert_eq.
Qed.

Lemma get_set_data_other_state state state' key key' value dflt ud :
  state ≠ state' →
  get_data state' key' dflt (set_data state key value ud)
  = get_data state' key' dflt ud.
Proof.
  intros Hne. unfold get_data, set_data; simpl.
  rewrite lookup_insert_ne by done.
  destruct (state_data ud !! state) eqn:E; simpl; [done|].
  by rewrite lookup_insert_ne.
Qed.

Lemma clear_state_data_delete state ud :
  state_data (clear_state_data state ud) = delete state (state_data ud).
Proof.
  unfold clear_state_data.
  destruct (state_data ud !! state) eqn:E; simpl; [done|].
  by rewrite delete_id.
Qed.

Lemma clear_state_data_stack state ud :
  state_stack (clear_state_data state ud) = state_stack ud.
Proof. unfold clear_state_data. by destruct (state_data ud !! state). Qed.

Lemma clear_state_data_lookup state state' ud :
  state_data (clear_state_data state ud) !! state'
  = if decide (state' = state) then None else state_data ud !! state'.
Proof.
  rewrite clear_state_data_delete. case_decide as E.
  - subst. apply lookup_delete_eq.
  - by apply lookup_delete_ne.
Qed.

(** C9.  For the session state manager: [push(s)] followed by [pop()]
    returns [s] and leaves the session as it was before the push; after
    [set_data(s, k, v)], [get_data(s, k)] returns [v] whatever pushes and
    pops come in between; [clear_state_data(s)] leaves the stack alone,
    removes the data stored under [s] and leaves the data of every other
    state as it was. *)
Theorem state_manager_laws state key value dflt os ud :
  pop (push state ud) = (Some state, ud)
  ∧ get_data state key dflt (run_ops os (set_data state key value ud)) = value
  ∧ state_stack (clear_state_data state ud) = state_stack ud
  ∧ (∀ state', state_data (clear_state_data state ud) !! state'
               = if decide (state' = state) then None
                 else state_data ud !! state')
  ∧ (∀ state' key' dflt',
       get_data state' key' dflt' (clear_state_data state ud)
       = if decide (state' = state) then dflt'
         else get_data state' key' dflt' ud).
Proof.
  split; [apply pop_push|].
  split; [by rewrite get_data_run_ops, get_set_data|].
  split; [apply clear_state_data_stack|].
  split; [intros; apply clear_state_data_lookup|].
  intros state' key' dflt'. unfold get_data.
  rewrite clear_state_data_lookup. by case_decide.
Qed.

End state_manager_facts.

(** ** The options validator *)

Section validator_facts.
Import TeacherCreate.
Context {A : Type} `{!EqDecision A, !Countable A}.
Implicit Types (l options : list A) (x correct_answer : A).

Lemma size_list_to_set_le l : size (list_to_set l : gset A) ≤ length l.
Proof.
  induction l as [|x l IH].
  - by rewrite list_to_set_nil, size_empty.
  - rewrite list_to_set_cons, size_union_alt, size_singleton; simpl.
    assert (size (list_to_set l ∖ {[x]} : gset A)
            ≤ size (list_to_set l : gset A)) as Hsub
      by (apply subseteq_size, subseteq_difference_l; done).
    lia.
Qed.

Lemma size_list_to_set_NoDup l :
  size (list_to_set l : gset A) = length l ↔ NoDup l.
Proof.
  split; [|apply size_list_to_set].
  induction l as [|x l IH]; intros Hsz; [constructor|].
  rewrite list_to_set_cons in Hsz; simpl in Hsz.
  destruct (decide (x ∈ l)) as [Hin|Hnin].
  - assert ({[x]} ∪ list_to_set l = (list_to_set l : gset A)) as E.
    { apply subseteq_union_1_L, singleton_subseteq_l.
      by apply elem_of_list_to_set. }
    rewrite E in Hsz. pose proof (size_list_to_set_le l). lia.
  - constructor; [done|]. apply IH.
    rewrite size_union, size_singleton in Hsz; [lia|].
    apply disjoint_singleton_l. by rewrite elem_of_list_to_set.
Qed.

Lemma validate_options_iff options correct_answer :
  validate_options options correct_answer = true
  ↔ 2 ≤ length (options ++ [correct_answer]) ≤ 7
    ∧ NoDup (options ++ [correct_answer]).
Proof.
  unfold validate_options.
  rewrite <- size_list_to_set_NoDup.
  destruct (length (options ++ [correct_answer]) <? 2) eqn:E1; simpl.
  { apply Nat.ltb_lt in E1. split; [done|lia]. }
  apply Nat.ltb_ge in E1.
  destruct (7 <? length (options ++ [correct_answer])) eqn:E2; simpl.
  { apply Nat.ltb_lt in E2. split; [done|lia]. }
  apply Nat.ltb_ge in E2.
  destruct (size (list_to_set (options ++ [correct_answer]) : gset A)
            =? length (options ++ [correct_answer])) eqn:E3; simpl.
  - apply Nat.eqb_eq in E3. split; [|done]. intros _. split; [lia|done].
  - apply Nat.eqb_neq in E3. split; [done|]. intros [_ ?]. done.
Qed.

Lemma validate_options_correct_not_in options correct_answer :
  validate_options options correct_answer = true →
  (correct_answer ∉ options) ∧ NoDup options.
Proof.
  rewrite validate_options_iff. intros [_ Hnd].
  apply NoDup_app in Hnd as [Hnd [Hdis _]]. split; [|done].
  intros Hin. apply (Hdis _ Hin). by apply list_elem_of_singleton.
Qed.

End validator_facts.

(** C8.  The options validator accepts extra options with a correct answer
    exactly when the combined list (the options, then the correct answer)
    has from 2 to 7 elements and no duplicates.  It rejects the option "A"
    with the correct answer "A", rejects the options "A" to "G" with the
    correct answer "H", and accepts the options "A", "B" with the correct
    answer "C". *)
Theorem validate_options_spec :
  (∀ (options : list string) (correct_answer : string),
     TeacherCreate.validate_options options correct_answer = true
     ↔ 2 ≤ length (options ++ [correct_answer]) ≤ 7
       ∧ NoDup (options ++ [correct_answer]))
  ∧ TeacherCreate.validate_options ["A"] "A" = false
  ∧ TeacherCreate.validate_options ["A"; "B"; "C"; "D"; "E"; "F"; "G"] "H"
    = false
  ∧ TeacherCreate.validate_options ["A"; "B"] "C" = true.
Proof.
  split; [intros; apply validate_options_iff|].
  repeat split; by vm_compute.
Qed.

(** ** Python indexing *)

Section indexing_facts.
Context {A : Type}.
Implicit Types (l : list A) (i : Z) (x y : A).

Lemma position_lt n i p : Py.position n i = Some p → p < n.
Proof.
  unfold Py.position. repeat case_bool_decide; intros; simplify_eq; lia.
Qed.

Lemma index_set_index l i x l' :
  Py.set_index l i x = Some l' → Py.index l' i = Some x.
Proof.
  unfold Py.set_index, Py.index.
  destruct (Py.position (length l) i) as [p|] eqn:E; simpl; [|done].
  intros [= <-]. rewrite length_insert, E; simpl.
  apply list_lookup_insert_eq. by eapply position_lt.
Qed.

Lemma set_index_defined l i x y :
  Py.index l i = Some y → is_Some (Py.set_index l i x).
Proof.
  unfold Py.set_index, Py.index.
  destruct (Py.position (length l) i); simpl; [eauto|done].
Qed.

Lemma set_index_length l i x l' :
  Py.set_index l i x = Some l' → length l' = length l.
Proof.
  unfold Py.set_index.
  destruct (Py.position (length l) i); simpl; [|done].
  intros [= <-]. apply length_insert.
Qed.

Lemma index_nonempty l i y : Py.index l i = Some y → l ≠ [].
Proof.
  intros Hi ->. unfold Py.index in Hi. simpl in Hi.
  destruct (Py.position 0 i) as [p|] eqn:E; [|done].
  apply position_lt in E. lia.
Qed.

End indexing_facts.

(** ** The options of a closed question in the authoring flow *)

Section authoring_facts.
Import TeacherCreate.
Implicit Types (d : draft) (q : question) (opts : list string).

(** The list that the options steps store: the parsed options, then the
    correct answer. *)
Lemma stored_options_shape (extras : list (option string))
    (correct : option string) :
  validate_options extras correct = true →
  last (extras ++ [correct]) = Some correct
  ∧ correct ∈ extras ++ [correct]
  ∧ (correct ∉ extras)
  ∧ NoDup (extras ++ [correct])
  ∧ 2 ≤ length (extras ++ [correct]) ≤ 7.
Proof.
  intros Hv. pose proof (validate_options_correct_not_in _ _ Hv) as [Hn _].
  apply validate_options_iff in Hv as [Hlen Hnd].
  rewrite last_snoc. repeat split; try done; try lia.
  apply elem_of_app. right. by apply list_elem_of_singleton.
Qed.

Lemma last_set_last q (qs : list question) : last (set_last q qs) = Some q.
Proof. unfold set_last. apply last_snoc. Qed.

(** A body that leaves the draft alone when it raises ends, under
    [network_retry], as its first attempt does, but for the exception. *)
Lemma network_retry_Done (func : draft → outcome) d next d' :
  (∀ e d1, func d = Raised e d1 → d1 = d) →
  network_retry func d = Done next d' ↔ func d = Done next d'.
Proof.
  intros Hraise. unfold network_retry.
  destruct (func d) as [n0 d0|e d1] eqn:E; [done|].
  pose proof (Hraise e d1 eq_refl) as ->. by rewrite !E.
Qed.

Lemma network_retry_Raised (func : draft → outcome) d e d' :
  (∀ e d1, func d = Raised e d1 → d1 = d) →
  network_retry func d = Raised e d' ↔
  e = Py.RetryError ∧ d' = d ∧ ∃ e0, func d = Raised e0 d.
Proof.
  intros Hraise. unfold network_retry.
  destruct (func d) as [n0 d0|e1 d1] eqn:E.
  { split; [done|]. by intros (_ & _ & e0 & ?). }
  pose proof (Hraise e1 d1 eq_refl) as ->. rewrite !E. split.
  - intros [= <- <-]. eauto.
  - by intros (-> & -> & _).
Qed.

Lemma process_options_body_raises message_text d e d1 :
  process_options_body message_text d = Raised e d1 → d1 = d.
Proof.
  unfold process_options_body.
  destruct (last (questions d)); [|by intros [= _ <-]].
  by destruct (validate_options _ _).
Qed.

Lemma move_forward_options_body_raises d e d1 :
  move_forward_options_body d = Raised e d1 → d1 = d.
Proof.
  unfold move_forward_options_body.
  destruct (last (questions d)); [|by intros [= _ <-]].
  by destruct (validate_options _ _).
Qed.

Lemma save_edited_question_body_raises message_text d e d1 :
  save_edited_question_body message_text d = Raised e d1 → d1 = d.
Proof.
  unfold save_edited_question_body.
  destruct (Py.index (questions d) (editing_question_idx d));
    [|by intros [= _ <-]].
  destruct (edit_question _ _ _); [|done].
  unfold show_question_list. by destruct (questions _).
Qed.

Lemma process_options_Done message_text d next d' :
  process_options message_text d = Done next d'
  ↔ process_options_body message_text d = Done next d'.
Proof.
  apply network_retry_Done. intros e d1.
  apply process_options_body_raises.
Qed.

Lemma move_forward_options_Done d next d' :
  move_forward_options d = Done next d'
  ↔ move_forward_options_body d = Done next d'.
Proof.
  apply network_retry_Done. intros e d1.
  apply move_forward_options_body_raises.
Qed.

Lemma save_edited_question_Done message_text d next d' :
  save_edited_question message_text d = Done next d'
  ↔ save_edited_question_body message_text d = Done next d'.
Proof.
  apply network_retry_Done. intros e d1.
  apply save_edited_question_body_raises.
Qed.

Lemma process_options_accepted message_text d d' :
  process_options message_text d = Done States.TEACHER_FINISH_CREATION d' →
  ∃ q opts,
    last (questions d) = Some q
    ∧ validate_options (Some <$> opts) (correct_answer q) = true
    ∧ last (questions d')
      = Some (set_options ((Some <$> opts) ++ [correct_answer q]) q).
Proof.
  rewrite process_options_Done. unfold process_options_body.
  destruct (last (questions d)) as [q|] eqn:El; [|done].
  destruct (validate_options _ _) eqn:Ev; simpl; [|done].
  intros [= <-]. exists q, (parse_options (sanitize_input message_text)).
  simpl. by rewrite last_set_last.
Qed.

Lemma move_forward_options_accepted d d' :
  move_forward_options d = Done States.TEACHER_FINISH_CREATION d' →
  ∃ q opts,
    last (questions d) = Some q
    ∧ validate_options (Some <$> opts) (correct_answer q) = true
    ∧ last (questions d')
      = Some (set_options ((Some <$> opts) ++ [correct_answer q]) q).
Proof.
  rewrite move_forward_options_Done. unfold move_forward_options_body.
  destruct (last (questions d)) as [q|] eqn:El; [|done].
  destruct (validate_options _ _) eqn:Ev; simpl; [|done].
  intros [= <-]. exists q, (default [] (saved_options d)).
  simpl. by rewrite last_set_last.
Qed.

(** [save_edited_question] ends in the list of questions exactly when the
    edit was stored; the edited question is then the one at the index. *)
Lemma save_edited_question_stored message_text d d' :
  save_edited_question message_text d = Done States.TEACHER_EDIT_QUESTIONS d' →
  ∃ q q',
    Py.index (questions d) (editing_question_idx d) = Some q
    ∧ edit_question (editing_part d) (sanitize_input message_text) q = Some q'
    ∧ Py.index (questions d') (editing_question_idx d) = Some q'.
Proof.
  rewrite save_edited_question_Done. unfold save_edited_question_body.
  destruct (Py.index (questions d) (editing_question_idx d)) as [q|] eqn:Ei;
    [|done].
  destruct (edit_question _ _ q) as [q'|] eqn:Ee; [|done].
  destruct (set_index_defined (questions d) (editing_question_idx d) q' q Ei)
    as [l' El'].
  rewrite El'; simpl. unfold show_question_list; simpl.
  destruct l' as [|q0 l''] eqn:E; [done|].
  intros [= <-]. exists q, q'. simpl. repeat split; [done|].
  rewrite <- E in El'. rewrite <- E. by eapply index_set_index.
Qed.

Lemma save_edited_question_stores message_text d q q' :
  Py.index (questions d) (editing_question_idx d) = Some q →
  edit_question (editing_part d) (sanitize_input message_text) q = Some q' →
  ∃ d', save_edited_question message_text d
        = Done States.TEACHER_EDIT_QUESTIONS d'
        ∧ Py.index (questions d') (editing_question_idx d) = Some q'.
Proof.
  intros Ei Ee.
  enough (∃ d', save_edited_question_body message_text d
                = Done States.TEACHER_EDIT_QUESTIONS d'
                ∧ Py.index (questions d') (editing_question_idx d) = Some q')
    as (d' & Hd & Hi).
  { exists d'. by rewrite save_edited_question_Done. }
  unfold save_edited_question_body. rewrite Ei, Ee.
  destruct (set_index_defined (questions d) (editing_question_idx d) q' q Ei)
    as [l' El'].
  rewrite El'; simpl. unfold show_question_list; simpl.
  pose proof (set_index_length _ _ _ _ El') as Hlen.
  pose proof (index_nonempty _ _ _ Ei) as Hne.
  destruct l' as [|q0 l''] eqn:E.
  { destruct (questions d); simpl in *; [done|lia]. }
  eexists. split; [done|]. simpl. rewrite <- E in *.
  by eapply index_set_index.
Qed.

Lemma edit_question_options new_value q q' :
  edit_question "options" new_value q = Some q' →
  ∃ opts,
    validate_options (Some <$> opts) (correct_answer q) = true
    ∧ q' = set_options ((Some <$> opts) ++ [correct_answer q]) q.
Proof.
  unfold edit_question. rewrite decide_True by done.
  destruct (validate_options _ _) eqn:Ev; simpl; [|done].
  intros [= <-]. by eexists.
Qed.

Lemma edit_question_correct new_value q :
  edit_question "correct" new_value q
  = Some (if bool_decide (q_type q = "test") && bool_decide (options q ≠ [])
          then set_options
                 (filter (fun opt => opt ≠ Some new_value) (options q)
                  ++ [Some new_value])
                 (set_correct_answer (Some new_value) q)
          else set_correct_answer (Some new_value) q).
Proof.
  unfold edit_question.
  rewrite decide_False by done. rewrite decide_False by done.
  rewrite decide_True by done. simpl.
  by destruct (bool_decide (q_type q = "test") && bool_decide (options q ≠ [])).
Qed.

(** C10, as the code has it.  A question that passes the options step
    ([process_options] or its "next" button) or the edit of its options
    stores the parsed options followed by its correct answer: the list ends
    with the correct answer, holds it once, has no duplicates and from 2 to
    7 elements.  The edit of the correct answer of a "test" question whose
    stored options are not empty stores the old options without the new
    answer, followed by the new answer; the list again ends with the
    correct answer and holds it, and has no duplicates when the old list
    had none. *)
Theorem stored_options_end_with_correct_answer :
  (∀ message_text d d',
     process_options message_text d
     = Done States.TEACHER_FINISH_CREATION d' →
     ∃ q', last (questions d') = Some q'
           ∧ last (options q') = Some (correct_answer q')
           ∧ correct_answer q' ∈ options q'
           ∧ NoDup (options q') ∧ 2 ≤ length (options q') ≤ 7)
  ∧ (∀ d d',
       move_forward_options d = Done States.TEACHER_FINISH_CREATION d' →
       ∃ q', last (questions d') = Some q'
             ∧ last (options q') = Some (correct_answer q')
             ∧ correct_answer q' ∈ options q'
             ∧ NoDup (options q') ∧ 2 ≤ length (options q') ≤ 7)
  ∧ (∀ message_text d d',
       editing_part d = "options" →
       save_edited_question message_text d
       = Done States.TEACHER_EDIT_QUESTIONS d' →
       ∃ q', Py.index (questions d') (editing_question_idx d) = Some q'
             ∧ last (options q') = Some (correct_answer q')
             ∧ correct_answer q' ∈ options q'
             ∧ NoDup (options q') ∧ 2 ≤ length (options q') ≤ 7)
  ∧ (∀ message_text d q,
       editing_part d = "correct" →
       Py.index (questions d) (editing_question_idx d) = Some q →
       q_type q = "test" →
       options q ≠ [] →
       ∃ d' q',
         save_edited_question message_text d
         = Done States.TEACHER_EDIT_QUESTIONS d'
         ∧ Py.index (questions d') (editing_question_idx d) = Some q'
         ∧ correct_answer q' = Some (sanitize_input message_text)
         ∧ options q'
           = filter (fun opt => opt ≠ correct_answer q') (options q)
             ++ [correct_answer q']
         ∧ last (options q') = Some (correct_answer q')
         ∧ correct_answer q' ∈ options q'
         ∧ (NoDup (options q) → NoDup (options q'))).
Proof.
  split; [|split; [|split]].
  - intros message_text d d' Hp.
    apply process_options_accepted in Hp as (q & opts & _ & Hv & Hl).
    eexists; split; [exact Hl|]. simpl.
    apply stored_options_shape in Hv as (? & ? & ? & ? & ?). done.
  - intros d d' Hp.
    apply move_forward_options_accepted in Hp as (q & opts & _ & Hv & Hl).
    eexists; split; [exact Hl|]. simpl.
    apply stored_options_shape in Hv as (? & ? & ? & ? & ?). done.
  - intros message_text d d' Hpart Hs.
    apply save_edited_question_stored in Hs as (q & q' & _ & He & Hi).
    rewrite Hpart in He.
    apply edit_question_options in He as (opts & Hv & ->).
    eexists; split; [exact Hi|]. simpl.
    apply stored_options_shape in Hv as (? & ? & ? & ? & ?). done.
  - intros message_text d q Hpart Hi Ht Hne.
    pose proof (edit_question_correct (sanitize_input message_text) q) as He.
    rewrite bool_decide_eq_true_2 in He by done.
    rewrite bool_decide_eq_true_2 in He by done. simpl in He.
    rewrite <- Hpart in He.
    destruct (save_edited_question_stores _ _ _ _ Hi He) as (d' & Hs & Hi').
    eexists d', _. split; [exact Hs|]. split; [exact Hi'|]. simpl.
    split; [done|]. split; [done|]. split; [apply last_snoc|].
    split.
    + apply elem_of_app. right. by apply list_elem_of_singleton.
    + intros Hnd. apply NoDup_app. split; [by apply NoDup_filter|].
      split; [|apply NoDup_singleton].
      intros x Hx ->%list_elem_of_singleton.
      by apply list_elem_of_filter in Hx as [Hx _].
Qed.

End authoring_facts.

(** The statement of C10 without the restriction fails.  A "test" question
    that was left after its text was entered has no options yet; the edit
    of its correct answer stores the answer "B" and leaves the options
    empty, so the stored list neither ends with the answer nor holds it. *)
Lemma correct_answer_edit_on_empty_options :
  TeacherCreate.save_edited_question "B"
    (TeacherCreate.Draft
       [TeacherCreate.Question "test" (Some "Q") None [] None]
       0 "correct" None)
  = TeacherCreate.Done States.TEACHER_EDIT_QUESTIONS
      (TeacherCreate.Draft
         [TeacherCreate.Question "test" (Some "Q") (Some "B") [] None]
         0 "correct" None).
Proof. vm_compute. reflexivity. Qed.

(** The options step on a question with the correct answer "A" and the
    message "B, C", and the edit of the correct answer to "D" afterwards. *)
Lemma stored_options_witness :
  (∃ q', last (TeacherCreate.questions
                 (TeacherCreate.Draft
                    [TeacherCreate.Question "test" (Some "Q") (Some "A")
                       [Some "B"; Some "C"; Some "A"] None]
                    (-1) "" None)) = Some q'
         ∧ last (TeacherCreate.options q')
           = Some (TeacherCreate.correct_answer q')
         ∧ TeacherCreate.correct_answer q' ∈ TeacherCreate.options q'
         ∧ NoDup (TeacherCreate.options q')
         ∧ 2 ≤ length (TeacherCreate.options q') ≤ 7)
  ∧ (∃ d' q',
       TeacherCreate.save_edited_question "D"
         (TeacherCreate.Draft
            [TeacherCreate.Question "test" (Some "Q") (Some "A")
               [Some "B"; Some "C"; Some "A"] None]
            0 "correct" None)
       = TeacherCreate.Done States.TEACHER_EDIT_QUESTIONS d'
       ∧ Py.index (TeacherCreate.questions d') 0 = Some q'
       ∧ TeacherCreate.options q'
         = [Some "B"; Some "C"; Some "A"; Some "D"]).
Proof.
  destruct stored_options_end_with_correct_answer as (H1 & _ & _ & H4).
  split.
  - apply (H1 "B, C"
             (TeacherCreate.Draft
                [TeacherCreate.Question "test" (Some "Q") (Some "A") [] None]
                (-1) "" None)).
    vm_compute. reflexivity.
  - destruct (H4 "D"
                (TeacherCreate.Draft
                   [TeacherCreate.Question "test" (Some "Q") (Some "A")
                      [Some "B"; Some "C"; Some "A"] None]
                   0 "correct" None)
                (TeacherCreate.Question "test" (Some "Q") (Some "A")
                   [Some "B"; Some "C"; Some "A"] None))
      as (d' & q' & Hs & Hi & Hc & Ho & _); try done.
    exists d', q'. split; [exact Hs|]. split; [exact Hi|].
    rewrite Ho, Hc. vm_compute. reflexivity.
Defined.

(** ** The scoring engine *)

Section grader_facts.
Import StudentDoTest.
Variable lower : string → string.
Variable ratio : string → string → Q.
Variable format_1f : Q → string.
Implicit Types (ua : gmap nat string) (q : question) (st : loop_state).
Implicit Types (qs : list question) (idx : nat).

Local Open Scope Z_scope.

(** [int] and the floor agree once the value is clamped at zero. *)
Lemma py_int_clamped (x : Q) :
  Z.max 0 (Z.min 10 (py_int x)) = Z.max 0 (Z.min 10 (Qfloor x)).
Proof.
  destruct x as [n d]. unfold py_int, Qfloor; simpl.
  destruct (Z_lt_le_dec n 0) as [Hneg|Hpos].
  - assert (n ÷ Z.pos d ≤ 0).
    { rewrite <- (Z.opp_involutive n), Z.quot_opp_l by lia.
      pose proof (Z.quot_pos (- n) (Z.pos d)). lia. }
    assert (n / Z.pos d < 0) by (apply Z.div_lt_upper_bound; lia).
    lia.
  - by rewrite Z.quot_div_nonneg by lia.
Qed.

Lemma check_open_answer_score user_answer correct_answer :
  fst (_check_open_answer lower ratio user_answer correct_answer)
  = Z.max 0 (Z.min 10
      (Qfloor (ratio (lower user_answer) (lower correct_answer) * 10)%Q)).
Proof. unfold _check_open_answer; simpl. apply py_int_clamped. Qed.

Lemma check_open_answer_comment user_answer correct_answer :
  snd (_check_open_answer lower ratio user_answer correct_answer)
  = COMMENT_PREFIX
      +:+ band_comment
            (fst (_check_open_answer lower ratio user_answer correct_answer)).
Proof. reflexivity. Qed.

Lemma Qfloor_unit_times_10 (x : Q) :
  (0 <= x)%Q → (x <= 1)%Q → 0 ≤ Qfloor (x * 10)%Q ≤ 10.
Proof.
  intros H0 H1. split.
  - change 0 with (Qfloor 0). apply Qfloor_resp_le.
    rewrite <- (Qmult_0_l 10). apply Qmult_le_compat_r; [done|]. done.
  - change 10 with (Qfloor 10). apply Qfloor_resp_le.
    rewrite <- (Qmult_1_l 10) at 2. apply Qmult_le_compat_r; [done|]. done.
Qed.

(** The stored comment is the band text: the prefix that
    [_check_open_answer] puts in front is the one that the report removes. *)
Lemma replace_prefix_band (score : Z) :
  Py.replace COMMENT_PREFIX "" (COMMENT_PREFIX +:+ band_comment score)
  = band_comment score.
Proof.
  unfold band_comment.
  destruct (8 <=? score); [by vm_compute|].
  destruct (5 <=? score); [by vm_compute|].
  destruct (2 <=? score); by vm_compute.
Qed.

Lemma band_comment_truthy (score : Z) :
  Py.truthy (band_comment score) = true.
Proof.
  unfold band_comment.
  destruct (8 <=? score); [done|].
  destruct (5 <=? score); [done|].
  destruct (2 <=? score); done.
Qed.

Lemma prefixed_comment_truthy (s : string) :
  Py.truthy (COMMENT_PREFIX +:+ s) = true.
Proof. reflexivity. Qed.

(** *** One pass of the loop body *)

Lemma grade_step_scores ua idx q st :
  scores (grade_step lower ratio ua idx q st)
  = <[pretty idx := body_score lower ratio ua idx q]> (scores st).
Proof.
  unfold grade_step, body_score.
  repeat case_decide; reflexivity.
Qed.

Lemma grade_step_total ua idx q st :
  total_score (grade_step lower ratio ua idx q st)
  = total_score st + body_score lower ratio ua idx q.
Proof.
  unfold grade_step, body_score.
  repeat case_decide; simpl; lia.
Qed.

Lemma grade_step_max ua idx q st :
  max_score (grade_step lower ratio ua idx q st) = max_score st + 10.
Proof.
  unfold grade_step.
  repeat case_decide; reflexivity.
Qed.

Lemma grade_step_comments ua idx q st :
  Comment_LLM (grade_step lower ratio ua idx q st)
  = if Py.truthy (body_comment lower ratio ua idx q)
    then <[pretty idx := body_comment lower ratio ua idx q]> (Comment_LLM st)
    else Comment_LLM st.
Proof.
  unfold grade_step, body_comment.
  repeat case_decide; try reflexivity.
  simpl. rewrite replace_prefix_band.
  by rewrite insert_insert_eq, band_comment_truthy.
Qed.

(** *** The whole loop *)

Lemma sum_values_insert (k : string) (v : Z) (m : gmap string Z) :
  m !! k = None → sum_values (<[k := v]> m) = v + sum_values m.
Proof.
  intros Hk. unfold sum_values.
  rewrite map_fold_insert_L; [done| |done].
  intros. lia.
Qed.

Lemma grade_loop_max ua idx qs st :
  max_score (grade_loop lower ratio ua idx qs st)
  = max_score st + 10 * Z.of_nat (length qs).
Proof.
  revert idx st. induction qs as [|q qs IH]; intros idx st; simpl.
  - lia.
  - rewrite IH, grade_step_max. lia.
Qed.

(** Keys of questions before [idx] are not written any more. *)
Lemma grade_loop_scores_before ua idx qs st (k : string) :
  (∀ j, (idx ≤ j)%nat → k ≠ pretty j) →
  scores (grade_loop lower ratio ua idx qs st) !! k = scores st !! k.
Proof.
  revert idx st. induction qs as [|q qs IH]; intros idx st Hk; simpl; [done|].
  rewrite IH by (intros j Hj; apply Hk; lia).
  rewrite grade_step_scores, lookup_insert_ne; [done|].
  intros E. by apply (Hk idx).
Qed.

Lemma grade_loop_comments_before ua idx qs st (k : string) :
  (∀ j, (idx ≤ j)%nat → k ≠ pretty j) →
  Comment_LLM (grade_loop lower ratio ua idx qs st) !! k
  = Comment_LLM st !! k.
Proof.
  revert idx st. induction qs as [|q qs IH]; intros idx st Hk; simpl; [done|].
  rewrite IH by (intros j Hj; apply Hk; lia).
  rewrite grade_step_comments.
  destruct (Py.truthy _); [|done].
  rewrite lookup_insert_ne; [done|]. intros E. by apply (Hk idx).
Qed.

Lemma pretty_nat_ne (i j : nat) : i ≠ j → pretty i ≠ pretty j.
Proof. intros Hne E. by apply (inj pretty) in E. Qed.

Lemma grade_loop_scores_at ua idx qs st (j : nat) q :
  qs !! j = Some q →
  scores (grade_loop lower ratio ua idx qs st) !! pretty (idx + j)%nat
  = Some (body_score lower ratio ua (idx + j) q).
Proof.
  revert idx st j.
  induction qs as [|q0 qs IH]; intros idx st j Hj; [done|].
  destruct j as [|j]; simpl in *.
  - injection Hj as ->. rewrite Nat.add_0_r.
    rewrite grade_loop_scores_before
      by (intros j Hj; apply pretty_nat_ne; lia).
    by rewrite grade_step_scores, lookup_insert_eq.
  - replace (idx + S j)%nat with (S idx + j)%nat by lia. by apply IH.
Qed.

Lemma grade_loop_comments_at ua idx qs st (j : nat) q :
  qs !! j = Some q →
  Comment_LLM (grade_loop lower ratio ua idx qs st) !! pretty (idx + j)%nat
  = if Py.truthy (body_comment lower ratio ua (idx + j) q)
    then Some (body_comment lower ratio ua (idx + j) q)
    else Comment_LLM st !! pretty (idx + j)%nat.
Proof.
  revert idx st j.
  induction qs as [|q0 qs IH]; intros idx st j Hj; [done|].
  destruct j as [|j]; simpl in *.
  - injection Hj as ->. rewrite Nat.add_0_r.
    rewrite grade_loop_comments_before
      by (intros j Hj; apply pretty_nat_ne; lia).
    rewrite grade_step_comments.
    destruct (Py.truthy _); [|done]. by rewrite lookup_insert_eq.
  - replace (idx + S j)%nat with (S idx + j)%nat by lia.
    rewrite (IH (S idx) _ j Hj).
    destruct (Py.truthy (body_comment _ _ _ (S idx + j) q)); [done|].
    rewrite grade_step_comments.
    destruct (Py.truthy _); [|done].
    rewrite lookup_insert_ne; [done|]. apply pretty_nat_ne. lia.
Qed.

(** The running total and the sum of the stored scores grow together. *)
Lemma grade_loop_total ua idx qs st :
  (∀ j, (idx ≤ j)%nat → scores st !! pretty j = None) →
  total_score (grade_loop lower ratio ua idx qs st)
    - sum_values (scores (grade_loop lower ratio ua idx qs st))
  = total_score st - sum_values (scores st).
Proof.
  revert idx st. induction qs as [|q qs IH]; intros idx st Hfresh; simpl.
  - done.
  - rewrite IH.
    + rewrite grade_step_total, grade_step_scores.
      rewrite sum_values_insert by (apply Hfresh; lia). lia.
    + intros j Hj. rewrite grade_step_scores.
      rewrite lookup_insert_ne by (apply pretty_nat_ne; lia).
      apply Hfresh. lia.
Qed.

Lemma grade_loop_report ua idx qs st :
  ∃ body, report (grade_loop lower ratio ua idx qs st) = report st ++ body
          ∧ length body = length qs.
Proof.
  revert idx st. induction qs as [|q qs IH]; intros idx st; simpl.
  - exists []. by rewrite app_nil_r.
  - destruct (IH (S idx) (grade_step lower ratio ua idx q st))
      as (body & -> & Hlen).
    assert (∃ line, report (grade_step lower ratio ua idx q st)
                    = report st ++ [line]) as [line ->].
    { unfold grade_step. repeat case_decide; simpl; eauto. }
    exists (line :: body). rewrite <- app_assoc. simpl. by rewrite Hlen.
Qed.

Lemma report_total_is_sum qs ua :
  total_score (grade_loop lower ratio ua 0 qs initial_state)
  = sum_values (scores (grade_loop lower ratio ua 0 qs initial_state)).
Proof.
  pose proof (grade_loop_total ua 0 qs initial_state) as Ht.
  simpl in Ht. unfold sum_values in Ht at 2.
  rewrite map_fold_empty in Ht.
  assert (∀ j : nat, (0 ≤ j)%nat → (∅ : gmap string Z) !! pretty j = None)
    as Hfresh by (intros; apply lookup_empty).
  specialize (Ht Hfresh). lia.
Qed.

(** C1.  [_check_open_answer] is a function of its two arguments, so equal
    inputs give equal results.  Its score is the floor of ten times the
    similarity ratio of the lower-cased texts, clamped to the range 0 to 10
    (no clamping is needed for a ratio between 0 and 1); its comment is the
    fixed prefix followed by the text of the band of the score, the bands
    being tried in the order: at least 8, at least 5, at least 2, the
    rest. *)
Theorem check_open_answer_spec (user_answer correct_answer : string) :
  let sim := ratio (lower user_answer) (lower correct_answer) in
  let r := _check_open_answer lower ratio user_answer correct_answer in
  (∀ user_answer' correct_answer',
     user_answer' = user_answer → correct_answer' = correct_answer →
     _check_open_answer lower ratio user_answer' correct_answer' = r)
  ∧ fst r = Z.max 0 (Z.min 10 (Qfloor (sim * 10)%Q))
  ∧ 0 ≤ fst r ≤ 10
  ∧ ((0 <= sim)%Q → (sim <= 1)%Q → fst r = Qfloor (sim * 10)%Q)
  ∧ (8 ≤ fst r →
     snd r = COMMENT_PREFIX
               +:+ "Ответ близок к правильному, отличная работа!")
  ∧ (5 ≤ fst r < 8 →
     snd r = COMMENT_PREFIX
               +:+ "Ответ частично правильный, но требует уточнений.")
  ∧ (2 ≤ fst r < 5 →
     snd r = COMMENT_PREFIX
       +:+ "Ответ имеет некоторое сходство, но нуждается в доработке.")
  ∧ (fst r < 2 →
     snd r = COMMENT_PREFIX
       +:+ "Ответ не соответствует правильному, требуется более точное объяснение.").
Proof.
  intros sim r.
  assert (fst r = Z.max 0 (Z.min 10 (Qfloor (sim * 10)%Q))) as Hscore
    by apply check_open_answer_score.
  split; [by intros ?? -> ->|].
  split; [done|].
  split; [lia|].
  split.
  { intros H0 H1. pose proof (Qfloor_unit_times_10 sim H0 H1). lia. }
  assert (snd r = COMMENT_PREFIX +:+ band_comment (fst r)) as ->
    by apply check_open_answer_comment.
  unfold band_comment.
  repeat split; intros Hb.
  - rewrite (proj2 (Z.leb_le 8 (fst r))) by lia. done.
  - rewrite (proj2 (Z.leb_gt 8 (fst r))) by lia.
    rewrite (proj2 (Z.leb_le 5 (fst r))) by lia. done.
  - rewrite (proj2 (Z.leb_gt 8 (fst r))) by lia.
    rewrite (proj2 (Z.leb_gt 5 (fst r))) by lia.
    rewrite (proj2 (Z.leb_le 2 (fst r))) by lia. done.
  - rewrite (proj2 (Z.leb_gt 8 (fst r))) by lia.
    rewrite (proj2 (Z.leb_gt 5 (fst r))) by lia.
    rewrite (proj2 (Z.leb_gt 2 (fst r))) by lia. done.
Qed.

(** C2.  For a closed ("test") question at position [idx] with the correct
    answer [c] and the recorded answer [a], the report stores the score 10
    under the key [str(idx)] when [a] and [c] are the same string, and 0
    otherwise. *)
Theorem closed_question_score qs ua (idx : nat) q (a : string) :
  qs !! idx = Some q →
  q_type q = "test" →
  ua !! idx = Some a →
  sr_scores (_generate_score_report lower ratio format_1f qs ua) !! pretty idx
  = Some (if decide (a = correct_answer q) then 10 else 0).
Proof.
  intros Hq Ht Ha. unfold _generate_score_report; simpl.
  pose proof (grade_loop_scores_at ua 0 qs initial_state idx q Hq) as Hs.
  simpl in Hs. rewrite Hs. f_equal.
  unfold body_score. rewrite Ha; simpl.
  rewrite decide_True by done. done.
Qed.

End grader_facts.

(** An open question without an answer is graded without the similarity
    functions: the loop body is the same whatever they are. *)
Lemma grade_step_unanswered_open (lower lower' : string → string)
    (ratio ratio' : string → string → Q) (ua : gmap nat string) (idx : nat)
    (q : StudentDoTest.question) (st : StudentDoTest.loop_state) :
  StudentDoTest.q_type q ≠ "test" →
  default StudentDoTest.NOT_ANSWERED (ua !! idx)
  = StudentDoTest.NOT_ANSWERED →
  StudentDoTest.grade_step lower ratio ua idx q st
  = StudentDoTest.grade_step lower' ratio' ua idx q st.
Proof.
  intros Ht Ha. unfold StudentDoTest.grade_step. rewrite Ha.
  repeat case_decide; done.
Qed.

(** C3.  For every test and every answer map, [_generate_score_report]
    builds a report whose last two lines are the total line and the notice.
    The total shown is the sum of the scores it returns, which is the
    variable [total_score] of the loop; the maximum shown is 10 for each
    question, each pass of the loop adding 10; the percentage handed to the
    one-decimal format is total / maximum * 100 when the maximum is
    positive and 0 otherwise.  An open question without an answer gets the
    score 0 and no model comment, and its pass of the loop does not depend
    on the similarity grader. *)
Theorem generate_score_report_totals
    (lower lower' : string → string) (ratio ratio' : string → string → Q)
    (format_1f : Q → string)
    (qs : list StudentDoTest.question) (ua : gmap nat string) :
  let r := StudentDoTest._generate_score_report lower ratio format_1f qs ua in
  let final :=
    StudentDoTest.grade_loop lower ratio ua 0 qs
      StudentDoTest.initial_state in
  let total := StudentDoTest.sum_values (StudentDoTest.sr_scores r) in
  let maximum := (10 * Z.of_nat (length qs))%Z in
  (∃ body,
     length body = S (length qs)
     ∧ StudentDoTest.report_text r
       = Py.join Py.nl
           (body ++
            [Py.nl +:+ "💡 Итоговый балл: " +:+ pretty total +:+ "/"
               +:+ pretty maximum +:+ " ("
               +:+ format_1f
                     (if (0 <? maximum)%Z
                      then (inject_Z total / inject_Z maximum * 100)%Q
                      else 0%Q)
               +:+ "%)";
             "⚠ Это предварительная оценка. Итоговую оценку сообщит учитель."]))
  ∧ StudentDoTest.total_score final = total
  ∧ StudentDoTest.max_score final = maximum
  ∧ (∀ idx q st,
       StudentDoTest.max_score
         (StudentDoTest.grade_step lower ratio ua idx q st)
       = (StudentDoTest.max_score st + 10)%Z)
  ∧ (∀ (idx : nat) q,
       qs !! idx = Some q →
       StudentDoTest.q_type q ≠ "test" →
       default StudentDoTest.NOT_ANSWERED (ua !! idx)
       = StudentDoTest.NOT_ANSWERED →
       StudentDoTest.sr_scores r !! pretty idx = Some 0%Z
       ∧ StudentDoTest.body_comment lower ratio ua idx q = ""
       ∧ StudentDoTest.sr_Comment_LLM r !! pretty idx = None
       ∧ ∀ st, StudentDoTest.grade_step lower ratio ua idx q st
               = StudentDoTest.grade_step lower' ratio' ua idx q st).
Proof.
  intros r final total maximum.
  assert (StudentDoTest.total_score final = total) as Htotal
    by apply report_total_is_sum.
  assert (StudentDoTest.max_score final = maximum) as Hmax.
  { unfold final. rewrite grade_loop_max. simpl. lia. }
  split.
  { destruct (grade_loop_report lower ratio ua 0 qs
                StudentDoTest.initial_state) as (body & Hbody & Hlen).
    exists (StudentDoTest.report StudentDoTest.initial_state ++ body).
    split; [simpl; by rewrite Hlen|].
    unfold r, StudentDoTest._generate_score_report; simpl.
    fold final. rewrite Htotal, Hmax.
    unfold final. rewrite Hbody. simpl. reflexivity. }
  split; [done|]. split; [done|].
  split; [intros; apply grade_step_max|].
  intros idx q Hq Ht Ha.
  assert (StudentDoTest.body_comment lower ratio ua idx q = "") as Hcomment.
  { unfold StudentDoTest.body_comment.
    rewrite decide_False by done. rewrite Ha. by rewrite decide_True. }
  split; [|split; [exact Hcomment|split]].
  - unfold r, StudentDoTest._generate_score_report; simpl.
    pose proof (grade_loop_scores_at lower ratio ua 0 qs
                  StudentDoTest.initial_state idx q Hq) as Hs.
    simpl in Hs. rewrite Hs. f_equal.
    unfold StudentDoTest.body_score.
    rewrite decide_False by done. rewrite Ha. by rewrite decide_True.
  - unfold r, StudentDoTest._generate_score_report; simpl.
    pose proof (grade_loop_comments_at lower ratio ua 0 qs
                  StudentDoTest.initial_state idx q Hq) as Hs.
    simpl in Hs. rewrite Hs. by rewrite Hcomment.
  - intros st. by apply grade_step_unanswered_open.
Qed.

(** The similarity 0.85 of the spec's example: the score is 8 and the
    comment is the one of the first band. *)
Lemma check_open_answer_witness :
  StudentDoTest._check_open_answer (fun s => s) (fun _ _ => 17 # 20)
    "x = 2" "x=2"
  = (8%Z,
     StudentDoTest.COMMENT_PREFIX
       +:+ "Ответ близок к правильному, отличная работа!").
Proof.
  pose proof (check_open_answer_spec (fun s => s) (fun _ _ => 17 # 20)
                "x = 2" "x=2") as (_ & Hscore & _ & _ & Hband & _).
  rewrite (surjective_pairing (StudentDoTest._check_open_answer _ _ _ _)).
  rewrite Hband; rewrite Hscore; [reflexivity|by vm_compute].
Defined.

(** One closed question whose correct answer is "Первый", answered with
    "Первый" and with "Второй". *)
Lemma closed_question_score_witness :
  StudentDoTest.sr_scores
    (StudentDoTest._generate_score_report (fun s => s) (fun _ _ => 1%Q)
       (fun _ => "")
       [StudentDoTest.Question "test" "Первый"] {[0 := "Первый"]})
    !! pretty 0 = Some 10%Z
  ∧ StudentDoTest.sr_scores
      (StudentDoTest._generate_score_report (fun s => s) (fun _ _ => 1%Q)
         (fun _ => "")
         [StudentDoTest.Question "test" "Первый"] {[0 := "Второй"]})
      !! pretty 0 = Some 0%Z.
Proof.
  split.
  - apply (closed_question_score (fun s => s) (fun _ _ => 1%Q) (fun _ => "")
             [StudentDoTest.Question "test" "Первый"] {[0 := "Первый"]}
             0 (StudentDoTest.Question "test" "Первый") "Первый");
      reflexivity.
  - apply (closed_question_score (fun s => s) (fun _ _ => 1%Q) (fun _ => "")
             [StudentDoTest.Question "test" "Первый"] {[0 := "Второй"]}
             0 (StudentDoTest.Question "test" "Первый") "Второй");
      reflexivity.
Defined.

(** The two questions of the repository's test
    [test_save_result_with_scores_and_comments], with a similarity that is
    1 on equal texts: both score 10 and the open one keeps the comment of
    the first band, without the prefix. *)
Example report_of_the_unit_test :
  let r :=
    StudentDoTest._generate_score_report (fun s => s)
      (fun a b => if decide (a = b) then 1%Q else 0%Q) (fun _ => "100.0")
      [StudentDoTest.Question "test" "Первый";
       StudentDoTest.Question "open" "x = 2"]
      {[0 := "Первый"; 1 := "x = 2"]} in
  StudentDoTest.sr_scores r = {["0" := 10%Z; "1" := 10%Z]}
  ∧ StudentDoTest.sr_Comment_LLM r
    = {["1" := "Ответ близок к правильному, отличная работа!"]}.
Proof. split; by vm_compute. Qed.

(** ** Appeals in the results file *)

Section database_facts.
Import Database.
Implicit Types (a : appeal_data) (l : list appeal) (ts : list result).
Implicit Types (d : db) (data : results_data) (r : result).

Lemma dict_get_set {V} (k : string) (v : V) (dict : list (string * V)) :
  dict_get k (dict_set k v dict) = Some v.
Proof.
  induction dict as [|[k' v'] dict IH]; simpl.
  - by rewrite decide_True.
  - destruct (decide (k' = k)) as [->|Hne]; simpl.
    + by rewrite decide_True.
    + by rewrite decide_False.
Qed.

Lemma dict_get_set_ne {V} (k k0 : string) (v : V) (dict : list (string * V)) :
  k0 ≠ k → dict_get k0 (dict_set k v dict) = dict_get k0 dict.
Proof.
  intros Hne. induction dict as [|[k' v'] dict IH]; simpl.
  - by rewrite decide_False.
  - destruct (decide (k' = k)) as [->|Hne']; simpl.
    + rewrite !decide_False by done. done.
    + destruct (decide (k' = k0)); [done|]. apply IH.
Qed.

(** *** The inner loop *)

Lemma upsert_appeal_same_question fresh_id a l :
  filter (fun e => a_question_idx e = ad_question_idx a)
         (upsert_appeal fresh_id a l)
  = match filter (fun e => a_question_idx e = ad_question_idx a) l with
    | [] => [stored fresh_id a]
    | e :: rest => stored (a_id e) a :: rest
    end.
Proof.
  induction l as [|e l IH]; simpl.
  - by rewrite filter_cons_True.
  - destruct (decide (a_question_idx e = ad_question_idx a)) as [E|E].
    + rewrite filter_cons_True by done.
      by rewrite (filter_cons_True _ e l) by done.
    + rewrite filter_cons_False by done.
      by rewrite (filter_cons_False _ e l) by done.
Qed.

Lemma upsert_appeal_other_questions fresh_id a l :
  filter (fun e => a_question_idx e ≠ ad_question_idx a)
         (upsert_appeal fresh_id a l)
  = filter (fun e => a_question_idx e ≠ ad_question_idx a) l.
Proof.
  induction l as [|e l IH]; simpl.
  - by rewrite filter_cons_False by (simpl; intros ?; done).
  - destruct (decide (a_question_idx e = ad_question_idx a)) as [E|E].
    + rewrite filter_cons_False by (simpl; intros ?; done).
      by rewrite (filter_cons_False _ e l) by (intros ?; done).
    + rewrite filter_cons_True by done.
      rewrite (filter_cons_True _ e l) by done. by rewrite IH.
Qed.

Lemma upsert_appeal_questions fresh_id a l (x : Z) :
  x ∈ a_question_idx <$> upsert_appeal fresh_id a l →
  x = ad_question_idx a ∨ x ∈ a_question_idx <$> l.
Proof.
  induction l as [|e l IH]; simpl.
  - intros ->%list_elem_of_singleton. by left.
  - destruct (decide (a_question_idx e = ad_question_idx a)) as [E|E]; simpl.
    + rewrite !elem_of_cons. intros [->|?]; [by left|by right; right].
    + rewrite !elem_of_cons. intros [->|Hx]; [by right; left|].
      destruct (IH Hx); [by left|by right; right].
Qed.

(** One appeal per question: the invariant of the list of appeals. *)
Lemma upsert_appeal_unique fresh_id a l :
  NoDup (a_question_idx <$> l) →
  NoDup (a_question_idx <$> upsert_appeal fresh_id a l).
Proof.
  induction l as [|e l IH]; simpl; intros Hnd.
  - apply NoDup_singleton.
  - apply NoDup_cons in Hnd as [Hnin Hnd].
    destruct (decide (a_question_idx e = ad_question_idx a)) as [E|E]; simpl.
    + apply NoDup_cons. split; [by rewrite <- E|done].
    + apply NoDup_cons. split; [|by apply IH].
      intros [?|?]%upsert_appeal_questions; done.
Qed.

Lemma filter_question_absent l (q : Z) :
  q ∉ a_question_idx <$> l →
  filter (fun e => a_question_idx e = q) l = [].
Proof.
  induction l as [|e l IH]; simpl; intros Hq; [done|].
  apply not_elem_of_cons in Hq as [Hne Hq].
  rewrite filter_cons_False by (intros E; by apply Hne).
  by apply IH.
Qed.

Lemma unique_question_at_most_one l (q : Z) :
  NoDup (a_question_idx <$> l) →
  filter (fun e => a_question_idx e = q) l = []
  ∨ ∃ e, filter (fun e => a_question_idx e = q) l = [e].
Proof.
  induction l as [|e l IH]; simpl; intros Hnd; [by left|].
  apply NoDup_cons in Hnd as [Hnin Hnd].
  destruct (decide (a_question_idx e = q)) as [E|E].
  - right. exists e. rewrite filter_cons_True by done.
    rewrite filter_question_absent; [done|]. by rewrite <- E.
  - rewrite filter_cons_False by done. by apply IH.
Qed.

(** *** The outer loop and the file *)

Lemma upsert_in_tests_missing fresh_id result_id a ts :
  find_result result_id ts = None →
  upsert_in_tests fresh_id result_id a ts = None.
Proof.
  unfold find_result. induction ts as [|t ts IH]; simpl; [done|].
  destruct (decide (r_id t = result_id)) as [E|E].
  - by rewrite bool_decide_eq_true_2.
  - rewrite bool_decide_eq_false_2 by done. intros Hf. by rewrite IH.
Qed.

Lemma upsert_in_tests_found fresh_id result_id a ts r :
  find_result result_id ts = Some r →
  ∃ ts',
    upsert_in_tests fresh_id result_id a ts = Some ts'
    ∧ find_result result_id ts'
      = Some (set_appeals
                (Some (upsert_appeal fresh_id a (default [] (r_appeals r))))
                r).
Proof.
  unfold find_result. induction ts as [|t ts IH]; simpl; [done|].
  destruct (decide (r_id t = result_id)) as [E|E].
  - rewrite bool_decide_eq_true_2 by done. intros [= ->].
    eexists; split; [done|]. simpl. by rewrite bool_decide_eq_true_2.
  - rewrite bool_decide_eq_false_2 by done. intros Hf.
    destruct (IH Hf) as (ts' & -> & Hfind). simpl.
    eexists; split; [done|]. simpl. by rewrite bool_decide_eq_false_2.
Qed.

Lemma load_student_results_found user_id result_id data r :
  find_result result_id (load_student_results user_id data) = Some r →
  ∃ ts, dict_get user_id data ≫= tests = Some ts
        ∧ find_result result_id ts = Some r.
Proof.
  unfold load_student_results.
  destruct (dict_get user_id data ≫= tests) as [ts|]; simpl; [eauto|done].
Qed.

(** A call whose user and result exist stores the appeal and returns. *)
Lemma save_appeal_stores fresh_id user_id result_id a d r :
  find_result result_id (load_student_results user_id (results_file d))
  = Some r →
  fst (save_appeal fresh_id user_id result_id a d) = Returned
  ∧ find_result result_id
      (load_student_results user_id
         (results_file (snd (save_appeal fresh_id user_id result_id a d))))
    = Some (set_appeals
              (Some (upsert_appeal fresh_id a (default [] (r_appeals r))))
              r).
Proof.
  intros (ts & Hts & Hr)%load_student_results_found.
  split; [done|].
  unfold save_appeal, worker, _save_appeal; simpl. rewrite Hts.
  destruct (upsert_in_tests_found fresh_id result_id a ts r Hr)
    as (ts' & -> & Hfind); simpl.
  unfold load_student_results. by rewrite dict_get_set.
Qed.

(** A call whose user or result is missing leaves the file as it was and
    returns like any other call; the exception ends in the log. *)
Lemma save_appeal_missing fresh_id user_id result_id a d :
  find_result result_id (load_student_results user_id (results_file d))
  = None →
  ∃ msg1 msg2,
    save_appeal fresh_id user_id result_id a d
    = (Returned,
       Db (results_file d)
          (log d ++ [LogError msg1;
                     LogError ("Ошибка в оркестраторе: " +:+ msg2)])).
Proof.
  intros Hf. unfold save_appeal, worker, _save_appeal; simpl.
  unfold load_student_results in Hf.
  destruct (dict_get user_id (results_file d) ≫= tests) as [ts|]; simpl in *.
  - rewrite (upsert_in_tests_missing _ _ _ _ Hf); simpl. eauto.
  - eauto.
Qed.

(** A result enters the file with an empty list of appeals, whatever the
    caller passed, at the end of the results of its user. *)
Lemma save_result_appends fresh_id user_id (result_data : result) d :
  dict_get user_id (results_file d) = None
  ∨ is_Some (dict_get user_id (results_file d) ≫= tests) →
  fst (save_result fresh_id user_id result_data d) = fresh_id
  ∧ load_student_results user_id
      (results_file (snd (save_result fresh_id user_id result_data d)))
    = load_student_results user_id (results_file d)
      ++ [set_appeals (Some []) (set_id fresh_id result_data)].
Proof.
  unfold save_result, worker, _save_result, load_student_results; simpl.
  intros [Hnone|[ts Hts]].
  - rewrite Hnone; simpl. rewrite dict_get_set; simpl.
    split; [done|]. by rewrite dict_get_set.
  - destruct (dict_get user_id (results_file d)) as [u|] eqn:Eu; [|done].
    simpl in Hts. rewrite Eu; simpl. rewrite Hts; simpl.
    split; [done|]. by rewrite dict_get_set.
Qed.

(** C4.  When the result exists and holds at most one appeal per question,
    two calls of [save_appeal] for the same result and question leave
    exactly one appeal on that question in the stored result: it carries
    the comment, status and timestamp of the second call and the id that
    the appeal had after the first call.  The appeals on the other
    questions of the result are the ones from before the calls, and the
    list still holds at most one appeal per question. *)
Theorem appeal_upsert (fresh1 fresh2 user_id result_id : string)
    (a1 a2 : appeal_data) (d : db) (r : result) :
  find_result result_id (load_student_results user_id (results_file d))
  = Some r →
  NoDup (a_question_idx <$> default [] (r_appeals r)) →
  ad_question_idx a2 = ad_question_idx a1 →
  let q := ad_question_idx a1 in
  let d1 := snd (save_appeal fresh1 user_id result_id a1 d) in
  let d2 := snd (save_appeal fresh2 user_id result_id a2 d1) in
  ∃ r1 r2 e1 e2,
    find_result result_id (load_student_results user_id (results_file d1))
    = Some r1
    ∧ find_result result_id (load_student_results user_id (results_file d2))
      = Some r2
    ∧ filter (fun e => a_question_idx e = q) (default [] (r_appeals r1))
      = [e1]
    ∧ filter (fun e => a_question_idx e = q) (default [] (r_appeals r2))
      = [e2]
    ∧ a_id e2 = a_id e1
    ∧ a_student_comment e2 = ad_student_comment a2
    ∧ a_timestamp e2 = ad_timestamp a2
    ∧ a_status e2 = ad_status a2
    ∧ filter (fun e => a_question_idx e ≠ q) (default [] (r_appeals r2))
      = filter (fun e => a_question_idx e ≠ q) (default [] (r_appeals r))
    ∧ NoDup (a_question_idx <$> default [] (r_appeals r2)).
Proof.
  intros Hr Hnd Hq q d1 d2.
  destruct (save_appeal_stores fresh1 user_id result_id a1 d r Hr)
    as [_ Hr1]. fold d1 in Hr1.
  destruct (save_appeal_stores fresh2 user_id result_id a2 d1 _ Hr1)
    as [_ Hr2]. fold d2 in Hr2.
  set (l := default [] (r_appeals r)) in *.
  set (l1 := upsert_appeal fresh1 a1 l) in *.
  assert (∃ e1, filter (fun e => a_question_idx e = q) l1 = [e1]) as [e1 He1].
  { unfold l1, q. rewrite upsert_appeal_same_question.
    destruct (unique_question_at_most_one l (ad_question_idx a1) Hnd)
      as [->|[e ->]]; eauto. }
  eexists _, _, e1, (stored (a_id e1) a2).
  split; [exact Hr1|]. split; [exact Hr2|]. simpl.
  split; [exact He1|].
  split.
  { unfold q. rewrite <- Hq, upsert_appeal_same_question, Hq.
    fold q. by rewrite He1. }
  split; [done|]. split; [done|]. split; [done|]. split; [done|].
  split.
  - unfold q. rewrite <- Hq, upsert_appeal_other_questions, Hq.
    unfold l1. by rewrite upsert_appeal_other_questions.
  - by do 2 apply upsert_appeal_unique.
Qed.

End database_facts.

(** A result that already holds an answered appeal on question 1 receives
    two appeals on question 0. *)
Lemma appeal_upsert_witness :
  let other := Database.Appeal "a0" 1 "Вопрос 2" "responded" "T0"
                 (Some "Проверено") (Some "T0r") in
  let r := Database.Result "r1" "t1" None "Иванов Иван 10А" ∅ (Some ∅) None ∅
             (Some [other]) "2025-01-01T10:00:00" in
  let d := Database.Db [("123", Database.UserRecord (Some [r]))] [] in
  let a1 := Database.AppealData 0 "Первый текст" "pending" "T1" in
  let a2 := Database.AppealData 0 "Второй текст" "pending" "T2" in
  let d1 := snd (Database.save_appeal "u1" "123" "r1" a1 d) in
  let d2 := snd (Database.save_appeal "u2" "123" "r1" a2 d1) in
  ∃ r1 r2 e1 e2,
    Database.find_result "r1"
      (Database.load_student_results "123" (Database.results_file d1))
    = Some r1
    ∧ Database.find_result "r1"
        (Database.load_student_results "123" (Database.results_file d2))
      = Some r2
    ∧ filter (fun e => Database.a_question_idx e = 0%Z)
             (default [] (Database.r_appeals r1)) = [e1]
    ∧ filter (fun e => Database.a_question_idx e = 0%Z)
             (default [] (Database.r_appeals r2)) = [e2]
    ∧ Database.a_id e2 = Database.a_id e1
    ∧ Database.a_student_comment e2 = "Второй текст"
    ∧ Database.a_timestamp e2 = "T2"
    ∧ Database.a_status e2 = "pending"
    ∧ filter (fun e => Database.a_question_idx e ≠ 0%Z)
             (default [] (Database.r_appeals r2))
      = filter (fun e => Database.a_question_idx e ≠ 0%Z) [other]
    ∧ NoDup (Database.a_question_idx <$> default [] (Database.r_appeals r2)).
Proof.
  intros other r d a1 a2 d1 d2.
  apply (appeal_upsert "u1" "u2" "123" "r1" a1 a2 d r).
  - reflexivity.
  - apply NoDup_singleton.
  - reflexivity.
Defined.

(** The stored list after the two calls of the witness, computed. *)
Example appeal_upsert_computed :
  let other := Database.Appeal "a0" 1 "Вопрос 2" "responded" "T0"
                 (Some "Проверено") (Some "T0r") in
  let r := Database.Result "r1" "t1" None "Иванов Иван 10А" ∅ (Some ∅) None ∅
             (Some [other]) "2025-01-01T10:00:00" in
  let d := Database.Db [("123", Database.UserRecord (Some [r]))] [] in
  let a1 := Database.AppealData 0 "Первый текст" "pending" "T1" in
  let a2 := Database.AppealData 0 "Второй текст" "pending" "T2" in
  let d1 := snd (Database.save_appeal "u1" "123" "r1" a1 d) in
  let d2 := snd (Database.save_appeal "u2" "123" "r1" a2 d1) in
  Database.find_result "r1"
    (Database.load_student_results "123" (Database.results_file d2))
    ≫= Database.r_appeals
  = Some [other;
          Database.Appeal "u1" 0 "Второй текст" "pending" "T2" None None].
Proof. reflexivity. Qed.

(** From the empty file: a result is saved, then two appeals on its
    question 0 are submitted.  One appeal is stored, with the text of the
    second and the id given to the first. *)
Example appeal_upsert_from_empty_file :
  let rd := Database.Result "" "t1" None "Иванов Иван 10А" {["0" := "x = 2"]}
              (Some {["0" := Py.Finite (Q2Qc 10)]}) None ∅ None "2025-01-01T10:00:00" in
  let '(result_id, d0) :=
    Database.save_result "r1" "123" rd (Database.Db [] []) in
  let a1 := Database.AppealData 0 "Первый текст" "pending" "T1" in
  let a2 := Database.AppealData 0 "Второй текст" "pending" "T2" in
  let d1 := snd (Database.save_appeal "u1" "123" result_id a1 d0) in
  let d2 := snd (Database.save_appeal "u2" "123" result_id a2 d1) in
  result_id = "r1"
  ∧ Database.r_appeals
      <$> Database.load_student_results "123" (Database.results_file d2)
    = [Some [Database.Appeal "u1" 0 "Второй текст" "pending" "T2" None None]].
Proof. by vm_compute. Qed.

(** C5, on the code.  The student "123" has one stored result, "r1".  A
    call of [save_appeal] for the result "r2", which does not exist,
    returns to its caller like a successful call: the [ValueError] raised
    by the task is caught by the worker and only logged.  The file is left
    as it was.  [process_appeal_comment], which wraps the call in
    [try]/[except], therefore tells the student that the appeal was sent. *)
Theorem save_appeal_missing_result_is_swallowed :
  let r := Database.Result "r1" "t1" None "Иванов Иван 10А" ∅ (Some ∅) None ∅
             (Some []) "2025-01-01T10:00:00" in
  let d := Database.Db [("123", Database.UserRecord (Some [r]))] [] in
  let a := Database.AppealData 0 "Прошу пересмотреть" "pending" "T1" in
  let s := StudentAppeal.Session (Some "123") (Some "r2") (Some 0%Z)
             [StudentDoTest.Question "open" "x = 2"] StateManager.init in
  Database.save_appeal "u1" "123" "r2" a d
  = (Database.Returned,
     Database.Db (Database.results_file d)
       [Database.LogError "Результат r2 не найден для user_id=123";
        Database.LogError "Ошибка в оркестраторе: Результат r2 не найден"])
  ∧ match StudentAppeal.process_appeal_comment (fun _ => "T1")
            (fun _ => "10:00:00") 0%Z "u1" "Прошу пересмотреть" s d with
    | StudentAppeal.Handled reply next _ d' =>
        (StudentDoTest.m_text reply, next, Database.results_file d')
    | StudentAppeal.Escaped _ => ("", States.STUDENT_MAIN, [])
    end
    = ("✅ Апелляция по вопросу 1 отправлена (время: 10:00:00):" +:+ Py.nl
         +:+ "🔍 Выберите другой вопрос для апелляции:",
       States.STUDENT_APPEAL_SELECT,
       Database.results_file d).
Proof. split; by vm_compute. Qed.

(** The same for a user that has no entry in the file. *)
Example save_appeal_missing_user_is_swallowed :
  Database.save_appeal "u1" "999" "r1"
    (Database.AppealData 0 "Прошу пересмотреть" "pending" "T1")
    (Database.Db [] [])
  = (Database.Returned,
     Database.Db []
       [Database.LogError "Пользователь 999 не найден или не имеет тестов";
        Database.LogError "Ошибка в оркестраторе: Пользователь 999 не найден"]).
Proof. by vm_compute. Qed.

(** ** The appeal window *)

Section appeal_window_facts.
Import StudentDoTest.
Variable strftime_HMS : datetime → string.

(** 24 hours, in microseconds. *)
Lemma within_24_hours (delta : timedelta) :
  Qle_bool (total_seconds delta) (24 * 3600)%Q = (delta <=? 86400000000)%Z.
Proof.
  unfold total_seconds.
  destruct (delta <=? 86400000000)%Z eqn:E.
  - apply Z.leb_le in E. apply Qle_bool_iff.
    unfold Qle, Qdiv, Qmult, Qinv, inject_Z; simpl. lia.
  - apply Z.leb_gt in E. apply not_true_is_false. intros H%Qle_bool_iff.
    revert H. unfold Qle, Qdiv, Qmult, Qinv, inject_Z; simpl. lia.
Qed.

(** C7.  With a recorded [test_completed_at], [start_appeal] goes on to
    the selection of a question (it shows one button per question and the
    back button, and pushes [STUDENT_APPEAL_SELECT]) when at most 24 hours
    have passed on the clock since the completion, and otherwise shows the
    expiry message and leaves the session as it was. *)
Theorem start_appeal_window (now now' completed : datetime) (s : session) :
  test_completed_at s = Some completed →
  ((now - completed ≤ 24 * 3600 * 1000000)%Z →
   start_appeal strftime_HMS now now' s
   = (Message
        ("🔍 Выберите вопрос для апелляции (время: " +:+ strftime_HMS now'
           +:+ "):")
        (question_buttons (length (questions s)) ++ [[create_back_button]]),
      States.STUDENT_APPEAL_SELECT,
      Session (test_completed_at s) (questions s)
              (StateManager.push States.STUDENT_APPEAL_SELECT (sm s))))
  ∧ ((now - completed > 24 * 3600 * 1000000)%Z →
     start_appeal strftime_HMS now now' s
     = (Message "❌ Срок подачи апелляции (24 часа) истёк."
                [[create_back_button]],
        States.STUDENT_APPEAL_SELECT, s)).
Proof.
  intros Hc. unfold start_appeal. rewrite Hc, within_24_hours.
  split; intros Hd.
  - rewrite (proj2 (Z.leb_le _ _)) by lia. reflexivity.
  - rewrite (proj2 (Z.leb_gt _ _)) by lia. reflexivity.
Qed.

End appeal_window_facts.

(** A test of two questions completed at time 0: an appeal started exactly
    24 hours later is accepted, one started a microsecond after that is
    rejected. *)
Lemma start_appeal_window_witness :
  let s := StudentDoTest.Session (Some 0%Z)
             [StudentDoTest.Question "test" "A";
              StudentDoTest.Question "open" "x = 2"]
             StateManager.init in
  StudentDoTest.start_appeal (fun _ => "10:00:00") 86400000000%Z
    86400000007%Z s
  = (StudentDoTest.Message
       "🔍 Выберите вопрос для апелляции (время: 10:00:00):"
       [[("Вопрос 1", "appeal_0")]; [("Вопрос 2", "appeal_1")];
        [("🔙 Назад", "back")]],
     States.STUDENT_APPEAL_SELECT,
     StudentDoTest.Session (Some 0%Z)
       [StudentDoTest.Question "test" "A";
        StudentDoTest.Question "open" "x = 2"]
       (StateManager.UserData [States.STUDENT_APPEAL_SELECT] ∅))
  ∧ StudentDoTest.start_appeal (fun _ => "10:00:00") 86400000001%Z
      86400000001%Z s
    = (StudentDoTest.Message "❌ Срок подачи апелляции (24 часа) истёк."
         [[("🔙 Назад", "back")]],
       States.STUDENT_APPEAL_SELECT, s).
Proof.
  intros s. split.
  - apply (proj1 (start_appeal_window (fun _ => "10:00:00")
                    86400000000%Z 86400000007%Z 0%Z s eq_refl)).
    by vm_compute.
  - apply (proj2 (start_appeal_window (fun _ => "10:00:00")
                    86400000001%Z 86400000001%Z 0%Z s eq_refl)).
    by vm_compute.
Defined.

(** ** Saving an edited score *)

Section save_score_facts.
Import Database TeacherShowResult.
Variable py_float : string → option Py.float.
Implicit Types (f : result → result) (ts : list result) (r : result).
Implicit Types (data file : results_data) (s : session).

Lemma find_app_first {A} (P : A → bool) (l1 l2 : list A) :
  find P (l1 ++ l2)
  = match find P l1 with Some x => Some x | None => find P l2 end.
Proof.
  induction l1 as [|x l1 IH]; simpl; [done|]. by destruct (P x).
Qed.

Lemma update_first_missing result_id f ts :
  find (fun r => bool_decide (r_id r = result_id)) ts = None →
  update_first result_id f ts = None.
Proof.
  induction ts as [|r ts IH]; simpl; [done|].
  destruct (bool_decide (r_id r = result_id)); [done|].
  intros Hf. by rewrite IH.
Qed.

Lemma update_first_found result_id f ts r :
  (∀ r0, r_id (f r0) = r_id r0) →
  find (fun r => bool_decide (r_id r = result_id)) ts = Some r →
  ∃ ts', update_first result_id f ts = Some ts'
         ∧ find (fun r => bool_decide (r_id r = result_id)) ts' = Some (f r).
Proof.
  intros Hid. induction ts as [|r0 ts IH]; simpl; [done|].
  destruct (bool_decide (r_id r0 = result_id)) eqn:E.
  - intros [= ->]. eexists; split; [done|]. simpl.
    by rewrite Hid, E.
  - intros Hf. destruct (IH Hf) as (ts' & -> & Hfind). simpl.
    eexists; split; [done|]. simpl. by rewrite E.
Qed.

(** The file after the in-place update holds the updated result at the
    place of the one that the search finds. *)
Lemma find_update_stored result_id f file r :
  (∀ r0, r_id (f r0) = r_id r0) →
  find_stored result_id file = Some r →
  find_stored result_id (update_stored result_id f file) = Some (f r).
Proof.
  intros Hid. unfold find_stored.
  induction file as [|[user_id user_data] file IH]; simpl; [done|].
  rewrite find_app_first.
  destruct (find _ (default [] (tests user_data))) as [r0|] eqn:E.
  - intros [= ->].
    destruct (update_first_found result_id f _ r Hid E) as (ts' & -> & Hf).
    simpl. rewrite find_app_first. by rewrite Hf.
  - intros Hrest. rewrite (update_first_missing _ _ _ E). simpl.
    rewrite find_app_first, E. by apply IH.
Qed.

Lemma put_score_id key score r : r_id (put_score key score r) = r_id r.
Proof. reflexivity. Qed.

Lemma get_put_score key score r :
  get_score key (put_score key score r) = score.
Proof. unfold get_score, put_score; simpl. by rewrite lookup_insert_eq. Qed.

Lemma find_fmap_same_id result_id (g : result → result) ts :
  (∀ r0, r_id (g r0) = r_id r0) →
  find (fun r => bool_decide (r_id r = result_id)) (g <$> ts)
  = g <$> find (fun r => bool_decide (r_id r = result_id)) ts.
Proof.
  intros Hid. induction ts as [|r ts IH]; simpl; [done|].
  rewrite Hid. by destruct (bool_decide (r_id r = result_id)).
Qed.

(** The scan for the user id gives the same answer on the file before and
    after the in-place update. *)
Lemma scan_update_stored result_id f file :
  (∀ r0, r_id (f r0) = r_id r0) →
  _get_user_id_by_result_id result_id (update_stored result_id f file)
  = _get_user_id_by_result_id result_id file.
Proof.
  intros Hid. unfold _get_user_id_by_result_id, load_all_results.
  induction file as [|[user_id user_data] file IH]; simpl; [done|].
  rewrite find_app_first, find_fmap_same_id by done.
  destruct (find _ (default [] (tests user_data))) as [r0|] eqn:E; simpl.
  - destruct (update_first_found result_id f _ r0 Hid E) as (ts' & -> & Hf).
    simpl. rewrite find_app_first, find_fmap_same_id by done.
    by rewrite Hf.
  - rewrite (update_first_missing _ _ _ E). simpl.
    rewrite find_app_first, find_fmap_same_id by done.
    rewrite E. simpl. apply IH.
Qed.

(** The scan finds the key under which the result is filed. *)
Lemma scan_finds_owner result_id file r :
  find_stored result_id file = Some r →
  ∃ user_id user_data,
    (user_id, user_data) ∈ file
    ∧ r ∈ default [] (tests user_data)
    ∧ _get_user_id_by_result_id result_id file = Some user_id.
Proof.
  unfold find_stored, _get_user_id_by_result_id, load_all_results.
  induction file as [|[user_id user_data] file IH]; simpl; [done|].
  rewrite !find_app_first, find_fmap_same_id by done.
  destruct (find _ (default [] (tests user_data))) as [r0|] eqn:E; simpl.
  - intros [= ->]. exists user_id, user_data.
    split; [by left|]. split; [|done].
    apply list_elem_of_In. by apply find_some in E as [E _].
  - intros Hrest. destruct (IH Hrest) as (u & ud & Hin & Hr & Hscan).
    exists u, ud. split; [by right|]. done.
Qed.

(** An edit that repeats the stored value writes nothing. *)
Lemma save_score_unchanged uuid message_text tests file s
    result_id q_idx test_id score result :
  edit_target s = Some (result_id, q_idx, test_id) →
  py_float (TeacherCreate.strip message_text) = Some score →
  find_stored result_id file = Some result →
  Py.float_eq (get_score (pretty q_idx) result) score = true →
  save_score py_float uuid (Some message_text) tests file s
  = HandlerResult file [] s ["Оценка сохранена."] ReturnToPrevious.
Proof.
  intros Ht Hs Hf Heq. unfold save_score, validate_score.
  by rewrite Ht, Hs, Hf, Heq.
Qed.

(** An edit that changes the value writes the file once, with the new
    score in the result, before the notification is prepared. *)
Lemma save_score_changed uuid message_text tests file s
    result_id q_idx test_id score result :
  edit_target s = Some (result_id, q_idx, test_id) →
  py_float (TeacherCreate.strip message_text) = Some score →
  find_stored result_id file = Some result →
  Py.float_eq (get_score (pretty q_idx) result) score = false →
  let file' := update_stored result_id (put_score (pretty q_idx) score) file in
  save_score py_float uuid (Some message_text) tests file s
  = match notify uuid result_id q_idx test_id score tests file'
            (put_score (pretty q_idx) score result) s with
    | inl e => HandlerResult file' [file'] s [] (Raise e)
    | inr s' =>
        HandlerResult file' [file'] s' ["Оценка сохранена."] ReturnToPrevious
    end.
Proof.
  intros Ht Hs Hf Hne. unfold save_score, validate_score.
  by rewrite Ht, Hs, Hf, Hne.
Qed.

(** The notification of a result that stores no user id of its own. *)
Lemma notify_without_stored_user uuid result_id q_idx test_id score tests
    file r s :
  Py.truthy_opt (r_user_id r) = false →
  (∀ t, load_test_by_id test_id tests = Some t →
        is_Some (Py.index (t_questions t) q_idx)) →
  ∃ test_name question_text,
    notify uuid result_id q_idx test_id score tests file r s
    = inr (if Py.truthy_opt (_get_user_id_by_result_id result_id file)
           then _add_change uuid
                  (Change "score" (_get_user_id_by_result_id result_id file)
                          test_id test_name (q_idx + 1)%Z question_text
                          score (get_comment (pretty q_idx) r) None) s
           else s).
Proof.
  intros Hu Hidx. unfold notify.
  destruct (load_test_by_id test_id tests) as [t|] eqn:Et.
  - destruct (Hidx t eq_refl) as [txt ->].
    rewrite Hu; cbv beta iota delta [negb].
    exists (t_name t), (Py.take_str 50 txt +:+ "...").
    by destruct (Py.truthy_opt (_get_user_id_by_result_id result_id file)).
  - rewrite Hu; cbv beta iota delta [negb].
    exists "Неизвестный тест", "Неизвестный вопрос".
    by destruct (Py.truthy_opt (_get_user_id_by_result_id result_id file)).
Qed.

Lemma add_change_appends uuid c s (student_id : string) :
  c_student_id c = Some student_id →
  Py.truthy student_id = true →
  ∃ c',
    test_changes (_add_change uuid c s)
    = <[c_test_id c := default [] (test_changes s !! c_test_id c) ++ [c']]>
        (test_changes s)
    ∧ c_type c' = c_type c ∧ c_student_id c' = Some student_id
    ∧ c_test_id c' = c_test_id c ∧ c_question_idx c' = c_question_idx c
    ∧ c_score c' = c_score c ∧ c_comment c' = c_comment c.
Proof.
  intros Hs Ht. destruct c as [ty sid tid tname qi qtext sc cm cid].
  simpl in Hs. subst sid. unfold _add_change; simpl. rewrite Ht.
  eexists. split; [reflexivity|]. done.
Qed.

(** A result that stores a user id of its own: the score is written once,
    and the handler queues nothing, whatever the file and the tests. *)
Lemma save_score_with_stored_user uuid message_text tests file s
    result_id q_idx test_id score result :
  edit_target s = Some (result_id, q_idx, test_id) →
  py_float (TeacherCreate.strip message_text) = Some score →
  find_stored result_id file = Some result →
  Py.float_eq (get_score (pretty q_idx) result) score = false →
  Py.truthy_opt (r_user_id result) = true →
  let hr := save_score py_float uuid (Some message_text) tests file s in
  h_writes hr = [update_stored result_id (put_score (pretty q_idx) score)
                   file]
  ∧ h_session hr = s.
Proof.
  intros Ht Hs Hf Hne Hu.
  rewrite (save_score_changed uuid _ tests _ _ _ _ _ _ _ Ht Hs Hf Hne).
  unfold notify.
  change (r_user_id (put_score (pretty q_idx) score result))
    with (r_user_id result).
  rewrite Hu; simpl.
  destruct (load_test_by_id test_id tests) as [t|]; [|done].
  by destruct (Py.index (t_questions t) q_idx).
Qed.

End save_score_facts.

(** C6, on the code: the input of the repository's test
    [test_save_score_success].  The result "result1" is filed under
    "user1" and stores the user id "student1" inside; it has no score for
    question 0 yet.  The teacher sends "5.0", which differs from the
    stored value 0.  The score 5 is written, the file is saved once and
    the handler answers that the score is saved; and no notification is
    queued, because [_add_change] is called only on the path that has
    found no user id in the result. *)
Example save_score_of_the_unit_test :
  let r := Database.Result "result1" "test1" (Some "student1") ""
             {["0" := "answer"]} (Some ∅) None ∅ None "" in
  let file := [("user1", Database.UserRecord (Some [r]))] in
  let tests := [TeacherShowResult.Test "test1" "Тест 1" ["Вопрос 1"]] in
  let s := TeacherShowResult.Session (Some "result1") (Some 0%Z)
             (Some "test1") (Some States.TEACHER_CHECK_ANSWERS) ∅ in
  let hr := TeacherShowResult.save_score
              (fun _ => Some (Py.Finite (Q2Qc 5))) "uuid"
              (Some "5.0") tests file s in
  TeacherShowResult.get_score "0"
    <$> TeacherShowResult.find_stored "result1" (TeacherShowResult.h_file hr)
  = Some (Py.Finite (Q2Qc 5))
  ∧ TeacherShowResult.h_writes hr = [TeacherShowResult.h_file hr]
  ∧ TeacherShowResult.h_replies hr = ["Оценка сохранена."]
  ∧ TeacherShowResult.h_end hr = TeacherShowResult.ReturnToPrevious
  ∧ TeacherShowResult.test_changes (TeacherShowResult.h_session hr) = ∅.
Proof. repeat split; by vm_compute. Qed.

(* ===================================================================== *)
(** * Part II, continued: further properties of the same code *)
(* ===================================================================== *)

(** ** The state manager: data of other states, balanced navigation *)

Section state_manager_more.
Import StateManager.
Context {St Key Val : Type}.
Context `{Countable St, Countable Key}.

Lemma get_set_data_other_key state key key' value dflt
    (ud : user_data St Key Val) :
  key ≠ key' →
  get_data state key' dflt (set_data state key value ud)
  = get_data state key' dflt ud.
Proof.
  intros Hne. unfold get_data, set_data. simpl.
  rewrite lookup_insert_eq. simpl.
  rewrite lookup_insert_ne by done.
  destruct (state_data ud !! state) as [inner|] eqn:E.
  - by rewrite E.
  - by rewrite lookup_insert_eq.
Qed.

Lemma run_ops_app (os1 os2 : list (stack_op St)) (ud : user_data St Key Val) :
  run_ops (os1 ++ os2) ud = run_ops os2 (run_ops os1 ud).
Proof. unfold run_ops. by rewrite foldl_app. Qed.

Lemma run_op_pop_push state (ud : user_data St Key Val) :
  run_op Pop (run_op (Push state) ud) = ud.
Proof. simpl. by rewrite pop_push. Qed.

(** X1.  [set_data] writes one entry and nothing else: reading any state
    and key afterwards gives the new value at the written state and key and
    the old value everywhere else, and the stack of states is untouched. *)
Theorem set_data_frame state key value state' key' dflt
    (ud : user_data St Key Val) :
  get_data state' key' dflt (set_data state key value ud)
  = (if decide (state' = state ∧ key' = key) then value
     else get_data state' key' dflt ud)
  ∧ state_stack (set_data state key value ud) = state_stack ud.
Proof.
  split; [|done].
  case_decide as Hd.
  - destruct Hd as [-> ->]. apply get_set_data.
  - destruct (decide (state' = state)) as [->|Hs].
    + apply get_set_data_other_key. intros ->. by apply Hd.
    + by apply get_set_data_other_state.
Qed.

(** X2.  Navigation is balanced: after any states were pushed one after the
    other, popping as many times gives back the session as it was, stack
    and data. *)
Theorem pops_undo_pushes (l : list St) (ud : user_data St Key Val) :
  run_ops ((Push <$> l) ++ replicate (length l) Pop) ud = ud.
Proof.
  revert ud. induction l as [|s l IH] using rev_ind; intros ud; [done|].
  rewrite fmap_app, length_app, Nat.add_comm. simpl.
  rewrite <- app_assoc.
  change ((Push <$> l) ++ [Push s] ++ Pop :: replicate (length l) Pop)
    with ((Push <$> l) ++ [Push s; Pop] ++ replicate (length l) Pop).
  rewrite !run_ops_app.
  change (run_ops [Push s; Pop] (run_ops (Push <$> l) ud))
    with (run_op Pop (run_op (Push s) (run_ops (Push <$> l) ud))).
  rewrite run_op_pop_push, <- run_ops_app. apply IH.
Qed.

End state_manager_more.

(** ** The results file: what a write keeps and what a read finds *)

Section results_file_facts.
Import Database.
Implicit Types (a : appeal_data) (l : list appeal) (ts : list result).
Implicit Types (d : db) (data : results_data) (r : result).

Lemma dict_get_elem_of {V} (k : string) (v : V) (dict : list (string * V)) :
  dict_get k dict = Some v → (k, v) ∈ dict.
Proof.
  induction dict as [|[k' v'] dict IH]; simpl; [done|].
  destruct (decide (k' = k)) as [->|Hne].
  - intros [= ->]. apply elem_of_cons. by left.
  - intros Hg. apply elem_of_cons. right. by apply IH.
Qed.

Lemma dict_set_keys {V} (k : string) (v v' : V) (dict : list (string * V)) :
  dict_get k dict = Some v → fst <$> dict_set k v' dict = fst <$> dict.
Proof.
  induction dict as [|[k0 v0] dict IH]; simpl; [done|].
  destruct (decide (k0 = k)) as [->|Hne]; [done|].
  intros Hg. rewrite !fmap_cons. by rewrite IH.
Qed.

Lemma find_result_elem_of result_id ts r :
  find_result result_id ts = Some r → r ∈ ts ∧ r_id r = result_id.
Proof.
  unfold find_result. induction ts as [|t ts IH]; simpl; [done|].
  destruct (decide (r_id t = result_id)) as [E|E].
  - rewrite bool_decide_eq_true_2 by done. intros [= ->].
    split; [apply elem_of_cons; by left|done].
  - rewrite bool_decide_eq_false_2 by done. intros Hf.
    destruct (IH Hf). split; [apply elem_of_cons; by right|done].
Qed.

Lemma find_result_app result_id ts ts' :
  find_result result_id (ts ++ ts')
  = match find_result result_id ts with
    | Some r => Some r
    | None => find_result result_id ts'
    end.
Proof.
  unfold find_result. induction ts as [|t ts IH]; simpl; [done|].
  by destruct (bool_decide (r_id t = result_id)).
Qed.

Lemma upsert_appeal_holds fresh_id a l :
  ∃ id, stored id a ∈ upsert_appeal fresh_id a l.
Proof.
  induction l as [|e l [id IH]]; simpl.
  - exists fresh_id. apply elem_of_cons. by left.
  - destruct (decide (a_question_idx e = ad_question_idx a)).
    + exists (a_id e). apply elem_of_cons. by left.
    + exists id. apply elem_of_cons. by right.
Qed.

(** The results of a user before and after the outer loop of
    [_save_appeal]: position by position, a result keeps everything but its
    appeals, and a result with another id is kept as it is. *)
Lemma upsert_in_tests_frame fresh_id result_id a ts ts' :
  upsert_in_tests fresh_id result_id a ts = Some ts' →
  Forall2 (fun r r' => set_appeals None r' = set_appeals None r
                       ∧ (r_id r ≠ result_id → r' = r)) ts ts'.
Proof.
  revert ts'. induction ts as [|t ts IH]; simpl; intros ts'; [done|].
  destruct (decide (r_id t = result_id)) as [E|E].
  - intros [= <-]. apply Forall2_cons. split; [by split|].
    apply Forall2_same_length_lookup_2; [done|].
    intros i x y Hx Hy. rewrite Hx in Hy. injection Hy as <-. by split.
  - destruct (upsert_in_tests fresh_id result_id a ts) as [rest'|]; [|done].
    simpl. intros [= <-]. apply Forall2_cons. split; [by split|by apply IH].
Qed.

Lemma load_all_results_elem_of data user_id user_data r :
  (user_id, user_data) ∈ data →
  r ∈ default [] (tests user_data) →
  set_user_id (Some user_id) r ∈ load_all_results data.
Proof.
  intros Hu Hr. unfold load_all_results.
  apply list_elem_of_In, in_flat_map.
  exists (user_id, user_data). split; [by apply list_elem_of_In|].
  apply list_elem_of_In, list_elem_of_fmap. by exists r.
Qed.

(** X3.  [save_result] and the readers.  When the user has no entry in the
    results file yet, or has one with a list of results, the call returns
    the new id, the results of the user are the old ones followed by the
    result under that id and with an empty list of appeals, the results of
    every other user are unchanged, and [load_all_results] lists the new
    result with the user id written into it. *)
Theorem save_result_round_trip fresh_id user_id (result_data : result) d :
  dict_get user_id (results_file d) = None
  ∨ is_Some (dict_get user_id (results_file d) ≫= tests) →
  let saved := save_result fresh_id user_id result_data d in
  let stored_result := set_appeals (Some []) (set_id fresh_id result_data) in
  fst saved = fresh_id
  ∧ load_student_results user_id (results_file (snd saved))
    = load_student_results user_id (results_file d) ++ [stored_result]
  ∧ (∀ u, u ≠ user_id →
       load_student_results u (results_file (snd saved))
       = load_student_results u (results_file d))
  ∧ set_user_id (Some user_id) stored_result
    ∈ load_all_results (results_file (snd saved)).
Proof.
  intros Hpre saved stored_result.
  destruct (save_result_appends fresh_id user_id result_data d Hpre)
    as [Hid Hload].
  split; [exact Hid|]. split; [exact Hload|].
  assert (∃ ts, results_file (snd saved)
                = dict_set user_id (UserRecord (Some (ts ++ [stored_result])))
                    (match dict_get user_id (results_file d) with
                     | None => dict_set user_id (UserRecord (Some []))
                                 (results_file d)
                     | Some _ => results_file d
                     end)) as [ts Hfile].
  { unfold saved, save_result, worker, _save_result; simpl.
    destruct Hpre as [Hnone|[ts Hts]].
    - rewrite Hnone; simpl. rewrite dict_get_set; simpl. by exists [].
    - destruct (dict_get user_id (results_file d)) as [u|] eqn:Eu; [|done].
      simpl in Hts. rewrite Eu; simpl. rewrite Hts; simpl. by exists ts. }
  split.
  - intros u Hu. rewrite Hfile. unfold load_student_results.
    rewrite dict_get_set_ne by done.
    destruct (dict_get user_id (results_file d)); [done|].
    by rewrite dict_get_set_ne.
  - apply (load_all_results_elem_of _ user_id
             (UserRecord (Some (ts ++ [stored_result])))).
    + rewrite Hfile. apply dict_get_elem_of, dict_get_set.
    + simpl. apply elem_of_app. right. apply elem_of_cons. by left.
Qed.

(** X4.  The id that [save_result] returned can be used at once: under the
    same precondition, an appeal saved for the same user under the returned
    id is found afterwards in a stored result with that id, with its
    question, comment, status and timestamp. *)
Theorem appeal_on_saved_result fresh_id appeal_id user_id
    (result_data : result) a d :
  dict_get user_id (results_file d) = None
  ∨ is_Some (dict_get user_id (results_file d) ≫= tests) →
  let saved := save_result fresh_id user_id result_data d in
  let d2 := snd (save_appeal appeal_id user_id (fst saved) a (snd saved)) in
  ∃ r e,
    find_result (fst saved) (load_student_results user_id (results_file d2))
    = Some r
    ∧ e ∈ default [] (r_appeals r)
    ∧ a_question_idx e = ad_question_idx a
    ∧ a_student_comment e = ad_student_comment a
    ∧ a_status e = ad_status a
    ∧ a_timestamp e = ad_timestamp a.
Proof.
  intros Hpre saved d2.
  destruct (save_result_appends fresh_id user_id result_data d Hpre)
    as [Hid Hload]. fold saved in Hid, Hload.
  assert (∃ r0, find_result (fst saved)
                  (load_student_results user_id (results_file (snd saved)))
                = Some r0) as [r0 Hr0].
  { rewrite Hload, Hid, find_result_app.
    destruct (find_result fresh_id
                (load_student_results user_id (results_file d))); [eauto|].
    unfold find_result. simpl. rewrite bool_decide_eq_true_2 by done. eauto. }
  destruct (save_appeal_stores appeal_id user_id (fst saved) a (snd saved)
              r0 Hr0) as [_ Hfound]. fold d2 in Hfound.
  destruct (upsert_appeal_holds appeal_id a (default [] (r_appeals r0)))
    as [id Hin].
  eexists _, (stored id a). split; [exact Hfound|]. simpl. by split.
Qed.

(** X5.  [save_appeal] touches nothing but the appeals of the result it is
    given: the users of the file and their order stay, the results of every
    other user stay, and, position by position, a result of the user keeps
    its id, answers, scores and comments, and is untouched altogether when
    its id is another one. *)
Theorem save_appeal_frame fresh_id user_id result_id a d :
  let file := results_file d in
  let file' := results_file (snd (save_appeal fresh_id user_id result_id a d)) in
  fst <$> file' = fst <$> file
  ∧ (∀ u, u ≠ user_id → dict_get u file' = dict_get u file)
  ∧ Forall2 (fun r r' => set_appeals None r' = set_appeals None r
                         ∧ (r_id r ≠ result_id → r' = r))
      (load_student_results user_id file)
      (load_student_results user_id file').
Proof.
  intros file file'.
  assert (∀ ts, Forall2 (fun r r' => set_appeals None r' = set_appeals None r
                                     ∧ (r_id r ≠ result_id → r' = r)) ts ts)
    as Hrefl.
  { intros ts. apply Forall2_same_length_lookup_2; [done|].
    intros i x y Hx Hy. rewrite Hx in Hy. injection Hy as <-. by split. }
  unfold file', save_appeal, worker, _save_appeal; simpl. fold file.
  destruct (dict_get user_id file) as [u|] eqn:Eu; simpl;
    [|split; [done|split; [done|apply Hrefl]]].
  destruct (tests u) as [ts|] eqn:Ets; simpl;
    [|split; [done|split; [done|apply Hrefl]]].
  destruct (upsert_in_tests fresh_id result_id a ts) as [ts'|] eqn:Eup; simpl;
    [|split; [done|split; [done|apply Hrefl]]].
  split; [by apply (dict_set_keys _ u)|].
  split; [intros u' Hu'; by apply dict_get_set_ne|].
  unfold load_student_results. rewrite dict_get_set, Eu; simpl. rewrite Ets.
  simpl. by apply (upsert_in_tests_frame fresh_id _ a).
Qed.

(** X6.  An appeal for a result that the user does not have (the user may
    be missing altogether) changes nothing in the results file; the call
    returns as a successful one does, and the two errors are only logged. *)
Theorem save_appeal_without_target fresh_id user_id result_id a d :
  find_result result_id (load_student_results user_id (results_file d))
  = None →
  fst (save_appeal fresh_id user_id result_id a d) = Returned
  ∧ results_file (snd (save_appeal fresh_id user_id result_id a d))
    = results_file d
  ∧ ∃ msg1 msg2,
      log (snd (save_appeal fresh_id user_id result_id a d))
      = log d ++ [LogError msg1;
                  LogError ("Ошибка в оркестраторе: " +:+ msg2)].
Proof.
  intros Hf.
  destruct (save_appeal_missing fresh_id user_id result_id a d Hf)
    as (msg1 & msg2 & ->).
  simpl. split; [done|]. split; [done|]. by exists msg1, msg2.
Qed.

End results_file_facts.

Section appeals_list_facts.
Import Database DatabaseTests.

Lemma load_all_appeals_elem_of (data : results_data) user_id user_data r e :
  (user_id, user_data) ∈ data →
  r ∈ default [] (Database.tests user_data) →
  e ∈ default [] (r_appeals r) →
  ListedAppeal e user_id (r_test_id r) ∈ load_all_appeals data.
Proof.
  intros Hu Hr He. unfold load_all_appeals.
  apply list_elem_of_In, in_flat_map.
  exists (user_id, user_data). split; [by apply list_elem_of_In|].
  apply in_flat_map. exists r. split; [by apply list_elem_of_In|].
  apply list_elem_of_In, list_elem_of_fmap. by exists e.
Qed.

(** X7.  A saved appeal reaches the teacher's list: when the user has a
    result with the id, [load_all_appeals] lists afterwards an appeal with
    the question, comment, status and timestamp of the call, under the user
    id and the test id of that result; the appeal carries no answer of the
    teacher, also when it replaced an answered one. *)
Theorem saved_appeal_is_listed fresh_id user_id result_id
    (a : appeal_data) (d : Database.db) (r : result) :
  find_result result_id (load_student_results user_id (results_file d))
  = Some r →
  ∃ e,
    ListedAppeal e user_id (r_test_id r)
    ∈ load_all_appeals
        (results_file (snd (save_appeal fresh_id user_id result_id a d)))
    ∧ a_question_idx e = ad_question_idx a
    ∧ a_student_comment e = ad_student_comment a
    ∧ a_status e = ad_status a
    ∧ a_timestamp e = ad_timestamp a
    ∧ a_teacher_comment e = None
    ∧ a_response_timestamp e = None.
Proof.
  intros Hr.
  destruct (save_appeal_stores fresh_id user_id result_id a d r Hr)
    as [_ Hfound].
  set (d' := snd (save_appeal fresh_id user_id result_id a d)) in *.
  destruct (upsert_appeal_holds fresh_id a (default [] (r_appeals r)))
    as [id Hin].
  exists (stored id a). split; [|done].
  apply load_student_results_found in Hfound as (ts' & Hts' & Hfound).
  apply find_result_elem_of in Hfound as [Hmem _].
  destruct (dict_get user_id (results_file d')) as [u'|] eqn:Eu'; [|done].
  simpl in Hts'.
  change (r_test_id r)
    with (r_test_id (set_appeals
                       (Some (upsert_appeal fresh_id a
                                (default [] (r_appeals r)))) r)).
  apply (load_all_appeals_elem_of _ user_id u').
  - by apply dict_get_elem_of.
  - by rewrite Hts'.
  - done.
Qed.

End appeals_list_facts.

(** ** The tests file *)

Section tests_file_facts.
Import Database DatabaseTests.

Lemma all_tests_new_teacher teacher ts (data : tests_data) :
  dict_get teacher data = None →
  all_tests (dict_set teacher (TeacherRecord (Some ts)) data)
  = all_tests data ++ ts.
Proof.
  unfold all_tests. induction data as [|[k v] data IH]; simpl.
  - intros _. by rewrite app_nil_r.
  - destruct (decide (k = teacher)) as [->|Hne]; [done|].
    intros Hg. simpl. by rewrite IH, app_assoc.
Qed.

Lemma all_tests_old_teacher teacher ts ts' (data : tests_data) :
  dict_get teacher data ≫= tests = Some ts →
  ∃ before after,
    all_tests data = before ++ ts ++ after
    ∧ all_tests (dict_set teacher (TeacherRecord (Some ts')) data)
      = before ++ ts' ++ after.
Proof.
  unfold all_tests. induction data as [|[k v] data IH]; simpl; [done|].
  destruct (decide (k = teacher)) as [->|Hne]; simpl.
  - intros Hts. exists [], (all_tests data). simpl. by rewrite Hts.
  - intros Hg. destruct (IH Hg) as (before & after & E1 & E2).
    exists (default [] (tests v) ++ before), after.
    fold (all_tests data) in *. rewrite E1, E2. by rewrite <- !app_assoc.
Qed.

Lemma find_app_last {A} (P : A → bool) (before ts after : list A) (x : A) :
  P x = false →
  find P (before ++ (ts ++ [x]) ++ after) = find P (before ++ ts ++ after).
Proof.
  intros Hx. rewrite !find_app_first.
  destruct (find P before); [done|].
  destruct (find P ts); [done|]. simpl. by rewrite Hx.
Qed.

(** X8.  [save_test] and the readers.  When the teacher has no entry in
    the tests file yet, or has one with a list of tests, the call returns
    the new id; the tests of the teacher are the old ones followed by the
    test as given, with the new id, the time of the call and the teacher id
    as text in place of whatever the caller had put there; the tests of
    every other teacher are unchanged; every other id resolves as before,
    and the new id, if it did not resolve before, resolves to the new
    test. *)
Theorem save_test_round_trip fresh_id now_iso (test_data : test)
    (d : DatabaseTests.db) :
  let teacher := py_str (teacher_id test_data) in
  dict_get teacher (tests_file d) = None
  ∨ is_Some (dict_get teacher (tests_file d) ≫= tests) →
  let saved := save_test fresh_id now_iso test_data d in
  let stored_test :=
    Test (Some fresh_id) (subject test_data) (classes test_data)
         (name test_data) (questions test_data) (global_comment test_data)
         (Some teacher) (Some now_iso) in
  fst saved = fresh_id
  ∧ load_teacher_tests teacher (tests_file (snd saved))
    = load_teacher_tests teacher (tests_file d) ++ [stored_test]
  ∧ (∀ t, t ≠ teacher →
       load_teacher_tests t (tests_file (snd saved))
       = load_teacher_tests t (tests_file d))
  ∧ (∀ test_id, test_id ≠ fresh_id →
       load_test_by_id test_id (tests_file (snd saved))
       = load_test_by_id test_id (tests_file d))
  ∧ (load_test_by_id fresh_id (tests_file d) = None →
     load_test_by_id fresh_id (tests_file (snd saved)) = Some stored_test).
Proof.
  intros teacher Hpre saved stored_test.
  set (ts := load_teacher_tests teacher (tests_file d)).
  assert (fst saved = fresh_id
          ∧ tests_file (snd saved)
            = dict_set teacher (TeacherRecord (Some (ts ++ [stored_test])))
                (match dict_get teacher (tests_file d) with
                 | None => dict_set teacher (TeacherRecord (Some []))
                             (tests_file d)
                 | Some _ => tests_file d
                 end)) as [Hid Hfile].
  { unfold saved, save_test, _save_test, ts, load_teacher_tests; simpl.
    fold teacher. destruct Hpre as [Hnone|[ts0 Hts0]].
    - rewrite Hnone; simpl. rewrite dict_get_set; simpl. done.
    - destruct (dict_get teacher (tests_file d)) as [u|] eqn:Eu; [|done].
      simpl in Hts0. simpl. rewrite ?Eu; simpl. rewrite Hts0; simpl. done. }
  assert (all_tests (tests_file (snd saved))
          = all_tests (tests_file d) ++ [stored_test]
          ∨ ∃ before after,
              all_tests (tests_file d) = before ++ ts ++ after
              ∧ all_tests (tests_file (snd saved))
                = before ++ (ts ++ [stored_test]) ++ after) as Hall.
  { rewrite Hfile. unfold ts, load_teacher_tests.
    destruct (dict_get teacher (tests_file d)) as [u|] eqn:Eu.
    - right. destruct Hpre as [?|[ts0 Hts0]]; [done|]. simpl in Hts0.
      simpl. rewrite Hts0. simpl.
      apply (all_tests_old_teacher teacher ts0). by rewrite Eu.
    - left. simpl.
      assert (dict_set teacher (TeacherRecord (Some [stored_test]))
                (dict_set teacher (TeacherRecord (Some [])) (tests_file d))
              = dict_set teacher (TeacherRecord (Some [stored_test]))
                  (tests_file d)) as ->.
      { clear -Eu. induction (tests_file d) as [|[k v] data IH]; simpl.
        - by rewrite decide_True.
        - simpl in Eu. destruct (decide (k = teacher)); [done|]. simpl.
          rewrite decide_False by done. by rewrite IH. }
      by apply all_tests_new_teacher. }
  split; [exact Hid|].
  split.
  { rewrite Hfile. unfold load_teacher_tests at 1. by rewrite dict_get_set. }
  split.
  { intros t Ht. rewrite Hfile. unfold load_teacher_tests.
    rewrite dict_get_set_ne by done.
    destruct (dict_get teacher (tests_file d)); [done|].
    by rewrite dict_get_set_ne. }
  split.
  - intros test_id Hne. unfold load_test_by_id.
    assert (bool_decide (t_id stored_test = Some test_id) = false) as Hx.
    { apply bool_decide_eq_false_2. simpl. intros [= E]. by apply Hne. }
    destruct Hall as [->|(before & after & -> & ->)].
    + rewrite find_app_first. simpl in *. rewrite Hx.
      by destruct (find _ (all_tests (tests_file d))).
    + by apply (find_app_last
                  (fun t => bool_decide (t_id t = Some test_id))).
  - unfold load_test_by_id.
    assert (bool_decide (t_id stored_test = Some fresh_id) = true) as Hx.
    { by apply bool_decide_eq_true_2. }
    destruct Hall as [->|(before & after & -> & ->)].
    + intros Hnone. rewrite find_app_first, Hnone. simpl in *. by rewrite Hx.
    + rewrite !find_app_first.
      destruct (find _ before); [done|].
      destruct (find _ ts); [done|]. simpl in *. by rewrite Hx.
Qed.

End tests_file_facts.

(** ** The score report: one score per question, comments of the model *)

Section report_facts.
Import StudentDoTest.
Variable lower : string → string.
Variable ratio : string → string → Q.
Variable format_1f : Q → string.

Local Open Scope Z_scope.

Lemma body_score_range ua idx q :
  0 ≤ body_score lower ratio ua idx q ≤ 10.
Proof.
  unfold body_score. repeat case_decide; try lia.
  rewrite check_open_answer_score. lia.
Qed.

Lemma body_comment_value ua idx q :
  body_comment lower ratio ua idx q
  = if decide (q_type q = "test") then ""
    else if decide (default NOT_ANSWERED (ua !! idx) = NOT_ANSWERED) then ""
    else band_comment
           (fst (_check_open_answer lower ratio
                   (default NOT_ANSWERED (ua !! idx)) (correct_answer q))).
Proof.
  unfold body_comment. repeat case_decide; try done.
  by rewrite check_open_answer_comment, replace_prefix_band.
Qed.

(** A key that is not the text of a position of the loop is not written. *)
Lemma grade_loop_scores_outside ua idx qs st (k : string) :
  (∀ j, (idx ≤ j < idx + length qs)%nat → k ≠ pretty j) →
  scores (grade_loop lower ratio ua idx qs st) !! k = scores st !! k.
Proof.
  revert idx st. induction qs as [|q qs IH]; intros idx st Hk; simpl; [done|].
  rewrite IH.
  - rewrite grade_step_scores, lookup_insert_ne; [done|].
    intros E. apply (Hk idx); [simpl; lia|done].
  - intros j Hj. apply Hk. simpl. lia.
Qed.

Lemma grade_loop_comments_outside ua idx qs st (k : string) :
  (∀ j, (idx ≤ j < idx + length qs)%nat → k ≠ pretty j) →
  Comment_LLM (grade_loop lower ratio ua idx qs st) !! k
  = Comment_LLM st !! k.
Proof.
  revert idx st. induction qs as [|q qs IH]; intros idx st Hk; simpl; [done|].
  rewrite IH.
  - rewrite grade_step_comments.
    destruct (Py.truthy _); [|done].
    rewrite lookup_insert_ne; [done|].
    intros E. apply (Hk idx); [simpl; lia|done].
  - intros j Hj. apply Hk. simpl. lia.
Qed.

Lemma grade_loop_total_range ua idx qs st :
  total_score st
  ≤ total_score (grade_loop lower ratio ua idx qs st)
  ≤ total_score st + 10 * Z.of_nat (length qs).
Proof.
  revert idx st. induction qs as [|q qs IH]; intros idx st; simpl; [lia|].
  specialize (IH (S idx) (grade_step lower ratio ua idx q st)).
  rewrite grade_step_total in IH.
  pose proof (body_score_range ua idx q). lia.
Qed.

Lemma key_of_position_dec (n : nat) (k : string) :
  (∃ idx, (idx < n)%nat ∧ k = pretty idx)
  ∨ (∀ j, (0 ≤ j < 0 + n)%nat → k ≠ pretty j).
Proof.
  induction n as [|n [(idx & Hlt & ->)|IH]].
  - right. intros j Hj. lia.
  - left. exists idx. split; [lia|done].
  - destruct (decide (k = pretty n)) as [->|Hne].
    + left. exists n. split; [lia|done].
    + right. intros j Hj. destruct (decide (j = n)) as [->|]; [done|].
      apply IH. lia.
Qed.

(** X9.  The scores of a report: there is exactly one entry per question of
    the test, under the text of its position (0, 1, ...), answered or not;
    every score lies between 0 and 10; the total lies between 0 and ten
    times the number of questions. *)
Theorem scores_cover_questions qs ua :
  let r := _generate_score_report lower ratio format_1f qs ua in
  (∀ key, is_Some (sr_scores r !! key)
          ↔ ∃ idx, (idx < length qs)%nat ∧ key = pretty idx)
  ∧ (∀ key score, sr_scores r !! key = Some score → 0 ≤ score ≤ 10)
  ∧ 0 ≤ sum_values (sr_scores r) ≤ 10 * Z.of_nat (length qs).
Proof.
  intros r. unfold r, _generate_score_report. simpl.
  assert (∀ idx, (idx < length qs)%nat →
            ∃ q, scores (grade_loop lower ratio ua 0 qs initial_state)
                 !! pretty idx
                 = Some (body_score lower ratio ua idx q)) as Hat.
  { intros idx Hlt. destruct (lookup_lt_is_Some_2 qs idx Hlt) as [q Hq].
    exists q.
    apply (grade_loop_scores_at lower ratio ua 0 qs initial_state idx q Hq). }
  split; [|split].
  - intros key. split.
    + intros Hsome.
      destruct (key_of_position_dec (length qs) key) as [?|Hout]; [done|].
      rewrite (grade_loop_scores_outside ua 0 qs initial_state key Hout)
        in Hsome.
      simpl in Hsome. rewrite lookup_empty in Hsome. by destruct Hsome.
    + intros (idx & Hlt & ->). destruct (Hat idx Hlt) as [q ->]. eauto.
  - intros key score Hsc.
    destruct (key_of_position_dec (length qs) key)
      as [(idx & Hlt & ->)|Hout].
    + destruct (Hat idx Hlt) as [q Hq]. rewrite Hq in Hsc.
      injection Hsc as <-. apply body_score_range.
    + rewrite (grade_loop_scores_outside ua 0 qs initial_state key Hout)
        in Hsc.
      simpl in Hsc. by rewrite lookup_empty in Hsc.
  - rewrite <- report_total_is_sum.
    pose proof (grade_loop_total_range ua 0 qs initial_state) as Hr.
    simpl in Hr. lia.
Qed.

(** X10.  The comments of the model in a report, by position: a closed
    question has none; an open question without an answer has none, and so
    has one whose answer is the text that stands for a missing answer; an
    open question with any other answer has the comment of the band of its
    score, without the prefix that the displayed comment carries.  No entry
    lies outside the positions of the questions. *)
Theorem model_comments_of_open_answers qs ua :
  let r := _generate_score_report lower ratio format_1f qs ua in
  (∀ idx : nat,
     sr_Comment_LLM r !! pretty idx
     = q ← qs !! idx;
       if decide (q_type q = "test") then None
       else
         a ← ua !! idx;
         if decide (a = NOT_ANSWERED) then None
         else Some (band_comment
                      (fst (_check_open_answer lower ratio a
                              (correct_answer q)))))
  ∧ (∀ key, is_Some (sr_Comment_LLM r !! key)
            → ∃ idx, (idx < length qs)%nat ∧ key = pretty idx).
Proof.
  intros r. unfold r, _generate_score_report. simpl. split.
  - intros idx. destruct (qs !! idx) as [q|] eqn:Hq; simpl.
    + pose proof (grade_loop_comments_at lower ratio ua 0 qs initial_state
                    idx q Hq) as Hc.
      change (0 + idx)%nat with idx in Hc. rewrite Hc.
      change (Comment_LLM initial_state) with (∅ : gmap string string).
      rewrite lookup_empty, body_comment_value.
      destruct (decide (q_type q = "test")); [done|].
      destruct (ua !! idx) as [a|]; simpl.
      * destruct (decide (a = NOT_ANSWERED)); [done|].
        by rewrite band_comment_truthy.
      * by destruct (decide (NOT_ANSWERED = NOT_ANSWERED)).
    + rewrite grade_loop_comments_outside; [done|].
      intros j Hj E. apply pretty_nat_ne in E; [done|].
      apply lookup_ge_None_1 in Hq. lia.
  - intros key Hsome.
    destruct (key_of_position_dec (length qs) key) as [?|Hout]; [done|].
    rewrite (grade_loop_comments_outside ua 0 qs initial_state key Hout)
      in Hsome.
    simpl in Hsome. rewrite lookup_empty in Hsome. by destruct Hsome.
Qed.

End report_facts.

(** ** Saving a score: what is written, and what is left alone *)

Section save_score_more.
Import Database TeacherShowResult.
Variable py_float : string → option Py.float.
Implicit Types (f : result → result) (ts : list result) (r : result).
Implicit Types (data file : results_data) (s : session).

Lemma Forall2_diag {A} (P : A → A → Prop) (l : list A) :
  (∀ x, P x x) → Forall2 P l l.
Proof. intros HP. induction l; by constructor. Qed.

Lemma update_first_frame result_id f ts ts' :
  update_first result_id f ts = Some ts' →
  Forall2 (fun r r' => r' = r ∨ (r_id r = result_id ∧ r' = f r)) ts ts'.
Proof.
  revert ts'. induction ts as [|r ts IH]; simpl; intros ts'; [done|].
  destruct (bool_decide (r_id r = result_id)) eqn:E.
  - intros [= <-]. apply bool_decide_eq_true_1 in E.
    constructor; [by right|]. apply Forall2_diag. by left.
  - destruct (update_first result_id f ts) as [rest'|]; [|done].
    simpl. intros [= <-]. constructor; [by left|by apply IH].
Qed.

Lemma update_stored_frame result_id f file :
  fst <$> update_stored result_id f file = fst <$> file
  ∧ Forall2 (fun r r' => r' = r ∨ (r_id r = result_id ∧ r' = f r))
      (flat_map (fun '(_, user_data) => default [] (tests user_data)) file)
      (flat_map (fun '(_, user_data) => default [] (tests user_data))
         (update_stored result_id f file)).
Proof.
  induction file as [|[user_id user_data] file [IHk IH]]; simpl; [done|].
  destruct (update_first result_id f (default [] (tests user_data)))
    as [ts'|] eqn:E; simpl.
  - split; [done|]. apply Forall2_app.
    + by apply update_first_frame.
    + apply Forall2_diag. by left.
  - split; [by f_equal|]. apply Forall2_app; [|done].
    apply Forall2_diag. by left.
Qed.

Lemma edit_target_fields s result_id q_idx test_id :
  edit_target s = Some (result_id, q_idx, test_id) →
  current_result_id s = Some result_id
  ∧ current_question_idx s = Some q_idx
  ∧ current_test_id s = Some test_id.
Proof.
  unfold edit_target.
  destruct (current_result_id s), (current_question_idx s),
    (current_test_id s); try done.
  destruct (_ && _); [|done]. by intros [= -> -> ->].
Qed.

(** The file after [save_score]: as before, or with the score put into
    the result that the session points to. *)
Lemma save_score_file_cases uuid message tests file s :
  h_file (save_score py_float uuid message tests file s) = file
  ∨ ∃ result_id q_idx test_id score,
      edit_target s = Some (result_id, q_idx, test_id)
      ∧ h_file (save_score py_float uuid message tests file s)
        = update_stored result_id (put_score (pretty q_idx) score) file.
Proof.
  unfold save_score, validate_score.
  destruct message as [message_text|]; [|by left].
  destruct (edit_target s) as [[[result_id q_idx] test_id]|] eqn:Ht;
    [|by left].
  destruct (py_float (TeacherCreate.strip message_text)) as [score|] eqn:Hs;
    [|by left].
  destruct (find_stored result_id file) as [result|] eqn:Hf; [|by left].
  destruct (Py.float_eq _ _) eqn:Hd; [by left|]. right.
  exists result_id, q_idx, test_id, score. split; [done|].
  by destruct (notify _ _ _ _ _ _ _ _ _).
Qed.

(** X11.  [save_score] writes the results file at most once, and when it
    writes nothing the file and the session are as before the call.  It
    writes exactly when there is a message, the session names the result,
    the question and the test, [float] accepts the stripped text, the
    result is stored, and the value is not equal ([==]) to the stored score
    of the question (0 when there is none); the file written is then the
    old one with the value put into that result.  So [nan], which equals
    nothing, is written every time it is sent. *)
Theorem save_score_writes_once uuid message tests file s :
  let hr := save_score py_float uuid message tests file s in
  (h_writes hr = [] ∧ h_file hr = file ∧ h_session hr = s
   ∨ h_writes hr = [h_file hr])
  ∧ (h_writes hr ≠ [] ↔
     ∃ message_text result_id q_idx test_id score result,
       message = Some message_text
       ∧ edit_target s = Some (result_id, q_idx, test_id)
       ∧ py_float (TeacherCreate.strip message_text) = Some score
       ∧ find_stored result_id file = Some result
       ∧ Py.float_eq (get_score (pretty q_idx) result) score = false
       ∧ h_file hr
         = update_stored result_id (put_score (pretty q_idx) score) file)
  ∧ (∀ message_text result_id q_idx test_id result,
       message = Some message_text →
       edit_target s = Some (result_id, q_idx, test_id) →
       py_float (TeacherCreate.strip message_text) = Some Py.NaN →
       find_stored result_id file = Some result →
       h_writes hr ≠ []).
Proof.
  intros hr.
  assert (h_writes hr ≠ [] ↔
          ∃ message_text result_id q_idx test_id score result,
            message = Some message_text
            ∧ edit_target s = Some (result_id, q_idx, test_id)
            ∧ py_float (TeacherCreate.strip message_text) = Some score
            ∧ find_stored result_id file = Some result
            ∧ Py.float_eq (get_score (pretty q_idx) result) score = false
            ∧ h_file hr
              = update_stored result_id (put_score (pretty q_idx) score) file)
    as Hiff.
  { split.
    - subst hr. unfold save_score, validate_score.
      destruct message as [message_text|]; [|done].
      destruct (edit_target s) as [[[result_id q_idx] test_id]|] eqn:Ht;
        [|done].
      destruct (py_float (TeacherCreate.strip message_text)) as [score|]
        eqn:Hs; [|done].
      destruct (find_stored result_id file) as [result|] eqn:Hf; [|done].
      destruct (Py.float_eq _ _) eqn:Hd; [done|]. intros _.
      exists message_text, result_id, q_idx, test_id, score, result.
      do 5 (split; [done|]). by destruct (notify _ _ _ _ _ _ _ _ _).
    - intros (message_text & result_id & q_idx & test_id & score & result
              & -> & Ht & Hs & Hf & Hne & _).
      subst hr.
      rewrite (save_score_changed py_float uuid _ tests _ _ _ _ _ _ _
                 Ht Hs Hf Hne).
      by destruct (notify _ _ _ _ _ _ _ _ _). }
  split; [|split; [exact Hiff|]].
  - subst hr. unfold save_score, validate_score.
    destruct message as [message_text|]; [|by left].
    destruct (edit_target s) as [[[result_id q_idx] test_id]|]; [|by left].
    destruct (py_float (TeacherCreate.strip message_text)) as [score|];
      [|by left].
    destruct (find_stored result_id file) as [result|]; [|by left].
    destruct (Py.float_eq _ _); [by left|]. right.
    by destruct (notify _ _ _ _ _ _ _ _ _).
  - intros message_text result_id q_idx test_id result -> Ht Hs Hf.
    apply Hiff.
    exists message_text, result_id, q_idx, test_id, Py.NaN, result.
    do 4 (split; [done|]).
    assert (Py.float_eq (get_score (pretty q_idx) result) Py.NaN = false)
      as Hne by (by destruct (get_score (pretty q_idx) result)).
    split; [done|]. subst hr.
    rewrite (save_score_changed py_float uuid _ tests _ _ _ _ _ _ _
               Ht Hs Hf Hne).
    by destruct (notify _ _ _ _ _ _ _ _ _).
Qed.

(** X12.  [save_score] touches one score and nothing else in the file: the
    users and their order stay; result by result, in file order, everything
    but the scores stays; a result with another id than the one the session
    points to stays as it is; and in every result the score of every other
    question stays. *)
Theorem save_score_frame uuid message tests file s :
  let hr := save_score py_float uuid message tests file s in
  fst <$> h_file hr = fst <$> file
  ∧ Forall2
      (fun r r' =>
         set_scores None r' = set_scores None r
         ∧ (current_result_id s ≠ Some (r_id r) → r' = r)
         ∧ (∀ q_idx key,
              current_question_idx s = Some q_idx → key ≠ pretty q_idx →
              get_score key r' = get_score key r))
      (flat_map (fun '(_, user_data) => default [] (Database.tests user_data)) file)
      (flat_map (fun '(_, user_data) => default [] (Database.tests user_data))
         (h_file hr)).
Proof.
  intros hr.
  destruct (save_score_file_cases uuid message tests file s)
    as [Hfile|(rid & q & tid & sc & Ht & Hfile)];
    fold hr in Hfile; rewrite Hfile.
  - split; [done|]. apply Forall2_diag. done.
  - destruct (update_stored_frame rid (put_score (pretty q) sc) file)
      as [Hk Hall].
    split; [exact Hk|].
    apply edit_target_fields in Ht as (Hrid & Hq & _).
    eapply Forall2_impl; [exact Hall|].
    intros r r' [->|[Hid ->]]; [done|].
    split; [done|]. split.
    + intros Hne. destruct Hne. by rewrite Hrid, Hid.
    + intros q_idx key Hq' Hkey. rewrite Hq in Hq'. injection Hq' as <-.
      unfold get_score, put_score; simpl. by rewrite lookup_insert_ne.
Qed.

(** X13.  The scan for the student of a result finds someone exactly when
    a result with the id is stored, and then it is a user under whom such a
    result is filed. *)
Theorem owner_of_stored_result result_id file :
  (_get_user_id_by_result_id result_id file = None
   ↔ find_stored result_id file = None)
  ∧ (∀ user_id,
       _get_user_id_by_result_id result_id file = Some user_id →
       ∃ user_data r,
         (user_id, user_data) ∈ file
         ∧ r ∈ default [] (tests user_data)
         ∧ r_id r = result_id).
Proof.
  assert (find_stored result_id file = None →
          _get_user_id_by_result_id result_id file = None) as Hnone.
  { unfold find_stored, _get_user_id_by_result_id, load_all_results.
    induction file as [|[user_id user_data] file IH]; simpl; [done|].
    rewrite !find_app_first, find_fmap_same_id by done.
    destruct (find _ (default [] (tests user_data))); [done|]. simpl.
    apply IH. }
  split.
  - split; [|exact Hnone].
    intros Hscan. destruct (find_stored result_id file) as [r|] eqn:Hf; [|done].
    destruct (scan_finds_owner result_id file r Hf) as (u & ud & _ & _ & Hu).
    by rewrite Hu in Hscan.
  - intros user_id Hscan.
    destruct (find_stored result_id file) as [r|] eqn:Hf.
    + destruct (scan_finds_owner result_id file r Hf)
        as (u & ud & Hin & Hr & Hu).
      rewrite Hu in Hscan. injection Hscan as <-.
      exists ud, r. split; [done|]. split; [done|].
      unfold find_stored in Hf. apply find_some in Hf as [_ Hid].
      by apply bool_decide_eq_true_1 in Hid.
    + by rewrite (Hnone eq_refl) in Hscan.
Qed.

(** X29.  An edit of a score on a results file as the writers of the
    repository leave it.  When every key of the file is a user id that is
    not empty, the result found stores no user id of its own (as
    [save_result] and [_save_result] store it) and the question is one of
    the test, [save_score] goes back to the previous step, and: if the
    new value equals the stored one ([==] of floats), the file is not
    written, and the session, so the queue of changes, is as before; if
    it differs, the file is written once with the new score in the
    result, and exactly one change is appended to the changes of the
    test: of type "score", for the user under whose key the result is
    filed, the test, the question (counted from 1) and the new score. *)
Theorem save_score_notifies_owner uuid message_text tests file s
    result_id q_idx test_id score result :
  Forall (fun entry => Py.truthy entry.1 = true) file →
  edit_target s = Some (result_id, q_idx, test_id) →
  py_float (TeacherCreate.strip message_text) = Some score →
  find_stored result_id file = Some result →
  Py.truthy_opt (r_user_id result) = false →
  (∀ t, load_test_by_id test_id tests = Some t →
        is_Some (Py.index (t_questions t) q_idx)) →
  let hr := save_score py_float uuid (Some message_text) tests file s in
  h_end hr = ReturnToPrevious
  ∧ if Py.float_eq (get_score (pretty q_idx) result) score
    then h_file hr = file ∧ h_writes hr = [] ∧ h_session hr = s
    else
      h_file hr
      = update_stored result_id (put_score (pretty q_idx) score) file
      ∧ h_writes hr = [h_file hr]
      ∧ get_score (pretty q_idx) <$> find_stored result_id (h_file hr)
        = Some score
      ∧ ∃ student_id user_data c,
          (student_id, user_data) ∈ file
          ∧ result ∈ default [] (Database.tests user_data)
          ∧ test_changes (h_session hr)
            = <[test_id := default [] (test_changes s !! test_id) ++ [c]]>
                (test_changes s)
          ∧ c_type c = "score"
          ∧ c_student_id c = Some student_id
          ∧ c_test_id c = test_id
          ∧ c_question_idx c = (q_idx + 1)%Z
          ∧ c_score c = score.
Proof.
  intros Hkeys Ht Hs Hf Hu Hidx hr. subst hr.
  destruct (Py.float_eq (get_score (pretty q_idx) result) score) eqn:Heq.
  { by rewrite (save_score_unchanged py_float _ _ _ _ _ _ _ _ _ _
                  Ht Hs Hf Heq). }
  rewrite (save_score_changed py_float uuid _ tests _ _ _ _ _ _ _
             Ht Hs Hf Heq).
  set (file' := update_stored result_id (put_score (pretty q_idx) score)
                  file).
  set (result' := put_score (pretty q_idx) score result).
  destruct (notify_without_stored_user uuid result_id q_idx test_id score
              tests file' result' s Hu Hidx)
    as (test_name & question_text & ->).
  destruct (scan_finds_owner result_id file result Hf)
    as (student_id & user_data & Hin & Hr & Hscan).
  assert (_get_user_id_by_result_id result_id file' = Some student_id)
    as -> by (unfold file'; by rewrite scan_update_stored).
  assert (Py.truthy student_id = true) as Htruthy.
  { rewrite Forall_forall in Hkeys. exact (Hkeys _ Hin). }
  simpl. rewrite Htruthy. split; [done|]. split; [done|]. split; [done|].
  split.
  { unfold file'.
    rewrite (find_update_stored result_id _ file result) by done.
    simpl. by rewrite get_put_score. }
  destruct (add_change_appends uuid
              (Change "score" (Some student_id) test_id test_name
                 (q_idx + 1)%Z question_text score
                 (get_comment (pretty q_idx) result') None)
              s student_id eq_refl Htruthy)
    as (c' & Hc & ? & ? & ? & ? & ? & _).
  exists student_id, user_data, c'. done.
Qed.

End save_score_more.

(** ** Characters *)

Section char_facts.
Implicit Types (s : list ascii) (c : Py.char) (l : list Py.char).

Lemma chars_of_cons (b : ascii) s :
  Py.chars_of (b :: s)
  = match Py.chars_of s with
    | c :: cs =>
        if Py.starts_cont s then (b :: c) :: cs else [b] :: c :: cs
    | [] => [[b]]
    end.
Proof. reflexivity. Qed.

Lemma chars_of_nil s : Py.chars_of s = [] → s = [].
Proof.
  destruct s as [|b s]; simpl; [done|].
  destruct (Py.chars_of s); [done|]. by destruct (Py.starts_cont s).
Qed.

Lemma concat_chars_of s : concat (Py.chars_of s) = s.
Proof.
  induction s as [|b s IH]; simpl; [done|].
  destruct (Py.chars_of s) as [|c cs] eqn:E.
  - apply chars_of_nil in E as ->. done.
  - destruct (Py.starts_cont s); simpl in *; by rewrite IH.
Qed.

Lemma str_chars (a : string) : Py.str (Py.chars a) = a.
Proof.
  unfold Py.str, Py.chars. rewrite concat_chars_of.
  apply String.string_of_list_ascii_of_string.
Qed.

Lemma chars_inj (a b : string) : Py.chars a = Py.chars b → a = b.
Proof. intros E. by rewrite <- (str_chars a), <- (str_chars b), E. Qed.

Lemma truthy_chars (a : string) : Py.truthy a = true ↔ Py.chars a ≠ [].
Proof.
  destruct a as [|b a]; [done|]. split; [|done]. intros _ E.
  by apply chars_of_nil in E.
Qed.

Lemma str_app l1 l2 : Py.str (l1 ++ l2) = Py.str l1 +:+ Py.str l2.
Proof.
  unfold Py.str. rewrite concat_app.
  induction (concat l1) as [|b s IH]; simpl; [done|]. by rewrite IH.
Qed.

Lemma is_char_piece c : Py.is_char c = true → Py.is_piece c = true.
Proof.
  destruct c as [|b cs]; simpl; [done|]. by intros [_ ?]%andb_true_iff.
Qed.

Lemma chars_well_formed l :
  Forall (fun c => Py.is_char c = true) l → Py.well_formed l.
Proof.
  destruct l as [|c l]; simpl; [done|].
  intros [Hc Hl]%Forall_cons. split; [by apply is_char_piece|done].
Qed.

Lemma Forall_of_sublist {A} (P : A → Prop) (l1 l2 : list A) :
  l1 `sublist_of` l2 → Forall P l2 → Forall P l1.
Proof.
  rewrite !Forall_forall. intros Hsub HP x Hx.
  apply HP. by eapply elem_of_sublist.
Qed.

Lemma well_formed_sublist l1 l2 :
  l1 `sublist_of` l2 → Py.well_formed l2 → Py.well_formed l1.
Proof.
  intros Hsub. destruct l2 as [|c2 l2].
  { apply sublist_nil_r in Hsub as ->. done. }
  intros [Hc2 Hl2]. destruct l1 as [|c1 l1]; [done|].
  apply sublist_cons_r in Hsub as [Hsub|(l' & [= <- <-] & Hsub)].
  - apply chars_well_formed. by eapply Forall_of_sublist.
  - split; [done|]. by eapply Forall_of_sublist.
Qed.

Lemma chars_of_starts_cont s :
  Py.starts_cont s = true →
  ∃ c cs, Py.chars_of s = c :: cs ∧ Py.starts_cont c = true.
Proof.
  destruct s as [|b s]; [done|]. simpl. intros Hb.
  destruct (Py.chars_of s) as [|c cs]; [by eexists _, _|].
  destruct (Py.starts_cont s); by eexists _, _.
Qed.

Lemma chars_of_head s c cs :
  Py.chars_of s = c :: cs → Py.starts_cont c = Py.starts_cont s.
Proof.
  destruct s as [|b s]; [done|]. simpl.
  destruct (Py.chars_of s) as [|c' cs']; [by intros [= <- <-]|].
  destruct (Py.starts_cont s); by intros [= <- <-].
Qed.

Lemma chars_of_well_formed s : Py.well_formed (Py.chars_of s).
Proof.
  induction s as [|b s IH]; simpl; [done|].
  destruct (Py.chars_of s) as [|c cs] eqn:E; [done|].
  destruct IH as [Hc Hcs]. pose proof (chars_of_head s c cs E) as Hhead.
  destruct (Py.starts_cont s) eqn:Es.
  - split; [|done]. destruct c as [|b' c]; [done|].
    simpl in *. by rewrite Hhead.
  - split; [done|]. apply Forall_cons. split; [|done].
    destruct c as [|b' c]; [done|]. simpl in *. by rewrite Hhead.
Qed.

Lemma chars_wf (a : string) : Py.well_formed (Py.chars a).
Proof. apply chars_of_well_formed. Qed.

Lemma chars_of_piece (b : ascii) cs s :
  forallb Py.is_cont cs = true → Py.starts_cont s = false →
  Py.chars_of (b :: cs ++ s) = (b :: cs) :: Py.chars_of s.
Proof.
  intros Hcs Hs. revert b. induction cs as [|b' cs IH]; intros b.
  - simpl. rewrite Hs. by destruct (Py.chars_of s).
  - simpl in Hcs. apply andb_true_iff in Hcs as [Hb' Hcs].
    change (Py.chars_of (b :: (b' :: cs) ++ s))
      with (match Py.chars_of (b' :: cs ++ s) with
            | c :: cs0 =>
                if Py.starts_cont (b' :: cs ++ s)
                then (b :: c) :: cs0 else [b] :: c :: cs0
            | [] => [[b]]
            end).
    rewrite (IH Hcs b'). simpl. by rewrite Hb'.
Qed.

Lemma starts_cont_concat l :
  Forall (fun c => Py.is_char c = true) l →
  Py.starts_cont (concat l) = false.
Proof.
  destruct l as [|c l]; [done|]. intros [Hc _]%Forall_cons.
  destruct c as [|b cs]; [done|]. simpl in *.
  apply andb_true_iff in Hc as [Hb _]. by destruct (Py.is_cont b).
Qed.

Lemma chars_of_concat l : Py.well_formed l → Py.chars_of (concat l) = l.
Proof.
  assert (∀ l, Forall (fun c => Py.is_char c = true) l →
               Py.chars_of (concat l) = l) as Hchars.
  { clear l. induction l as [|c l IH]; [done|].
    intros [Hc Hl]%Forall_cons. destruct c as [|b cs]; [done|].
    simpl in Hc. apply andb_true_iff in Hc as [_ Hcs].
    change (concat ((b :: cs) :: l)) with (b :: cs ++ concat l).
    rewrite chars_of_piece, IH; [done|done|done|].
    by apply starts_cont_concat. }
  destruct l as [|c l]; [done|]. intros [Hc Hl].
  destruct c as [|b cs]; [done|]. simpl in Hc.
  change (concat ((b :: cs) :: l)) with (b :: cs ++ concat l).
  rewrite chars_of_piece, Hchars; [done|done|done|].
  by apply starts_cont_concat.
Qed.

Lemma chars_str l : Py.well_formed l → Py.chars (Py.str l) = l.
Proof.
  intros Hl. unfold Py.chars, Py.str.
  rewrite String.list_ascii_of_string_of_list_ascii.
  by apply chars_of_concat.
Qed.

Lemma len_str l : Py.well_formed l → Py.len (Py.str l) = length l.
Proof. intros Hl. unfold Py.len. by rewrite chars_str. Qed.

Lemma bytes_app (a b : string) :
  String.list_ascii_of_string (a +:+ b)
  = String.list_ascii_of_string a ++ String.list_ascii_of_string b.
Proof. induction a as [|c a IH]; simpl; [done|]. by rewrite IH. Qed.

Lemma starts_cont_app s1 s2 :
  s1 ≠ [] → Py.starts_cont (s1 ++ s2) = Py.starts_cont s1.
Proof. by destruct s1. Qed.

Lemma chars_of_app s1 s2 :
  Py.starts_cont s2 = false →
  Py.chars_of (s1 ++ s2) = Py.chars_of s1 ++ Py.chars_of s2.
Proof.
  intros Hs2. induction s1 as [|b s1 IH]; [done|].
  change ((b :: s1) ++ s2) with (b :: s1 ++ s2).
  rewrite (chars_of_cons b (s1 ++ s2)), (chars_of_cons b s1), IH.
  destruct s1 as [|b' s1].
  - simpl. rewrite Hs2. by destruct (Py.chars_of s2).
  - rewrite starts_cont_app by done.
    destruct (Py.chars_of (b' :: s1)) as [|c cs] eqn:E.
    { by apply chars_of_nil in E. }
    simpl. by destruct (Py.is_cont b').
Qed.

(** The characters of two texts written one after the other. *)
Lemma chars_app (a b : string) :
  PyStr.proper b → Py.chars (a +:+ b) = Py.chars a ++ Py.chars b.
Proof.
  intros Hb. unfold Py.chars. rewrite bytes_app. by apply chars_of_app.
Qed.

Lemma length_chars_of_cons (b : ascii) s :
  length (Py.chars_of (b :: s))
  = if Py.starts_cont s then length (Py.chars_of s)
    else S (length (Py.chars_of s)).
Proof.
  simpl. destruct (Py.chars_of s) as [|c cs] eqn:E.
  - apply chars_of_nil in E as ->. done.
  - by destruct (Py.starts_cont s).
Qed.

Lemma length_chars_of_app s1 s2 :
  length (Py.chars_of (s1 ++ s2))
  ≤ length (Py.chars_of s1) + length (Py.chars_of s2).
Proof.
  induction s1 as [|b s1 IH]; [simpl; lia|].
  change ((b :: s1) ++ s2) with (b :: s1 ++ s2).
  rewrite !length_chars_of_cons.
  destruct s1 as [|b' s1].
  - simpl. destruct (Py.starts_cont s2); lia.
  - rewrite starts_cont_app by done.
    destruct (Py.starts_cont (b' :: s1)); lia.
Qed.

(** [len] of two texts written one after the other. *)
Lemma len_app_le (a b : string) : Py.len (a +:+ b) ≤ Py.len a + Py.len b.
Proof.
  unfold Py.len, Py.chars. rewrite bytes_app. apply length_chars_of_app.
Qed.

Lemma len_app (a b : string) :
  PyStr.proper b → Py.len (a +:+ b) = Py.len a + Py.len b.
Proof. intros Hb. unfold Py.len. by rewrite chars_app, length_app. Qed.

Lemma take_str_length (n : nat) (a : string) : Py.len (Py.take_str n a) ≤ n.
Proof.
  unfold Py.take_str. rewrite len_str.
  - rewrite length_take. lia.
  - eapply well_formed_sublist; [apply sublist_take|apply chars_wf].
Qed.

End char_facts.

(** ** Text input of the authoring flow *)

Section text_facts.
Import TeacherCreate TeacherCreateText.

(** *** Blanks *)

Lemma blank_is_char (c : Py.char) : is_space c = true → Py.is_char c = true.
Proof.
  unfold is_space. intros Hc%bool_decide_eq_true_1.
  assert (forallb Py.is_char blanks = true) as Hall by reflexivity.
  rewrite forallb_forall in Hall. apply Hall. by apply list_elem_of_In.
Qed.

Lemma space_is_space : is_space space = true.
Proof. reflexivity. Qed.

(** *** Blanks at the ends *)

Lemma lstrip_suffix (l : list Py.char) : lstrip l `suffix_of` l.
Proof.
  induction l as [|c l IH]; simpl; [done|].
  destruct (is_space c); [by apply suffix_cons_r|done].
Qed.

Lemma lstrip_head (l : list Py.char) (c : Py.char) :
  head (lstrip l) = Some c → is_space c = false.
Proof.
  induction l as [|c0 l IH]; simpl; [done|].
  destruct (is_space c0) eqn:E; [done|]. simpl. by intros [= <-].
Qed.

Lemma lstrip_fixed (l : list Py.char) :
  (∀ c, head l = Some c → is_space c = false) → lstrip l = l.
Proof.
  destruct l as [|c l]; simpl; [done|].
  intros Hc. by rewrite (Hc c eq_refl).
Qed.

Lemma strip_chars_prefix (l : list Py.char) :
  strip_chars l `prefix_of` lstrip l.
Proof.
  unfold strip_chars. apply prefix_suffix_reverse.
  rewrite reverse_involutive. apply lstrip_suffix.
Qed.

Lemma strip_chars_elem_of (l : list Py.char) (c : Py.char) :
  c ∈ strip_chars l → c ∈ l.
Proof.
  intros Hc. destruct (strip_chars_prefix l) as [k Hk].
  destruct (lstrip_suffix l) as [k' Hk'].
  rewrite Hk', Hk. set_solver.
Qed.

Lemma strip_chars_sublist (l : list Py.char) : strip_chars l `sublist_of` l.
Proof.
  destruct (strip_chars_prefix l) as [k Hk].
  destruct (lstrip_suffix l) as [k' Hk'].
  rewrite Hk' at 2. rewrite Hk.
  by apply sublist_inserts_l, sublist_inserts_r.
Qed.

Lemma strip_chars_well_formed (l : list Py.char) :
  Py.well_formed l → Py.well_formed (strip_chars l).
Proof. apply well_formed_sublist, strip_chars_sublist. Qed.

Lemma strip_chars_length (l : list Py.char) : length (strip_chars l) ≤ length l.
Proof.
  etrans; [apply prefix_length, strip_chars_prefix|].
  apply suffix_length, lstrip_suffix.
Qed.

Lemma strip_chars_head (l : list Py.char) (c : Py.char) :
  head (strip_chars l) = Some c → is_space c = false.
Proof.
  intros Hh. destruct (strip_chars_prefix l) as [k Hk].
  apply (lstrip_head l). rewrite Hk.
  by destruct (strip_chars l).
Qed.

Lemma strip_chars_last (l : list Py.char) (c : Py.char) :
  last (strip_chars l) = Some c → is_space c = false.
Proof.
  unfold strip_chars. rewrite last_reverse. apply lstrip_head.
Qed.

Lemma strip_chars_fixed (l : list Py.char) :
  (∀ c, head l = Some c → is_space c = false) →
  (∀ c, last l = Some c → is_space c = false) →
  strip_chars l = l.
Proof.
  intros Hh Hl. unfold strip_chars.
  rewrite (lstrip_fixed l Hh), lstrip_fixed, reverse_involutive; [done|].
  intros c. rewrite head_reverse. apply Hl.
Qed.

Lemma strip_chars_idemp (l : list Py.char) :
  strip_chars (strip_chars l) = strip_chars l.
Proof.
  apply strip_chars_fixed; [apply strip_chars_head|apply strip_chars_last].
Qed.

Lemma strip_idemp (s : string) : strip (strip s) = strip s.
Proof.
  unfold strip. rewrite chars_str, strip_chars_idemp; [done|].
  apply strip_chars_well_formed, chars_wf.
Qed.

Lemma chars_strip (s : string) :
  Py.chars (strip s) = strip_chars (Py.chars s).
Proof. apply chars_str, strip_chars_well_formed, chars_wf. Qed.

Lemma strip_length (s : string) : Py.len (strip s) ≤ Py.len s.
Proof. unfold Py.len. rewrite chars_strip. apply strip_chars_length. Qed.

(** *** Runs of blanks *)

Lemma collapse_elem_of (b : bool) (l : list Py.char) (c : Py.char) :
  c ∈ collapse b l → c = space ∨ (c ∈ l ∧ is_space c = false).
Proof.
  revert b. induction l as [|c0 l IH]; intros b; simpl.
  - by intros ?%elem_of_nil.
  - destruct (is_space c0) eqn:E.
    + destruct b.
      * intros [?|[? ?]]%IH; [by left|right]. split; [by right|done].
      * intros [->|[?|[? ?]]%IH]%elem_of_cons; [by left|by left|right].
        split; [by right|done].
    + intros [->|[?|[? ?]]%IH]%elem_of_cons.
      * right. split; [by left|done].
      * by left.
      * right. split; [by right|done].
Qed.

Lemma collapse_chars (b : bool) (l : list Py.char) :
  Forall (fun c => Py.is_char c = true) l →
  Forall (fun c => Py.is_char c = true) (collapse b l).
Proof.
  revert b. induction l as [|c0 l IH]; intros b; simpl; [done|].
  intros [Hc0 Hl]%Forall_cons.
  destruct (is_space c0); [destruct b|].
  - by apply IH.
  - apply Forall_cons. split; [done|by apply IH].
  - apply Forall_cons. split; [done|by apply IH].
Qed.

Lemma collapse_well_formed (b : bool) (l : list Py.char) :
  Py.well_formed l → Py.well_formed (collapse b l).
Proof.
  destruct l as [|c0 l]; [done|]. intros [Hc0 Hl]. simpl.
  pose proof (collapse_chars true l Hl) as Htrue.
  pose proof (collapse_chars false l Hl) as Hfalse.
  destruct (is_space c0); [destruct b|].
  - by apply chars_well_formed.
  - split; [done|exact Htrue].
  - split; [done|exact Hfalse].
Qed.

Lemma collapse_head (l : list Py.char) (c : Py.char) :
  head (collapse true l) = Some c → is_space c = false.
Proof.
  induction l as [|c0 l IH]; simpl; [done|].
  destruct (is_space c0) eqn:E; [done|]. simpl. by intros [= <-].
Qed.

Lemma single_blanks_cons (c : Py.char) (l : list Py.char) :
  (is_space c = true → ∀ c', head l = Some c' → is_space c' = false) →
  single_blanks l → single_blanks (c :: l).
Proof.
  intros Hc Hl [|i] x y; simpl.
  - intros [= <-] Hy Hx. apply (Hc Hx). by destruct l.
  - apply Hl.
Qed.

Lemma collapse_single_blanks (b : bool) (l : list Py.char) :
  single_blanks (collapse b l).
Proof.
  revert b. induction l as [|c0 l IH]; intros b; simpl.
  - by intros i c c' ?.
  - destruct (is_space c0) eqn:E.
    + destruct b; [apply IH|].
      apply single_blanks_cons; [|apply IH].
      intros _ c'. apply collapse_head.
    + apply single_blanks_cons; [|apply IH]. by rewrite E.
Qed.

Lemma collapse_head_false (l : list Py.char) (c : Py.char) :
  (∀ c0, head l = Some c0 → is_space c0 = false) →
  head (collapse false l) = Some c → is_space c = false.
Proof.
  destruct l as [|c0 l]; simpl; [done|].
  intros Hh. pose proof (Hh c0 eq_refl) as E. rewrite E. simpl.
  by intros [= <-].
Qed.

Lemma collapse_length (b : bool) (l : list Py.char) :
  length (collapse b l) ≤ length l.
Proof.
  revert b. induction l as [|c0 l IH]; intros b; simpl; [done|].
  destruct (is_space c0); [destruct b|]; simpl;
    [specialize (IH true)|specialize (IH true)|specialize (IH false)]; lia.
Qed.

(** X14.  What [sanitize_input] returns, whatever the text, counted in
    characters (code points) as Python counts them: at most 200
    characters and no more than the text had; none of the characters
    [<], [>], [|], [&]; no blank of Unicode other than the space; no blank
    at the start; no two blanks in a row. *)
Theorem sanitize_input_shape (text : string) :
  let out := Py.chars (sanitize_input text) in
  length out ≤ 200
  ∧ length out ≤ Py.len text
  ∧ (∀ c, c ∈ out → is_markup c = false)
  ∧ (∀ c, c ∈ out → is_space c = true → c = space)
  ∧ (∀ c, head out = Some c → is_space c = false)
  ∧ single_blanks out.
Proof.
  intros out. subst out. unfold sanitize_input.
  destruct (Py.truthy text) eqn:Ht.
  2:{ destruct text; [|done]. simpl.
      repeat split; try done; try lia; by intros c ?%elem_of_nil. }
  set (text1 := filter (fun c => is_markup c = false) (Py.chars text)).
  set (text2 := collapse false (strip_chars text1)).
  rewrite chars_str.
  2:{ eapply well_formed_sublist; [apply sublist_take|].
      apply collapse_well_formed, strip_chars_well_formed.
      eapply well_formed_sublist; [apply sublist_filter|apply chars_wf]. }
  assert (∀ c, c ∈ text2 →
            c = space ∨ (c ∈ Py.chars text ∧ is_markup c = false
                            ∧ is_space c = false)) as Hmem.
  { intros c [->|[Hc Hs]]%collapse_elem_of; [by left|right].
    apply strip_chars_elem_of in Hc. unfold text1 in Hc.
    apply list_elem_of_filter in Hc as [? ?]. done. }
  assert (∀ c, c ∈ take 200 text2 → c ∈ text2) as Htake.
  { intros c Hc. rewrite <- (take_drop 200 text2). apply elem_of_app.
    by left. }
  split; [rewrite length_take; lia|].
  split.
  { rewrite length_take. etrans; [apply Nat.le_min_r|].
    etrans; [apply collapse_length|]. etrans; [apply strip_chars_length|].
    unfold text1. apply length_filter. }
  split.
  { intros c [->|(_ & ? & _)]%Htake%Hmem; done. }
  split.
  { intros c [->|(_ & _ & Hs)]%Htake%Hmem; [done|]. by rewrite Hs. }
  split.
  { intros c Hh. apply (collapse_head_false (strip_chars text1)).
    - apply strip_chars_head.
    - fold text2. destruct text2; [done|]. done. }
  intros i c c' Hi HSi. apply lookup_take_Some in Hi as [Hi _].
  apply lookup_take_Some in HSi as [HSi _].
  by apply (collapse_single_blanks false (strip_chars text1) i).
Qed.

(** *** The options of a message *)

Lemma split_go_pieces (cur s : list Py.char) (piece : list Py.char) :
  piece ∈ TeacherCreate.split_go cur s →
  ∀ c, c ∈ piece → c ∈ cur ++ s ∧ c ≠ comma ∨ c ∈ cur.
Proof.
  revert cur. induction s as [|c0 s IH]; intros cur; simpl.
  - intros ->%list_elem_of_singleton c Hc. right. by apply elem_of_reverse.
  - destruct (decide (c0 = comma)) as [->|Hne].
    + intros [->|Hp]%elem_of_cons c Hc.
      * right. by apply elem_of_reverse.
      * destruct (IH [] Hp c Hc) as [[Hin ?]|?%elem_of_nil]; [|done].
        left. split; [|done]. apply elem_of_app. right. by right.
    + intros Hp c Hc. destruct (IH (c0 :: cur) Hp c Hc) as [[Hin ?]|Hin].
      * left. split; [|done].
        apply elem_of_cons in Hin as [->|Hin].
        -- apply elem_of_app. right. by left.
        -- apply elem_of_app in Hin as [?|?]; apply elem_of_app;
             [by left|right; by right].
      * apply elem_of_cons in Hin as [->|Hin]; [|by right].
        left. split; [|done]. apply elem_of_app. right. by left.
Qed.

Lemma split_go_sublist (cur s piece : list Py.char) :
  piece ∈ TeacherCreate.split_go cur s → piece `sublist_of` reverse cur ++ s.
Proof.
  revert cur. induction s as [|c0 s IH]; intros cur; simpl.
  - intros ->%list_elem_of_singleton. by rewrite app_nil_r.
  - destruct (decide (c0 = comma)) as [->|Hne].
    + intros [->|Hp]%elem_of_cons.
      * by apply sublist_inserts_r.
      * apply sublist_inserts_l, sublist_cons. by apply (IH []).
    + intros Hp%IH. by rewrite reverse_cons, <- app_assoc in Hp.
Qed.

Lemma split_go_comma (cur s : list Py.char) :
  TeacherCreate.split_go cur (comma :: s)
  = reverse cur :: TeacherCreate.split_go [] s.
Proof. simpl. by destruct (decide (comma = comma)). Qed.

Lemma split_go_comma_free (l cur s : list Py.char) :
  comma ∉ l →
  TeacherCreate.split_go cur (l ++ s)
  = TeacherCreate.split_go (reverse l ++ cur) s.
Proof.
  revert cur. induction l as [|c l IH]; intros cur Hl; simpl; [done|].
  apply not_elem_of_cons in Hl as [Hc Hl].
  rewrite decide_False by done. rewrite IH by done.
  by rewrite reverse_cons, <- app_assoc.
Qed.

Lemma parse_options_well_formed (s o : string) :
  o ∈ parse_options s → well_formed_option o.
Proof.
  unfold parse_options, split_comma. intros Ho.
  apply list_elem_of_filter in Ho as [Htruthy Ho].
  apply list_elem_of_fmap in Ho as (piece & -> & Hpiece).
  apply list_elem_of_fmap in Hpiece as (l & -> & Hl).
  assert (Py.well_formed l) as Hwf.
  { eapply well_formed_sublist; [|apply (chars_wf s)].
    by apply (split_go_sublist [] (Py.chars s)). }
  split; [by destruct (strip (Py.str l))|]. split.
  - rewrite chars_strip, chars_str by done. intros Hc%strip_chars_elem_of.
    destruct (split_go_pieces [] (Py.chars s) l Hl _ Hc) as [[_ ?]|?%elem_of_nil];
      done.
  - apply strip_idemp.
Qed.

(** X15.  Every option that [parse_options] returns is well formed: not
    empty, without a comma, and without a blank of Unicode at either end;
    and there are no more options than the text has commas, plus one. *)
Theorem parse_options_shape (s : string) :
  Forall well_formed_option (parse_options s)
  ∧ length (parse_options s)
    ≤ S (length (filter (fun c => c = comma) (Py.chars s))).
Proof.
  split.
  - apply Forall_forall. intros o. apply parse_options_well_formed.
  - unfold parse_options, split_comma.
    etrans; [apply length_filter|]. rewrite !length_fmap.
    generalize (@nil Py.char) as cur.
    induction (Py.chars s) as [|c l IH]; intros cur; simpl; [lia|].
    destruct (decide (c = comma)) as [->|Hne].
    + rewrite filter_cons_True by done. simpl. specialize (IH []). lia.
    + rewrite filter_cons_False by done. apply IH.
Qed.

Lemma proper_app (a b : string) :
  a ≠ "" → PyStr.proper a → PyStr.proper (a +:+ b).
Proof. by destruct a. Qed.

Lemma proper_join (o : string) (opts : list string) :
  o ≠ "" → PyStr.proper o → PyStr.proper (Py.join "," (o :: opts)).
Proof.
  intros Hne Ho. destruct opts as [|o' opts]; [done|].
  change (Py.join "," (o :: o' :: opts))
    with (o +:+ "," +:+ Py.join "," (o' :: opts)).
  by apply proper_app.
Qed.

Lemma parse_options_cons (o : string) (rest : string) :
  well_formed_option o → PyStr.proper rest →
  parse_options (o +:+ "," +:+ rest) = o :: parse_options rest.
Proof.
  intros (Hne & Hcomma & Hstrip) Hrest.
  unfold parse_options, split_comma.
  rewrite (chars_app o), (chars_app "," rest) by done.
  change (Py.chars ",") with [comma].
  rewrite split_go_comma_free by done.
  change ([comma] ++ Py.chars rest) with (comma :: Py.chars rest).
  rewrite split_go_comma, app_nil_r, reverse_involutive.
  rewrite !fmap_cons, str_chars, Hstrip.
  rewrite filter_cons_True; [done|]. by destruct o.
Qed.

Lemma parse_options_single (o : string) :
  well_formed_option o → parse_options o = [o].
Proof.
  intros (Hne & Hcomma & Hstrip).
  unfold parse_options, split_comma.
  rewrite <- (app_nil_r (Py.chars o)), split_go_comma_free by done.
  change (TeacherCreate.split_go (reverse (Py.chars o) ++ []) [])
    with [reverse (reverse (Py.chars o) ++ [])].
  rewrite app_nil_r, reverse_involutive.
  rewrite !fmap_cons, str_chars, Hstrip.
  rewrite filter_cons_True; [done|]. by destruct o.
Qed.

(** X16.  Writing well-formed options one after the other with commas
    between them and parsing the text gives the options back, in order.
    The options are texts: none starts in the middle of a character. *)
Theorem parse_options_round_trip (opts : list string) :
  Forall well_formed_option opts →
  Forall PyStr.proper opts →
  parse_options (Py.join "," opts) = opts.
Proof.
  induction opts as [|o opts IH]; intros Hwf Hp; [done|].
  apply Forall_cons in Hwf as [Ho Hwf].
  apply Forall_cons in Hp as [_ Hp].
  destruct opts as [|o' opts].
  - simpl. by apply parse_options_single.
  - change (Py.join "," (o :: o' :: opts))
      with (o +:+ "," +:+ Py.join "," (o' :: opts)).
    rewrite parse_options_cons, IH; [done|done|done|done|].
    apply Forall_cons in Hwf as [(Hne & _) _].
    apply Forall_cons in Hp as [Ho' _]. by apply proper_join.
Qed.

End text_facts.

(** Three options, the first of them of Cyrillic letters, the second
    with a no-break space inside. *)
Lemma parse_options_round_trip_witness :
  let opts := ["Да"; "не" +:+ Py.str [["194"; "160"]%char] +:+ "знаю";
               "42"] in
  TeacherCreate.parse_options (Py.join "," opts) = opts.
Proof.
  apply parse_options_round_trip.
  - repeat apply Forall_cons_2; [..|apply Forall_nil_2];
      (split; [done|split; [|by vm_compute]]);
      rewrite list_elem_of_In; vm_compute; intuition discriminate.
  - repeat apply Forall_cons_2; [..|apply Forall_nil_2]; reflexivity.
Defined.

(** ** The authoring handlers: what they leave alone *)

Section authoring_frame.
Import TeacherCreate.

Lemma removelast_set_last q (qs : list question) :
  qs ≠ [] → removelast (set_last q qs) = removelast qs.
Proof.
  intros _. unfold set_last. by rewrite removelast_last.
Qed.

Lemma length_set_last q (qs : list question) :
  qs ≠ [] → length (set_last q qs) = length qs.
Proof.
  intros Hne. unfold set_last. rewrite length_app. simpl.
  destruct (exists_last Hne) as (l & x & ->).
  rewrite removelast_last, length_app. simpl. lia.
Qed.

Lemma last_nonempty {A} (l : list A) (x : A) : last l = Some x → l ≠ [].
Proof. by destruct l. Qed.

(** What [network_retry] makes of a body that leaves the draft alone when
    it raises: the three attempts fail alike. *)
Lemma network_retry_eq (func : draft → outcome) (d : draft) :
  (∀ e d1, func d = Raised e d1 → d1 = d) →
  network_retry func d
  = match func d with
    | Done next d' => Done next d'
    | Raised _ _ => Raised Py.RetryError d
    end.
Proof.
  intros Hraise. unfold network_retry.
  destruct (func d) as [next d'|e d1] eqn:E; [done|].
  pose proof (Hraise e d1 eq_refl) as ->. by rewrite !E.
Qed.

(** One attempt of [process_options]. *)
Lemma options_step_frame (message_text : string) (d : draft) :
  match process_options_body message_text d with
  | Raised e d' => questions d = [] ∧ e = Py.IndexError ∧ d' = d
  | Done next d' =>
      (next = States.TEACHER_ADD_OPTIONS ∧ d' = d
       ∨ next = States.TEACHER_FINISH_CREATION ∧ saved_options d' = None)
      ∧ editing_question_idx d' = editing_question_idx d
      ∧ editing_part d' = editing_part d
      ∧ length (questions d') = length (questions d)
      ∧ removelast (questions d') = removelast (questions d)
      ∧ ∃ q q', last (questions d) = Some q
                ∧ last (questions d') = Some q'
                ∧ set_options [] q' = set_options [] q
  end.
Proof.
  unfold process_options_body.
  destruct (last (questions d)) as [q|] eqn:Hlast.
  2:{ split; [|done]. by apply last_None. }
  pose proof (last_nonempty _ _ Hlast) as Hne. simpl.
  destruct (validate_options _ (correct_answer q)); simpl.
  - split; [by right|]. split; [done|]. split; [done|].
    split; [by apply length_set_last|].
    split; [by apply removelast_set_last|].
    eexists q, _. split; [done|]. split; [apply last_set_last|done].
  - split; [by left|]. do 4 (split; [done|]). by exists q, q.
Qed.

(** X17.  [process_options] changes nothing but the options of the
    question being created.  Without a question every attempt fails at
    [questions[-1]] and the call ends, after the third, in the
    [RetryError] of [tenacity], the draft untouched.  Otherwise it either
    refuses the options, stays in the step with the draft as it was, or
    accepts them and goes on; in both cases the questions before the last
    one, the number of questions and every field of the last question
    other than its options are as before. *)
Theorem process_options_frame (message_text : string) (d : draft) :
  match process_options message_text d with
  | Raised e d' => questions d = [] ∧ e = Py.RetryError ∧ d' = d
  | Done next d' =>
      (next = States.TEACHER_ADD_OPTIONS ∧ d' = d
       ∨ next = States.TEACHER_FINISH_CREATION ∧ saved_options d' = None)
      ∧ editing_question_idx d' = editing_question_idx d
      ∧ editing_part d' = editing_part d
      ∧ length (questions d') = length (questions d)
      ∧ removelast (questions d') = removelast (questions d)
      ∧ ∃ q q', last (questions d) = Some q
                ∧ last (questions d') = Some q'
                ∧ set_options [] q' = set_options [] q
  end.
Proof.
  unfold process_options. rewrite network_retry_eq.
  2:{ intros e d1. apply process_options_body_raises. }
  pose proof (options_step_frame message_text d) as Hbody.
  destruct (process_options_body message_text d) as [next d'|e d'];
    [exact Hbody|].
  by destruct Hbody as (? & _ & _).
Qed.

Lemma edit_question_kind part new_value q q' :
  edit_question part new_value q = Some q' → q_type q' = q_type q.
Proof.
  unfold edit_question.
  repeat case_decide; try (intros [= <-]; done).
  - destruct (negb _); [done|]. by intros [= <-].
  - destruct (_ && _); by intros [= <-].
Qed.

(** X18.  [save_edited_question] changes one question at most.  When the
    index being edited is outside the questions, every attempt fails at
    [questions[idx]] and the call ends, after the third, in the
    [RetryError] of [tenacity], the draft untouched; it raises in no other
    case.  Otherwise the number of questions, the index and the part being
    edited and the remembered options are as before, every question at
    another position is as before, and the edited question keeps its type;
    when the new value is refused the draft is unchanged. *)
Theorem save_edited_question_frame (message_text : string) (d : draft) :
  match save_edited_question message_text d with
  | Raised e d' =>
      Py.index (questions d) (editing_question_idx d) = None
      ∧ e = Py.RetryError ∧ d' = d
  | Done next d' =>
      ∃ p q,
        Py.position (length (questions d)) (editing_question_idx d) = Some p
        ∧ questions d !! p = Some q
        ∧ length (questions d') = length (questions d)
        ∧ editing_question_idx d' = editing_question_idx d
        ∧ editing_part d' = editing_part d
        ∧ saved_options d' = saved_options d
        ∧ (∀ j, j ≠ p → questions d' !! j = questions d !! j)
        ∧ (∃ q', questions d' !! p = Some q' ∧ q_type q' = q_type q)
        ∧ (next = States.TEACHER_EDIT_QUESTION_CONTENT → d' = d)
  end.
Proof.
  unfold save_edited_question. rewrite network_retry_eq.
  2:{ intros e d1. apply save_edited_question_body_raises. }
  unfold save_edited_question_body.
  destruct (Py.index (questions d) (editing_question_idx d)) as [q|] eqn:Hq;
    [|done].
  unfold Py.index in Hq.
  destruct (Py.position (length (questions d)) (editing_question_idx d))
    as [p|] eqn:Hp; [|done].
  simpl in Hq.
  destruct (edit_question (editing_part d) (sanitize_input message_text) q)
    as [q'|] eqn:He.
  - unfold Py.set_index. rewrite Hp. simpl.
    assert (p < length (questions d)) as Hlt by (by apply lookup_lt_Some in Hq).
    assert (∀ next d',
              show_question_list
                (Draft (<[p := q']> (questions d)) (editing_question_idx d)
                       (editing_part d) (saved_options d)) = Done next d' →
              next ≠ States.TEACHER_EDIT_QUESTION_CONTENT
              ∧ d' = Draft (<[p := q']> (questions d))
                       (editing_question_idx d) (editing_part d)
                       (saved_options d)) as Hshow.
    { intros next d'. unfold show_question_list. simpl.
      destruct (<[p := q']> (questions d)); by intros [= <- <-]. }
    destruct (show_question_list _) as [next d'|e d'] eqn:Es.
    + destruct (Hshow next d' eq_refl) as [Hnext ->]. simpl.
      exists p, q. split; [done|]. split; [done|].
      split; [by rewrite length_insert|]. do 3 (split; [done|]).
      split; [intros j Hj; by apply list_lookup_insert_ne|].
      split; [|done].
      exists q'. split; [by apply list_lookup_insert_eq|].
      by apply edit_question_kind in He.
    + unfold show_question_list in Es. simpl in Es.
      by destruct (<[p := q']> (questions d)).
  - exists p, q. do 6 (split; [done|]). split; [done|].
    split; [by exists q|done].
Qed.

End authoring_frame.

(** ** [split_message] of the authoring module *)

Section split_message_facts.
Import TeacherCreate TeacherCreateText.

Lemma append_assoc (a b c : string) : (a +:+ b) +:+ c = a +:+ (b +:+ c).
Proof.
  induction a as [|x a IH]; [done|].
  change (String x ((a +:+ b) +:+ c) = String x (a +:+ (b +:+ c))).
  by rewrite IH.
Qed.

Lemma append_empty_r (a : string) : a +:+ "" = a.
Proof.
  induction a as [|x a IH]; [done|].
  change (String x (a +:+ "") = String x a). by rewrite IH.
Qed.

Lemma join_empty_cons (p : string) (ps : list string) :
  Py.join "" (p :: ps) = p +:+ Py.join "" ps.
Proof.
  destruct ps as [|p' ps]; simpl; [|done]. by rewrite append_empty_r.
Qed.

Lemma join_empty_app (ps ps' : list string) :
  Py.join "" (ps ++ ps') = Py.join "" ps +:+ Py.join "" ps'.
Proof.
  induction ps as [|p ps IH]; [done|].
  change ((p :: ps) ++ ps') with (p :: (ps ++ ps')).
  by rewrite !join_empty_cons, IH, append_assoc.
Qed.

Lemma split_loop_text max_length lines parts current_part :
  let '(parts', current') :=
    split_loop max_length lines parts current_part in
  Py.join "" parts' +:+ current'
  = Py.join "" parts +:+ current_part +:+ lines_text lines.
Proof.
  revert parts current_part.
  induction lines as [|line rest IH]; intros parts current_part; simpl.
  - unfold lines_text. simpl. by rewrite append_empty_r.
  - unfold lines_text. rewrite fmap_cons, join_empty_cons.
    fold (lines_text rest).
    destruct (max_length <? _).
    + specialize (IH (parts ++ [current_part]) (line +:+ Py.nl)).
      destruct (split_loop _ _ _ _) as [parts' current'].
      rewrite IH, join_empty_app. simpl.
      by rewrite !append_assoc.
    + specialize (IH parts (current_part +:+ line +:+ Py.nl)).
      destruct (split_loop _ _ _ _) as [parts' current'].
      rewrite IH. by rewrite !append_assoc.
Qed.

Lemma split_go_text (sep : Py.char) (cur s : list Py.char) :
  concat ((fun piece => piece ++ [sep]) <$> PyStr.split_go sep cur s)
  = reverse cur ++ s ++ [sep].
Proof.
  revert cur. induction s as [|c s IH]; intros cur; simpl.
  - by rewrite app_nil_r.
  - destruct (decide (c = sep)) as [->|Hne].
    + rewrite fmap_cons. simpl. rewrite IH. simpl.
      by rewrite <- app_assoc.
    + rewrite IH, reverse_cons. by rewrite <- app_assoc.
Qed.

Lemma lines_text_str (pieces : list (list Py.char)) :
  lines_text (Py.str <$> pieces)
  = Py.str (concat ((fun piece => piece ++ [["010"%char]]) <$> pieces)).
Proof.
  unfold lines_text. induction pieces as [|p pieces IH]; [done|].
  rewrite !fmap_cons, join_empty_cons, IH. simpl.
  rewrite !str_app. by change (Py.str [["010"%char]]) with Py.nl.
Qed.

Lemma lines_text_split (text : string) :
  lines_text (PyStr.split "010" text) = text +:+ Py.nl.
Proof.
  unfold PyStr.split.
  rewrite lines_text_str, split_go_text. simpl.
  rewrite str_app, str_chars.
  by change (Py.str [["010"%char]]) with Py.nl.
Qed.

Lemma split_loop_parts (fits : string → Prop) max_length lines parts
    current_part :
  (∀ p, Py.len p ≤ max_length → fits p) →
  (∀ line, line ∈ lines → fits (line +:+ Py.nl)) →
  Forall fits parts → fits current_part →
  Forall fits (split_loop max_length lines parts current_part).1
  ∧ fits (split_loop max_length lines parts current_part).2.
Proof.
  intros Hshort. revert parts current_part.
  induction lines as [|line rest IH]; intros parts current_part Hline Hp Hc;
    simpl; [done|].
  assert (∀ l, l ∈ rest → fits (l +:+ Py.nl)) as Hrest.
  { intros l Hl. apply Hline. by right. }
  destruct (max_length <? _) eqn:E.
  - apply IH; [done| |].
    + apply Forall_app. split; [done|]. by apply Forall_singleton.
    + apply Hline. by left.
  - apply IH; [done|done|]. apply Hshort.
    apply Nat.ltb_ge in E.
    pose proof (len_app_le current_part (line +:+ Py.nl)) as H1.
    pose proof (len_app_le line Py.nl) as H2.
    change (Py.len Py.nl) with 1 in H2. lia.
Qed.

(** X19.  The parts that [split_message] returns, written one after the
    other, are the text followed by a line break: nothing is lost and
    nothing is added but that.  A part has more than [max_length]
    characters (code points) only when it is a single line of the text
    with its line break. *)
Theorem split_message_parts (text : string) (max_length : nat) :
  Py.join "" (split_message text max_length) = text +:+ Py.nl
  ∧ Forall
      (fun p => Py.len p ≤ max_length
                ∨ ∃ line, line ∈ PyStr.split "010" text
                          ∧ p = line +:+ Py.nl)
      (split_message text max_length).
Proof.
  unfold split_message.
  pose proof (split_loop_text max_length (PyStr.split "010" text) [] "")
    as Htext.
  pose proof (split_loop_parts
                (fun p => Py.len p ≤ max_length
                          ∨ ∃ line, line ∈ PyStr.split "010" text
                                    ∧ p = line +:+ Py.nl)
                max_length (PyStr.split "010" text) [] "") as Hparts.
  destruct (split_loop _ _ _ _) as [parts current_part].
  simpl in Htext. rewrite lines_text_split in Htext.
  destruct Hparts as [Hp Hc].
  { intros p ?. by left. }
  { intros line ?. right. by exists line. }
  { apply Forall_nil_2. }
  { left. change (Py.len "") with 0. lia. }
  simpl in Hp, Hc.
  destruct (Py.truthy current_part) eqn:Et.
  - split.
    + rewrite join_empty_app. simpl. exact Htext.
    + apply Forall_app. split; [done|]. by apply Forall_singleton.
  - destruct current_part; [|done]. rewrite append_empty_r in Htext.
    by split.
Qed.

End split_message_facts.

(** ** Answering the questions *)

Section answering_facts.
Import StudentAnswering.
Context {St : Type} `{Countable St}.
Variables STUDENT_MAIN STUDENT_ANSWER_QUESTIONS STUDENT_REVIEW_ANSWERS END
  : St.
Variable strftime_HMS : StudentDoTest.datetime → string.
Variable py_int : string → option Z.
Implicit Types (s : session St) (o : outcome St).

Local Open Scope Z_scope.

Local Abbreviation show_review' :=
  (show_review STUDENT_REVIEW_ANSWERS strftime_HMS).
Local Abbreviation show_question' :=
  (show_question STUDENT_ANSWER_QUESTIONS STUDENT_REVIEW_ANSWERS
     strftime_HMS).
Local Abbreviation record_answer' :=
  (record_answer STUDENT_ANSWER_QUESTIONS STUDENT_REVIEW_ANSWERS
     strftime_HMS).
Local Abbreviation process_answer' :=
  (process_answer STUDENT_ANSWER_QUESTIONS STUDENT_REVIEW_ANSWERS
     strftime_HMS).
Local Abbreviation process_choice' :=
  (process_choice STUDENT_ANSWER_QUESTIONS STUDENT_REVIEW_ANSWERS
     strftime_HMS py_int).
Local Abbreviation navigate_questions' :=
  (navigate_questions STUDENT_ANSWER_QUESTIONS STUDENT_REVIEW_ANSWERS END
     strftime_HMS).

Lemma index_in_range {A} (l : list A) (i : Z) :
  0 ≤ i < Z.of_nat (length l) → Py.index l i = l !! Z.to_nat i.
Proof.
  intros Hi. unfold Py.index, Py.position.
  by rewrite bool_decide_eq_true_2.
Qed.

Lemma index_in_range_is_Some {A} (l : list A) (i : Z) :
  0 ≤ i < Z.of_nat (length l) → is_Some (Py.index l i).
Proof.
  intros Hi. rewrite index_in_range by done.
  apply lookup_lt_is_Some_2. lia.
Qed.

Lemma index_elem_of {A} (l : list A) (i : Z) (x : A) :
  Py.index l i = Some x → x ∈ l.
Proof.
  unfold Py.index. destruct (Py.position (length l) i); [|done]. simpl.
  apply list_elem_of_lookup_2.
Qed.

Lemma shows_same_questions s1 s2 i ua o :
  questions s1 = questions s2 → shows s1 i ua o → shows s2 i ua o.
Proof. intros E. destruct o; [|done]. simpl. by rewrite E. Qed.

(** A reply of the first attempt is the reply of the decorated handler. *)
Lemma answering_retry_shows (func : session St → outcome St) s0 s i ua :
  shows s0 i ua (func s) → shows s0 i ua (network_retry func s).
Proof. unfold network_retry. by destruct (func s). Qed.

Lemma answering_retry_shows_ex (func : session St → outcome St) s ua
    (P : Z → Prop) :
  (∃ i, shows s i ua (func s) ∧ P i) →
  ∃ i, shows s i ua (network_retry func s) ∧ P i.
Proof.
  intros (i & Hs & HP). exists i. split; [|done].
  by apply answering_retry_shows.
Qed.

(** A body that raises with the session as it found it raises three times,
    and [retry] gives up. *)
Lemma answering_retry_eq (func : session St → outcome St) s :
  (∀ e s1, func s = Raised e s1 → s1 = s) →
  network_retry func s
  = match func s with
    | Shown reply next s' => Shown reply next s'
    | Raised _ _ => Raised Py.RetryError s
    end.
Proof.
  intros Hraise. unfold network_retry.
  destruct (func s) as [reply next s'|e s1] eqn:E; [done|].
  pose proof (Hraise e s1 eq_refl) as ->. by rewrite !E.
Qed.

Lemma show_review_shows now uuid4 s :
  shows s (current_question_idx s) (user_answers s)
    (show_review' now uuid4 s).
Proof. unfold show_review. by apply answering_retry_shows. Qed.

Lemma show_question_shows now uuid4 s :
  0 ≤ current_question_idx s →
  shows s (current_question_idx s) (user_answers s)
    (show_question' now uuid4 s).
Proof.
  intros Hi. unfold show_question. apply answering_retry_shows.
  unfold show_question_body.
  case_bool_decide as Hlen; [apply show_review_shows|].
  unfold _generate_question_markup.
  destruct (index_in_range_is_Some (questions s) (current_question_idx s))
    as [q Hq]; [lia|].
  rewrite Hq. simpl. done.
Qed.

Lemma record_answer_shows now uuid4 answer s :
  0 ≤ current_question_idx s < Z.of_nat (length (questions s)) →
  ∃ i,
    shows s i (<[current_question_idx s := answer]> (user_answers s))
      (record_answer' now uuid4 answer s)
    ∧ 0 ≤ i < Z.of_nat (length (questions s)).
Proof.
  intros Hi. unfold record_answer.
  case_bool_decide as Hlast.
  - exists (current_question_idx s + 1). split; [|lia].
    match goal with
    | |- shows _ _ _ (show_question _ _ _ _ _ ?s1) =>
        apply (shows_same_questions s1 s); [done|];
        apply (show_question_shows now uuid4 s1); simpl; lia
    end.
  - exists (current_question_idx s). split; [|lia].
    match goal with
    | |- shows _ _ _ (show_review _ _ _ _ ?s1) =>
        apply (shows_same_questions s1 s); [done|];
        apply (show_review_shows now uuid4 s1)
    end.
Qed.

(** The body of [process_choice] while a question of the test is the
    current one: what it replies, and that it raises before it has written
    anything. *)
Lemma process_choice_body_cases now uuid4 data s :
  0 ≤ current_question_idx s < Z.of_nat (length (questions s)) →
  match process_choice_body STUDENT_ANSWER_QUESTIONS STUDENT_REVIEW_ANSWERS
          strftime_HMS py_int now uuid4 data s with
  | Shown reply next s' =>
      questions s' = questions s
      ∧ 0 ≤ current_question_idx s' < Z.of_nat (length (questions s))
      ∧ (user_answers s' = user_answers s
         ∨ ∃ q opt,
             questions s !! Z.to_nat (current_question_idx s) = Some q
             ∧ opt ∈ options q
             ∧ user_answers s'
               = <[current_question_idx s := opt]> (user_answers s))
  | Raised e s' =>
      e = Py.IndexError ∧ s' = s
      ∧ ∃ part option_idx,
          PyStr.split "_" data !! 1%nat = Some part
          ∧ py_int part = Some option_idx ∧ option_idx < 0
  end.
Proof.
  intros Hi. unfold process_choice_body.
  destruct (PyStr.split "_" data !! 1%nat) as [part|] eqn:Epart;
    [|split; [done|split; [done|by left]]].
  destruct (index_in_range_is_Some (questions s) (current_question_idx s) Hi)
    as [q Hq].
  rewrite Hq.
  destruct (py_int part) as [option_idx|] eqn:Eint;
    [|split; [done|split; [done|by left]]].
  case_bool_decide as Hbig; [split; [done|split; [done|by left]]|].
  destruct (Py.index (options q) option_idx) as [opt|] eqn:Eopt.
  - destruct (record_answer_shows now uuid4 opt s Hi) as (i & Hshows & Hr).
    destruct (record_answer _ _ _ _ _ _ _) as [reply next s'|e s'];
      [|done].
    destruct Hshows as (Hqs & Hidx & Hua).
    split; [done|]. split; [by rewrite Hidx|]. right.
    exists q, opt. split; [by rewrite <- index_in_range|].
    split; [by apply index_elem_of in Eopt|done].
  - split; [done|]. split; [done|].
    exists part, option_idx. split; [done|]. split; [done|].
    destruct (decide (0 ≤ option_idx)) as [Hpos|]; [|lia].
    destruct (index_in_range_is_Some (options q) option_idx) as [? ?]; [lia|].
    congruence.
Qed.

Lemma process_choice_eq now uuid4 data s :
  0 ≤ current_question_idx s < Z.of_nat (length (questions s)) →
  process_choice' now uuid4 data s
  = match process_choice_body STUDENT_ANSWER_QUESTIONS
            STUDENT_REVIEW_ANSWERS strftime_HMS py_int now uuid4 data s with
    | Shown reply next s' => Shown reply next s'
    | Raised _ _ => Raised Py.RetryError s
    end.
Proof.
  intros Hi. unfold process_choice. apply answering_retry_eq.
  intros e s1 E. pose proof (process_choice_body_cases now uuid4 data s Hi)
    as Hcases.
  rewrite E in Hcases. by destruct Hcases as (_ & -> & _).
Qed.

(** X20.  While a question of the test is the current one, the buttons
    "prev", "next" and "review" and a text answer never lead outside the
    test: the handler replies at its first attempt, the questions are as
    before, and the current question is again one of the test.  The
    buttons leave the answers as they are; a text answer is recorded for
    the question that was current, trimmed of the blanks of Unicode at its
    ends, unless it is blank, and then nothing is recorded. *)
Theorem question_index_stays_in_range now uuid4 s :
  0 ≤ current_question_idx s < Z.of_nat (length (questions s)) →
  (∀ action, ∃ i,
     shows s i (user_answers s) (navigate_questions' now uuid4 action s)
     ∧ 0 ≤ i < Z.of_nat (length (questions s)))
  ∧ (∀ message_text, ∃ i,
       shows s i
         (if Py.truthy (TeacherCreate.strip message_text)
          then <[current_question_idx s := TeacherCreate.strip message_text]>
                 (user_answers s)
          else user_answers s)
         (process_answer' now uuid4 message_text s)
       ∧ 0 ≤ i < Z.of_nat (length (questions s))).
Proof.
  intros Hi. split.
  - intros action. unfold navigate_questions.
    apply answering_retry_shows_ex. unfold navigate_questions_body.
    destruct (questions s) as [|q0 qs] eqn:Eq; [simpl in Hi; lia|].
    rewrite <- Eq in *. clear Eq q0 qs.
    destruct (bool_decide (action = "prev")
              && bool_decide (0 < current_question_idx s)) eqn:E1.
    { apply andb_true_iff in E1 as [_ E1%bool_decide_eq_true_1].
      exists (current_question_idx s - 1). split; [|lia].
      match goal with
      | |- shows _ _ _ (show_question _ _ _ _ _ ?s1) =>
          apply (shows_same_questions s1 s); [done|];
          apply (show_question_shows now uuid4 s1); simpl; lia
      end. }
    destruct (bool_decide (action = "next")
              && bool_decide (current_question_idx s
                              < Z.of_nat (length (questions s)) - 1)) eqn:E2.
    { apply andb_true_iff in E2 as [_ E2%bool_decide_eq_true_1].
      exists (current_question_idx s + 1). split; [|lia].
      match goal with
      | |- shows _ _ _ (show_question _ _ _ _ _ ?s1) =>
          apply (shows_same_questions s1 s); [done|];
          apply (show_question_shows now uuid4 s1); simpl; lia
      end. }
    exists (current_question_idx s). split; [|lia].
    destruct (bool_decide (action = "review")); [apply show_review_shows|].
    match goal with
    | |- shows _ _ _ (show_question _ _ _ _ _ ?s1) =>
        apply (shows_same_questions s1 s); [done|];
        apply (show_question_shows now uuid4 s1); simpl; lia
    end.
  - intros message_text. unfold process_answer.
    apply answering_retry_shows_ex. unfold process_answer_body.
    destruct (Py.truthy (TeacherCreate.strip message_text)); simpl.
    + by apply record_answer_shows.
    + exists (current_question_idx s). by split.
Qed.

(** X21.  A choice records an option of the current question or nothing.
    While a question of the test is the current one, [process_choice]
    either replies, and then the questions are as before, the current
    question is one of the test, and the answers are as before or hold, for
    the question that was current, one of its options; or its body raises
    [IndexError] at each of the three attempts of [retry], before it has
    written anything, and what reaches the caller is [RetryError] with the
    session as it was; this takes callback data whose number is
    negative. *)
Theorem process_choice_records_an_option now uuid4 data s :
  0 ≤ current_question_idx s < Z.of_nat (length (questions s)) →
  match process_choice' now uuid4 data s with
  | Shown reply next s' =>
      questions s' = questions s
      ∧ 0 ≤ current_question_idx s' < Z.of_nat (length (questions s))
      ∧ (user_answers s' = user_answers s
         ∨ ∃ q opt,
             questions s !! Z.to_nat (current_question_idx s) = Some q
             ∧ opt ∈ options q
             ∧ user_answers s'
               = <[current_question_idx s := opt]> (user_answers s))
  | Raised e s' =>
      e = Py.RetryError ∧ s' = s
      ∧ ∃ part option_idx,
          PyStr.split "_" data !! 1%nat = Some part
          ∧ py_int part = Some option_idx ∧ option_idx < 0
  end.
Proof.
  intros Hi. rewrite process_choice_eq by done.
  pose proof (process_choice_body_cases now uuid4 data s Hi) as Hcases.
  destruct (process_choice_body _ _ _ _ _ _ _ _) as [reply next s'|e s'];
    [done|].
  destruct Hcases as (_ & _ & Hdata). done.
Qed.

(** X22.  From a choice to the score.  When a closed question of the test
    is the current one and the button pressed is the one of the option that
    equals the correct answer, the report computed from the answers after
    the choice gives the question 10 points. *)
Theorem correct_choice_scores_ten now uuid4 data s
    (lower : string → string) (ratio : string → string → Q)
    (format_1f : Q → string) q part option_idx reply next s'
    (answers : gmap nat string) :
  0 ≤ current_question_idx s < Z.of_nat (length (questions s)) →
  questions s !! Z.to_nat (current_question_idx s) = Some q →
  q_type q = "test" →
  PyStr.split "_" data !! 1%nat = Some part →
  py_int part = Some option_idx →
  Py.index (options q) option_idx = Some (correct_answer q) →
  process_choice' now uuid4 data s = Shown reply next s' →
  (∀ idx : nat, answers !! idx = user_answers s' !! Z.of_nat idx) →
  StudentDoTest.sr_scores
    (StudentDoTest._generate_score_report lower ratio format_1f
       (graded <$> questions s') answers)
  !! pretty (Z.to_nat (current_question_idx s))
  = Some 10.
Proof.
  intros Hi Hq Htest Hpart Hint Hopt Hchoice Hanswers.
  rewrite process_choice_eq in Hchoice by done.
  unfold process_choice_body in Hchoice.
  rewrite Hpart, index_in_range, Hq, Hint in Hchoice by done.
  case_bool_decide as Hbig.
  { unfold Py.index, Py.position in Hopt.
    rewrite bool_decide_eq_false_2 in Hopt by lia.
    rewrite bool_decide_eq_false_2 in Hopt by lia. done. }
  rewrite Hopt in Hchoice.
  destruct (record_answer_shows now uuid4 (correct_answer q) s Hi)
    as (i & Hshows & _).
  destruct (record_answer _ _ _ _ _ _ _) as [reply1 next1 s1|e s1];
    [|done].
  injection Hchoice as -> -> ->.
  destruct Hshows as (Hqs & _ & Hua).
  unfold StudentDoTest._generate_score_report. simpl.
  pose proof (grade_loop_scores_at lower ratio answers 0
                (graded <$> questions s') StudentDoTest.initial_state
                (Z.to_nat (current_question_idx s)) (graded q)) as Hscore.
  change (0 + Z.to_nat (current_question_idx s))%nat
    with (Z.to_nat (current_question_idx s)) in Hscore.
  rewrite Hscore.
  - f_equal. unfold StudentDoTest.body_score. simpl.
    rewrite Hanswers, Hua, Z2Nat.id, lookup_insert_eq by lia. simpl.
    rewrite decide_True by done. by rewrite decide_True.
  - rewrite list_lookup_fmap, Hqs, Hq. done.
Qed.

End answering_facts.

(** ** The comment of an appeal *)

Section appeal_comment_facts.
Import Database StudentAppeal.
Variable isoformat : StudentDoTest.datetime → string.
Variable strftime_HMS : StudentDoTest.datetime → string.

(** The three attempts of [retry] start from the same session and
    database: the decorated handler does what one attempt does, but for
    the exception. *)
Lemma appeal_retry_eq (func : session → db → handled) s d :
  network_retry func s d
  = match func s d with
    | Escaped _ => Escaped Py.RetryError
    | handled => handled
    end.
Proof. unfold network_retry. by destruct (func s d). Qed.

(** X23.  What [process_appeal_comment] stores.  For a session that names
    the result and the question, and a message whose first 500 characters
    (code points) are not all blanks of Unicode, the comment is these
    characters with the blanks at both ends removed: it is not empty and
    at most 500 characters long.  The handler returns at its first
    attempt; it remembers the comment for the question in the data of its
    state, and, when the user has the result, the result holds afterwards
    an appeal on the question with this comment, the status "pending" and
    the time of the call. *)
Theorem appeal_comment_is_stored now fresh_id message_text s d
    result_id question_idx r :
  let comment := TeacherCreate.strip (Py.take_str 500 message_text) in
  let user := default "unknown" (user_id s) in
  comment ≠ "" →
  current_result_id s = Some result_id →
  appeal_question_idx s = Some question_idx →
  find_result result_id (load_student_results user (results_file d))
  = Some r →
  Py.len comment ≤ 500
  ∧ TeacherCreate.strip comment = comment
  ∧ ∃ reply s' d' r' e,
      process_appeal_comment isoformat strftime_HMS now fresh_id
        message_text s d
      = Handled reply States.STUDENT_APPEAL_SELECT s' d'
      ∧ StateManager.get_data States.STUDENT_APPEAL_COMMENT
          ("comment_" +:+ pretty question_idx) "" (sm s')
        = comment
      ∧ find_result result_id
          (load_student_results user (results_file d'))
        = Some r'
      ∧ e ∈ default [] (r_appeals r')
      ∧ a_question_idx e = question_idx
      ∧ a_student_comment e = comment
      ∧ a_status e = "pending"
      ∧ a_timestamp e = isoformat now.
Proof.
  intros comment user Hne Hrid Hq Hr.
  split.
  { etrans; [apply strip_length|apply take_str_length]. }
  split; [apply strip_idemp|].
  unfold process_appeal_comment. rewrite appeal_retry_eq.
  unfold process_appeal_comment_body. fold comment. fold user.
  destruct (Py.truthy comment) eqn:Et; [|by destruct comment].
  simpl. rewrite Hrid, Hq.
  set (a := AppealData question_idx comment "pending" (isoformat now)).
  destruct (save_appeal_stores fresh_id user result_id a d r Hr)
    as [Hret Hfound].
  destruct (upsert_appeal_holds fresh_id a (default [] (r_appeals r)))
    as [id Hin].
  eexists _, _, _, _, (stored id a).
  split; [reflexivity|]. simpl.
  split.
  { exact (get_set_data States.STUDENT_APPEAL_COMMENT
             ("comment_" +:+ pretty question_idx) comment "" (sm s)). }
  split; [exact Hfound|]. by split.
Qed.

End appeal_comment_facts.

(** ** The history of states of [utils] *)

Section state_history_facts.
Import Utils.
Context {St : Type} `{EqDecision St}.

Lemma no_repeat_snoc (h l1 l2 : list St) (x state : St) :
  (∀ l1 x l2, h ≠ l1 ++ x :: x :: l2) →
  last h ≠ Some state →
  h ++ [state] ≠ l1 ++ x :: x :: l2.
Proof.
  intros Hh Hlast E.
  destruct l2 as [|z l2 _] using rev_ind.
  - change (l1 ++ [x; x]) with (l1 ++ [x] ++ [x]) in E.
    rewrite app_assoc in E. apply app_inj_tail in E as [-> <-].
    apply Hlast. apply last_snoc.
  - change (l1 ++ x :: x :: l2 ++ [z])
      with (l1 ++ (x :: x :: l2) ++ [z]) in E.
    rewrite app_assoc in E. apply app_inj_tail in E as [-> _].
    by apply (Hh l1 x l2).
Qed.

Lemma no_repeat_removelast (h l1 l2 : list St) (x : St) :
  (∀ l1 x l2, h ≠ l1 ++ x :: x :: l2) →
  removelast h ≠ l1 ++ x :: x :: l2.
Proof.
  intros Hh E. destruct h as [|y h _] using rev_ind.
  - simpl in E. by destruct l1.
  - rewrite removelast_last in E. subst h.
    apply (Hh l1 x (l2 ++ [y])). by rewrite <- !app_assoc.
Qed.

(** X24.  The history of states that [push_state] and [pop_state] keep
    never holds the same state twice in a row, however the two are called,
    starting from a session without history; and [pop_state] right after
    [push_state] gives back the state pushed. *)
Theorem state_history_has_no_repeats (ops : list (history_op St)) :
  let h := foldl (fun h o => run_history_op o h) None ops in
  (∀ l1 x l2, default [] h ≠ l1 ++ x :: x :: l2)
  ∧ (∀ state, (pop_state (push_state state h)).1 = Some state).
Proof.
  intros h. split.
  - subst h. induction ops as [|o ops IH] using rev_ind.
    + simpl. intros l1 x l2 E. by destruct l1.
    + rewrite foldl_app. simpl.
      set (h := foldl (fun h o => run_history_op o h) None ops) in *.
      destruct o as [state|]; simpl.
      * unfold push_state.
        destruct (last (default [] h)) as [y|] eqn:Ey.
        -- destruct (decide (y = state)) as [->|Hne]; [exact IH|].
           simpl. intros l1 x l2. apply no_repeat_snoc; [exact IH|].
           rewrite Ey. by intros [= ?].
        -- simpl. intros l1 x l2. apply no_repeat_snoc; [exact IH|].
           by rewrite Ey.
      * unfold pop_state. destruct h as [[|y l]|]; simpl; try exact IH.
        intros l1 x l2. by apply (no_repeat_removelast (y :: l)).
  - intros state. unfold push_state.
    destruct (last (default [] h)) as [y|] eqn:Ey.
    + destruct (decide (y = state)) as [->|Hne].
      * unfold pop_state. destruct (default [] h) as [|z l]; [done|].
        simpl. exact Ey.
      * unfold pop_state.
        destruct (default [] h ++ [state]) as [|z l] eqn:E.
        { by destruct (default [] h). }
        simpl. rewrite <- E. apply last_snoc.
    + unfold pop_state.
      destruct (default [] h ++ [state]) as [|z l] eqn:E.
      { by destruct (default [] h). }
      simpl. rewrite <- E. apply last_snoc.
Qed.

End state_history_facts.

(** ** Saving the same appeal again *)

Section appeal_again_facts.
Import Database.
Implicit Types (a : appeal_data) (l : list appeal) (ts : list result).

Lemma upsert_appeal_again fresh1 fresh2 a l :
  upsert_appeal fresh2 a (upsert_appeal fresh1 a l) = upsert_appeal fresh1 a l.
Proof.
  induction l as [|e l IH]; simpl.
  - by rewrite decide_True.
  - destruct (decide (a_question_idx e = ad_question_idx a)) as [E|E]; simpl.
    + by rewrite decide_True.
    + rewrite decide_False by done. by rewrite IH.
Qed.

Lemma upsert_in_tests_again fresh1 fresh2 result_id a ts ts' :
  upsert_in_tests fresh1 result_id a ts = Some ts' →
  upsert_in_tests fresh2 result_id a ts' = Some ts'.
Proof.
  revert ts'. induction ts as [|t ts IH]; simpl; intros ts'; [done|].
  destruct (decide (r_id t = result_id)) as [E|E].
  - intros [= <-]. simpl. rewrite decide_True by done. simpl.
    by rewrite upsert_appeal_again.
  - destruct (upsert_in_tests fresh1 result_id a ts) as [rest'|]; [|done].
    simpl. intros [= <-]. simpl. rewrite decide_False by done.
    by rewrite (IH rest').
Qed.

Lemma dict_set_again {V} (k : string) (v : V) (dict : list (string * V)) :
  dict_set k v (dict_set k v dict) = dict_set k v dict.
Proof.
  induction dict as [|[k' v'] dict IH]; simpl.
  - by rewrite decide_True.
  - destruct (decide (k' = k)) as [->|Hne]; simpl.
    + by rewrite decide_True.
    + rewrite decide_False by done. by rewrite IH.
Qed.

(** X25.  Saving an appeal is idempotent on the file: a second call of
    [save_appeal] with the same user, result and appeal leaves the results
    file exactly as the first call left it, whether the first call stored
    the appeal or found no result to store it in. *)
Theorem save_appeal_again fresh1 fresh2 user_id result_id a (d : db) :
  let d1 := snd (save_appeal fresh1 user_id result_id a d) in
  results_file (snd (save_appeal fresh2 user_id result_id a d1))
  = results_file d1.
Proof.
  intros d1.
  destruct (find_result result_id
              (load_student_results user_id (results_file d)))
    as [r|] eqn:Hr.
  - assert (∃ ts', results_file d1
                   = dict_set user_id (UserRecord (Some ts')) (results_file d)
                   ∧ upsert_in_tests fresh2 result_id a ts' = Some ts')
      as (ts' & Hfile & Hagain).
    { apply load_student_results_found in Hr as (ts & Hts & Hr).
      destruct (upsert_in_tests_found fresh1 result_id a ts r Hr)
        as (ts' & Hup & _).
      exists ts'. split.
      - unfold d1, save_appeal, worker, _save_appeal; simpl.
        rewrite Hts, Hup. done.
      - by apply (upsert_in_tests_again fresh1 _ _ _ ts). }
    clearbody d1. unfold save_appeal, worker, _save_appeal; simpl.
    rewrite Hfile, dict_get_set. simpl. rewrite Hagain. simpl.
    apply dict_set_again.
  - destruct (save_appeal_missing fresh1 user_id result_id a d Hr)
      as (m1 & m2 & E1).
    unfold d1. rewrite E1. cbn [snd].
    set (d0 := Db (results_file d)
                 (log d ++ [LogError m1;
                            LogError ("Ошибка в оркестраторе: " +:+ m2)])).
    destruct (save_appeal_missing fresh2 user_id result_id a d0 Hr)
      as (m3 & m4 & E2).
    by rewrite E2.
Qed.

End appeal_again_facts.

(** ** The queue of changes *)

Section changes_facts.
Import Database TeacherShowResult.

(** X26.  [_add_change] only ever appends.  It leaves the rest of the
    session and the changes of every other test as they are; the changes of
    the test of the new change are the old ones, in order, followed by at
    most one more, and by none exactly when the change names no student. *)
Theorem add_change_only_appends uuid (c : change) (s : session) :
  let s' := _add_change uuid c s in
  current_result_id s' = current_result_id s
  ∧ current_question_idx s' = current_question_idx s
  ∧ current_test_id s' = current_test_id s
  ∧ return_state s' = return_state s
  ∧ (∀ t, t ≠ c_test_id c → test_changes s' !! t = test_changes s !! t)
  ∧ ∃ added,
      default [] (test_changes s' !! c_test_id c)
      = default [] (test_changes s !! c_test_id c) ++ added
      ∧ length added ≤ 1
      ∧ (added = [] ↔ Py.truthy_opt (c_student_id c) = false).
Proof.
  intros s'. subst s'. unfold _add_change, Py.truthy_opt.
  destruct (c_student_id c) as [student_id|] eqn:Es; simpl.
  - destruct (Py.truthy student_id) eqn:Et; simpl.
    + do 4 (split; [done|]).
      split; [intros t Ht; by rewrite lookup_insert_ne|].
      eexists [_]. rewrite lookup_insert_eq. simpl.
      split; [done|]. split; [simpl; lia|]. by split.
    + do 4 (split; [done|]). split; [done|].
      exists []. rewrite app_nil_r.
      split; [done|]. split; [simpl; lia|]. by split.
  - do 4 (split; [done|]). split; [done|].
    exists []. rewrite app_nil_r.
    split; [done|]. split; [simpl; lia|]. by split.

Qed.

End changes_facts.

(** ** The options that the authoring flow accepts *)

Section accepted_options_facts.
Import TeacherCreate TeacherCreateText.

(** X27.  The options that [process_options] accepts.  When the handler
    goes on to the next step, the options stored in the question being
    created are the options parsed from the message, that is
    [parse_options] of [sanitize_input] of its text, followed by the
    correct answer.  The parsed options are between one and six; each of
    them is well formed (not empty, without a comma, without a blank of
    Unicode at either end), no two of them are equal, and none is the
    correct answer. *)
Theorem accepted_options_are_well_formed message_text (d d' : draft) :
  let opts := parse_options (sanitize_input message_text) in
  process_options message_text d = Done States.TEACHER_FINISH_CREATION d' →
  ∃ q q',
    last (questions d) = Some q
    ∧ last (questions d') = Some q'
    ∧ options q' = (Some <$> opts) ++ [correct_answer q]
    ∧ Forall well_formed_option opts
    ∧ 1 ≤ length opts ≤ 6
    ∧ NoDup opts
    ∧ (correct_answer q ∉ (Some <$> opts : list (option string))).
Proof.
  intros opts. rewrite process_options_Done. unfold process_options_body.
  destruct (last (questions d)) as [q|] eqn:Hlast; [|done].
  fold opts.
  destruct (validate_options (Some <$> opts) (correct_answer q)) eqn:Hv;
    simpl; [|done].
  intros [= <-]. simpl.
  eexists q, _. split; [done|]. split; [apply last_set_last|].
  split; [done|].
  split; [apply Forall_forall; intros o; apply parse_options_well_formed|].
  pose proof (proj1 (validate_options_iff _ _) Hv) as [Hlen _].
  rewrite length_app, length_fmap in Hlen. simpl in Hlen.
  split; [lia|].
  destruct (validate_options_correct_not_in _ _ Hv) as [Hnin Hnd].
  split; [|done]. by apply (NoDup_fmap Some).
Qed.

End accepted_options_facts.

(** ** [split_message] of the results viewer *)

Section split_message_viewer_facts.
Import TeacherCreate TeacherShowResultText.

Lemma rfind_go_Some (c : Py.char) (l : list Py.char) (i : nat)
    (found : option nat) (k : nat) :
  rfind_go c l i found = Some k →
  found = Some k ∨ (i ≤ k ∧ l !! (k - i) = Some c).
Proof.
  revert i found. induction l as [|x l IH]; intros i found; simpl.
  - by left.
  - intros [E|[Hle Hk]]%IH.
    + destruct (decide (x = c)) as [->|Hne]; [|by left].
      injection E as <-. right. split; [lia|]. by rewrite Nat.sub_diag.
    + right. split; [lia|].
      replace (k - i) with (S (k - S i)) by lia. done.
Qed.

Lemma rfind_Some (c : Py.char) (l : list Py.char) (k : nat) :
  rfind c l = Some k → k < length l ∧ l !! k = Some c.
Proof.
  intros [?|[_ Hk]]%rfind_go_Some; [done|].
  rewrite Nat.sub_0_r in Hk. split; [|done]. by apply lookup_lt_Some in Hk.
Qed.

Lemma strip_chars_blank (c : Py.char) (l : list Py.char) :
  is_space c = true → strip_chars (c :: l) = strip_chars l.
Proof. intros Hc. unfold strip_chars. simpl. by rewrite Hc. Qed.

Lemma filter_lstrip (l : list Py.char) :
  filter (fun c => is_space c = false) (lstrip l)
  = filter (fun c => is_space c = false) l.
Proof.
  induction l as [|c l IH]; simpl; [done|].
  destruct (is_space c) eqn:E; [|done].
  rewrite IH. by rewrite filter_cons_False by (by rewrite E).
Qed.

Lemma filter_strip_chars (l : list Py.char) :
  filter (fun c => is_space c = false) (strip_chars l)
  = filter (fun c => is_space c = false) l.
Proof.
  unfold strip_chars.
  by rewrite filter_reverse, filter_lstrip, filter_reverse,
    reverse_involutive, filter_lstrip.
Qed.

Lemma newline_is_space : is_space newline = true.
Proof. by vm_compute. Qed.

(** The position at which the loop cuts: at most [max_length], and either
    the position of a blank or [max_length] itself. *)
Lemma split_idx_cases (max_length : nat) (text : list Py.char) :
  let split_idx :=
    match rfind newline (take max_length text) with
    | Some i => i
    | None =>
        match rfind space (take max_length text) with
        | Some i => i
        | None => max_length
        end
    end in
  split_idx ≤ max_length
  ∧ (split_idx = max_length
     ∨ ∃ c, text !! split_idx = Some c ∧ is_space c = true).
Proof.
  assert (∀ c k, is_space c = true →
            rfind c (take max_length text) = Some k →
            k ≤ max_length ∧ ∃ c, text !! k = Some c ∧ is_space c = true)
    as Hfound.
  { intros c k Hc [Hlt Hk]%rfind_Some.
    apply lookup_take_Some in Hk as [Hk Hlt'].
    split; [lia|]. by exists c. }
  simpl. destruct (rfind newline (take max_length text)) as [i|] eqn:E1.
  { destruct (Hfound newline i newline_is_space E1). split; [done|by right]. }
  destruct (rfind space (take max_length text)) as [i|] eqn:E2.
  { destruct (Hfound space i space_is_space E2). split; [done|by right]. }
  split; [done|by left].
Qed.

Lemma split_loop_works (fuel max_length : nat) (text : list Py.char)
    (parts : list (list Py.char)) :
  1 ≤ max_length → length text < fuel → Py.well_formed text →
  ∃ parts',
    split_loop fuel max_length text parts = Some (parts ++ parts')
    ∧ Forall (fun p => length p ≤ max_length ∧ Py.well_formed p) parts'
    ∧ filter (fun c => is_space c = false) (concat parts')
      = filter (fun c => is_space c = false) text.
Proof.
  intros Hmax. revert text parts.
  induction fuel as [|fuel IH]; intros text parts Hfuel Hwf; [lia|].
  simpl. destruct text as [|c0 text0] eqn:Etext.
  { exists []. by rewrite app_nil_r. }
  rewrite <- Etext in *.
  assert (length text ≠ 0) as Hlen by (by rewrite Etext).
  clear Etext c0 text0.
  destruct (length text <=? max_length) eqn:Eshort.
  { apply Nat.leb_le in Eshort. exists [text]. split; [done|].
    split; [by apply Forall_singleton|]. simpl. by rewrite app_nil_r. }
  apply Nat.leb_gt in Eshort.
  destruct (split_idx_cases max_length text) as [Hle Hcases].
  set (split_idx := match rfind newline (take max_length text) with
                    | Some i => i
                    | None => match rfind space (take max_length text) with
                              | Some i => i
                              | None => max_length
                              end
                    end) in *.
  clearbody split_idx.
  assert (length (strip_chars (drop split_idx text)) < length text) as Hless.
  { destruct Hcases as [E|(c & Hc & Hsp)].
    - pose proof (strip_chars_length (drop split_idx text)) as Hs.
      rewrite length_drop in Hs. lia.
    - rewrite (drop_S _ _ _ Hc), strip_chars_blank by done.
      apply lookup_lt_Some in Hc.
      pose proof (strip_chars_length (drop (S split_idx) text)) as Hs.
      rewrite length_drop in Hs. lia. }
  destruct (IH (strip_chars (drop split_idx text))
              (parts ++ [take split_idx text])) as (parts' & -> & Hp & Hf);
    [lia| |].
  { apply strip_chars_well_formed.
    eapply well_formed_sublist; [apply sublist_drop|done]. }
  exists (take split_idx text :: parts'). split.
  { by rewrite <- app_assoc. }
  split.
  { apply Forall_cons. split; [|done]. split.
    - rewrite length_take. lia.
    - eapply well_formed_sublist; [apply sublist_take|done]. }
  simpl. rewrite filter_app, Hf, filter_strip_chars, <- filter_app.
  by rewrite take_drop.
Qed.

Lemma split_loop_stuck (fuel : nat) (text : list Py.char)
    (parts : list (list Py.char)) :
  text ≠ [] → strip_chars text = text → split_loop fuel 0 text parts = None.
Proof.
  intros Hne Hstrip. revert parts.
  induction fuel as [|fuel IH]; intros parts; [done|].
  simpl. destruct text as [|c text0] eqn:Etext; [done|].
  rewrite <- Etext in *.
  replace (length text <=? 0) with false
    by (symmetry; apply Nat.leb_gt; rewrite Etext; simpl; lia).
  change (split_loop fuel 0 (strip_chars text) (parts ++ [[]]) = None).
  rewrite Hstrip. apply IH.
Qed.

(** X28.  [split_message] of the results viewer with a positive
    [max_length], lengths counted in characters (code points) as [len]
    does: the loop ends after at most as many rounds as the text has
    characters, plus one; no part is longer than [max_length]; and the
    parts, written one after the other, hold the characters of the text
    that are not blanks of Unicode, all of them and in order.  With
    [max_length] 0 the loop never ends on a text that is not empty and has
    no blank at either end. *)
Theorem split_message_ends (text : string) (max_length : nat) :
  1 ≤ max_length →
  (∃ parts,
     split_message (S (Py.len text)) text max_length = Some parts
     ∧ Forall (fun p => Py.len p ≤ max_length) parts
     ∧ filter (fun c => is_space c = false) (concat (Py.chars <$> parts))
       = filter (fun c => is_space c = false) (Py.chars text))
  ∧ (text ≠ "" → strip text = text →
     ∀ fuel, split_message fuel text 0 = None).
Proof.
  intros Hmax. split.
  - unfold split_message.
    destruct (Py.len text <=? max_length) eqn:Eshort.
    { apply Nat.leb_le in Eshort. exists [text]. split; [done|].
      split; [by apply Forall_singleton|]. simpl. by rewrite app_nil_r. }
    destruct (split_loop_works (S (Py.len text)) max_length
                (Py.chars text) [] Hmax) as (parts & -> & Hp & Hf).
    { unfold Py.len. lia. }
    { apply chars_wf. }
    simpl. exists (Py.str <$> parts). split; [done|]. split.
    + apply Forall_fmap. eapply Forall_impl; [exact Hp|].
      intros p [Hlen Hwf]. simpl. by rewrite len_str.
    + rewrite <- list_fmap_compose.
      rewrite (Forall_fmap_ext_1 (Py.chars ∘ Py.str) id parts).
      * by rewrite list_fmap_id.
      * eapply Forall_impl; [exact Hp|].
        intros p [_ Hwf]. simpl. by apply chars_str.
  - intros Hne Hstrip fuel. unfold split_message.
    assert (Py.chars text ≠ []) as Hchars.
    { apply truthy_chars. by destruct text. }
    replace (Py.len text <=? 0) with false.
    2:{ symmetry. apply Nat.leb_gt. unfold Py.len.
        destruct (Py.chars text); [done|simpl; lia]. }
    rewrite split_loop_stuck; [done|done|].
    by rewrite <- chars_strip, Hstrip.
Qed.

End split_message_viewer_facts.

(** Two lines of Cyrillic letters that do not fit into ten characters
    together. *)
Lemma split_message_ends_witness :
  let text := "первая" +:+ Py.nl +:+ "вторая 3" in
  (∃ parts,
     TeacherShowResultText.split_message (S (Py.len text)) text 10
     = Some parts
     ∧ Forall (fun p => Py.len p ≤ 10) parts
     ∧ filter (fun c => TeacherCreate.is_space c = false)
         (concat (Py.chars <$> parts))
       = filter (fun c => TeacherCreate.is_space c = false) (Py.chars text))
  ∧ (text ≠ "" → TeacherCreate.strip text = text →
     ∀ fuel, TeacherShowResultText.split_message fuel text 0 = None).
Proof.
  intros text. apply (split_message_ends text 10). lia.
Defined.

(** ** The statements with a precondition, at concrete inputs *)

(** The first result of the student "123" enters an empty results file. *)
Lemma save_result_round_trip_witness :
  let rd := Database.Result "" "t1" None "Иванов Иван 10А" {["0" := "x = 2"]}
              (Some {["0" := Py.Finite (Q2Qc 10)]}) None ∅ None
              "2025-01-01T10:00:00" in
  let d := Database.Db [] [] in
  let saved := Database.save_result "r1" "123" rd d in
  let stored_result :=
    Database.set_appeals (Some []) (Database.set_id "r1" rd) in
  fst saved = "r1"
  ∧ Database.load_student_results "123" (Database.results_file (snd saved))
    = Database.load_student_results "123" (Database.results_file d)
      ++ [stored_result]
  ∧ (∀ u, u ≠ "123" →
       Database.load_student_results u (Database.results_file (snd saved))
       = Database.load_student_results u (Database.results_file d))
  ∧ Database.set_user_id (Some "123") stored_result
    ∈ Database.load_all_results (Database.results_file (snd saved)).
Proof.
  intros rd d saved stored_result.
  apply (save_result_round_trip "r1" "123" rd d). by left.
Defined.

(** The same result, and an appeal on its first question right after. *)
Lemma appeal_on_saved_result_witness :
  let rd := Database.Result "" "t1" None "Иванов Иван 10А" {["0" := "x = 2"]}
              (Some {["0" := Py.Finite (Q2Qc 10)]}) None ∅ None
              "2025-01-01T10:00:00" in
  let a := Database.AppealData 0 "Прошу пересмотреть" "pending" "T1" in
  let saved := Database.save_result "r1" "123" rd (Database.Db [] []) in
  let d2 :=
    snd (Database.save_appeal "u1" "123" (fst saved) a (snd saved)) in
  ∃ r e,
    Database.find_result (fst saved)
      (Database.load_student_results "123" (Database.results_file d2))
    = Some r
    ∧ e ∈ default [] (Database.r_appeals r)
    ∧ Database.a_question_idx e = Database.ad_question_idx a
    ∧ Database.a_student_comment e = Database.ad_student_comment a
    ∧ Database.a_status e = Database.ad_status a
    ∧ Database.a_timestamp e = Database.ad_timestamp a.
Proof.
  intros rd a saved d2.
  apply (appeal_on_saved_result "r1" "u1" "123" rd a (Database.Db [] [])).
  by left.
Defined.

(** An appeal for the user "999", whom the file does not know. *)
Lemma save_appeal_without_target_witness :
  let a := Database.AppealData 0 "Прошу пересмотреть" "pending" "T1" in
  let d := Database.Db [] [] in
  fst (Database.save_appeal "u1" "999" "r1" a d) = Database.Returned
  ∧ Database.results_file (snd (Database.save_appeal "u1" "999" "r1" a d))
    = Database.results_file d
  ∧ ∃ msg1 msg2,
      Database.log (snd (Database.save_appeal "u1" "999" "r1" a d))
      = Database.log d
        ++ [Database.LogError msg1;
            Database.LogError ("Ошибка в оркестраторе: " +:+ msg2)].
Proof.
  intros a d. apply (save_appeal_without_target "u1" "999" "r1" a d).
  reflexivity.
Defined.

(** An appeal on the result "r1" of the test "t1" reaches the list. *)
Lemma saved_appeal_is_listed_witness :
  let r := Database.Result "r1" "t1" None "Иванов Иван 10А" ∅ (Some ∅) None ∅
             (Some []) "2025-01-01T10:00:00" in
  let d := Database.Db [("123", Database.UserRecord (Some [r]))] [] in
  let a := Database.AppealData 0 "Прошу пересмотреть" "pending" "T1" in
  ∃ e,
    DatabaseTests.ListedAppeal e "123" "t1"
    ∈ DatabaseTests.load_all_appeals
        (Database.results_file (snd (Database.save_appeal "u1" "123" "r1" a d)))
    ∧ Database.a_question_idx e = 0%Z
    ∧ Database.a_student_comment e = "Прошу пересмотреть"
    ∧ Database.a_status e = "pending"
    ∧ Database.a_timestamp e = "T1"
    ∧ Database.a_teacher_comment e = None
    ∧ Database.a_response_timestamp e = None.
Proof.
  intros r d a. apply (saved_appeal_is_listed "u1" "123" "r1" a d r).
  reflexivity.
Defined.

(** The first test of the teacher "42" enters an empty tests file; the id
    that the creator had put into it is replaced. *)
Lemma save_test_round_trip_witness :
  let t := DatabaseTests.Test (Some "draft-id") (Some "Математика") ["5"]
             (Some "Дроби")
             [TeacherCreate.Question "open" (Some "1/2 + 1/2?") (Some "1") []
                None]
             None (Some "42") None in
  let d := DatabaseTests.Db [] [] in
  let saved := DatabaseTests.save_test "id1" "2025-01-01T10:00:00" t d in
  let stored_test :=
    DatabaseTests.Test (Some "id1") (Some "Математика") ["5"] (Some "Дроби")
      [TeacherCreate.Question "open" (Some "1/2 + 1/2?") (Some "1") [] None]
      None (Some "42") (Some "2025-01-01T10:00:00") in
  fst saved = "id1"
  ∧ DatabaseTests.load_teacher_tests "42" (DatabaseTests.tests_file (snd saved))
    = DatabaseTests.load_teacher_tests "42" (DatabaseTests.tests_file d)
      ++ [stored_test]
  ∧ (∀ t0, t0 ≠ "42" →
       DatabaseTests.load_teacher_tests t0
         (DatabaseTests.tests_file (snd saved))
       = DatabaseTests.load_teacher_tests t0 (DatabaseTests.tests_file d))
  ∧ (∀ test_id, test_id ≠ "id1" →
       DatabaseTests.load_test_by_id test_id
         (DatabaseTests.tests_file (snd saved))
       = DatabaseTests.load_test_by_id test_id (DatabaseTests.tests_file d))
  ∧ (DatabaseTests.load_test_by_id "id1" (DatabaseTests.tests_file d) = None →
     DatabaseTests.load_test_by_id "id1" (DatabaseTests.tests_file (snd saved))
     = Some stored_test).
Proof.
  intros t d saved stored_test.
  apply (save_test_round_trip "id1" "2025-01-01T10:00:00" t d). by left.
Defined.

(** A test of two questions, the first one current; the states are numbers
    here. *)
Lemma question_index_stays_in_range_witness :
  let s : StudentAnswering.session nat :=
    StudentAnswering.Session
      [StudentAnswering.Question "test" "2 + 2?" ["3"; "4"] "4";
       StudentAnswering.Question "open" "x + 1 = 3" [] "x = 2"]
      0 (Some "t1") ∅ false StateManager.init in
  (∀ action, ∃ i,
     StudentAnswering.shows s i (StudentAnswering.user_answers s)
       (StudentAnswering.navigate_questions 1%nat 2%nat 3%nat
          (fun _ => "10:00:00") 0%Z (fun _ => "u") action s)
     ∧ (0 ≤ i < 2)%Z)
  ∧ (∀ message_text, ∃ i,
       StudentAnswering.shows s i
         (if Py.truthy (TeacherCreate.strip message_text)
          then <[0%Z := TeacherCreate.strip message_text]>
                 (StudentAnswering.user_answers s)
          else StudentAnswering.user_answers s)
         (StudentAnswering.process_answer 1%nat 2%nat (fun _ => "10:00:00")
            0%Z (fun _ => "u") message_text s)
       ∧ (0 ≤ i < 2)%Z).
Proof.
  intros s.
  apply (question_index_stays_in_range 1%nat 2%nat 3%nat
           (fun _ => "10:00:00") 0%Z (fun _ => "u") s).
  simpl. lia.
Defined.

(** The button of the second option of the first question. *)
Lemma process_choice_records_an_option_witness :
  let s : StudentAnswering.session nat :=
    StudentAnswering.Session
      [StudentAnswering.Question "test" "2 + 2?" ["3"; "4"] "4";
       StudentAnswering.Question "open" "x + 1 = 3" [] "x = 2"]
      0 (Some "t1") ∅ false StateManager.init in
  match StudentAnswering.process_choice 1%nat 2%nat (fun _ => "10:00:00")
          (fun _ => Some 1%Z) 0%Z (fun _ => "u") "ans_1" s with
  | StudentAnswering.Shown reply next s' =>
      StudentAnswering.questions s' = StudentAnswering.questions s
      ∧ (0 ≤ StudentAnswering.current_question_idx s' < 2)%Z
      ∧ (StudentAnswering.user_answers s' = StudentAnswering.user_answers s
         ∨ ∃ q opt,
             StudentAnswering.questions s !! 0%nat = Some q
             ∧ opt ∈ StudentAnswering.options q
             ∧ StudentAnswering.user_answers s'
               = <[0%Z := opt]> (StudentAnswering.user_answers s))
  | StudentAnswering.Raised e s' =>
      e = Py.RetryError ∧ s' = s
      ∧ ∃ part option_idx,
          PyStr.split "_" "ans_1" !! 1%nat = Some part
          ∧ Some 1%Z = Some option_idx ∧ (option_idx < 0)%Z
  end.
Proof.
  intros s.
  apply (process_choice_records_an_option 1%nat 2%nat (fun _ => "10:00:00")
           (fun _ => Some 1%Z) 0%Z (fun _ => "u") "ans_1" s).
  simpl. lia.
Defined.

(** The same button: the option "4" is the correct answer, and the report
    gives the question 10 points. *)
Lemma correct_choice_scores_ten_witness :
  let s : StudentAnswering.session nat :=
    StudentAnswering.Session
      [StudentAnswering.Question "test" "2 + 2?" ["3"; "4"] "4";
       StudentAnswering.Question "open" "x + 1 = 3" [] "x = 2"]
      0 (Some "t1") ∅ false StateManager.init in
  let s' :=
    match StudentAnswering.process_choice 1%nat 2%nat (fun _ => "10:00:00")
            (fun _ => Some 1%Z) 0%Z (fun _ => "u") "ans_1" s with
    | StudentAnswering.Shown _ _ s' => s'
    | StudentAnswering.Raised _ _ => s
    end in
  StudentDoTest.sr_scores
    (StudentDoTest._generate_score_report (fun a => a) (fun _ _ => 1%Q)
       (fun _ => "")
       (StudentAnswering.graded <$> StudentAnswering.questions s')
       {[0%nat := "4"]})
  !! pretty 0%nat
  = Some 10%Z.
Proof.
  intros s s'.
  eapply (correct_choice_scores_ten 1%nat 2%nat (fun _ => "10:00:00")
            (fun _ => Some 1%Z) 0%Z (fun _ => "u") "ans_1" s
            (fun a => a) (fun _ _ => 1%Q) (fun _ => "")
            (StudentAnswering.Question "test" "2 + 2?" ["3"; "4"] "4")
            "1" 1%Z _ _ s').
  - simpl. lia.
  - reflexivity.
  - reflexivity.
  - reflexivity.
  - reflexivity.
  - reflexivity.
  - reflexivity.
  - intros idx. simpl. destruct idx as [|idx]; [reflexivity|].
    rewrite lookup_singleton_ne by done.
    rewrite lookup_insert_ne by lia. by rewrite lookup_empty.
Defined.

(** An appeal comment in Cyrillic letters, typed with a no-break space
    before it and a space after it. *)
Lemma appeal_comment_is_stored_witness :
  let r := Database.Result "r1" "t1" None "Иванов Иван 10А" ∅ (Some ∅) None ∅
             (Some []) "2025-01-01T10:00:00" in
  let d := Database.Db [("123", Database.UserRecord (Some [r]))] [] in
  let s := StudentAppeal.Session (Some "123") (Some "r1") (Some 0%Z)
             [StudentDoTest.Question "open" "x = 2"] StateManager.init in
  let message_text :=
    Py.str [["194"; "160"]%char] +:+ "слишком мало " in
  Py.len "слишком мало" ≤ 500
  ∧ TeacherCreate.strip "слишком мало" = "слишком мало"
  ∧ ∃ reply s' d' r' e,
      StudentAppeal.process_appeal_comment (fun _ => "T1")
        (fun _ => "10:00:00") 0%Z "u1" message_text s d
      = StudentAppeal.Handled reply States.STUDENT_APPEAL_SELECT s' d'
      ∧ StateManager.get_data States.STUDENT_APPEAL_COMMENT
          ("comment_" +:+ pretty 0%Z) "" (StudentAppeal.sm s')
        = "слишком мало"
      ∧ Database.find_result "r1"
          (Database.load_student_results "123" (Database.results_file d'))
        = Some r'
      ∧ e ∈ default [] (Database.r_appeals r')
      ∧ Database.a_question_idx e = 0%Z
      ∧ Database.a_student_comment e = "слишком мало"
      ∧ Database.a_status e = "pending"
      ∧ Database.a_timestamp e = "T1".
Proof.
  intros r d s message_text.
  apply (appeal_comment_is_stored (fun _ => "T1") (fun _ => "10:00:00") 0%Z
           "u1" message_text s d "r1" 0%Z r); try reflexivity.
  by vm_compute.
Defined.

(** The options "Б, В" for a question whose correct answer is "А". *)
Lemma accepted_options_are_well_formed_witness :
  let d := TeacherCreate.Draft
             [TeacherCreate.Question "test" (Some "Q") (Some "А") [] None]
             (-1) "" None in
  let d' := TeacherCreate.Draft
              [TeacherCreate.Question "test" (Some "Q") (Some "А")
                 [Some "Б"; Some "В"; Some "А"] None]
              (-1) "" None in
  let opts :=
    TeacherCreate.parse_options (TeacherCreate.sanitize_input "Б, В") in
  ∃ q q',
    last (TeacherCreate.questions d) = Some q
    ∧ last (TeacherCreate.questions d') = Some q'
    ∧ TeacherCreate.options q'
      = (Some <$> opts) ++ [TeacherCreate.correct_answer q]
    ∧ Forall TeacherCreateText.well_formed_option opts
    ∧ 1 ≤ length opts ≤ 6
    ∧ NoDup opts
    ∧ (TeacherCreate.correct_answer q
       ∉ (Some <$> opts : list (option string))).
Proof.
  intros d d'.
  apply (accepted_options_are_well_formed "Б, В" d d'). by vm_compute.
Defined.

(** The result "result1" of the student "123", as [save_result] stores it
    (no user id inside), scored 10 on question 0; the teacher sends "5.0".
    One change for the student, the test and the question is queued. *)
Lemma save_score_notifies_owner_witness :
  let r := Database.Result "result1" "test1" None "Иванов Иван 10А"
             {["0" := "answer"]} (Some {["0" := Py.Finite (Q2Qc 10)]}) None ∅
             (Some []) "2025-01-01T10:00:00" in
  let file := [("123", Database.UserRecord (Some [r]))] in
  let tests := [TeacherShowResult.Test "test1" "Тест 1" ["Вопрос 1"]] in
  let s := TeacherShowResult.Session (Some "result1") (Some 0%Z)
             (Some "test1") (Some States.TEACHER_CHECK_ANSWERS) ∅ in
  let score := Py.Finite (Q2Qc 5) in
  let hr := TeacherShowResult.save_score (fun _ => Some score) "uuid"
              (Some "5.0") tests file s in
  TeacherShowResult.h_end hr = TeacherShowResult.ReturnToPrevious
  ∧ TeacherShowResult.h_writes hr = [TeacherShowResult.h_file hr]
  ∧ ∃ student_id user_data c,
      (student_id, user_data) ∈ file
      ∧ r ∈ default [] (Database.tests user_data)
      ∧ TeacherShowResult.test_changes (TeacherShowResult.h_session hr)
        = <["test1" := [] ++ [c]]> ∅
      ∧ TeacherShowResult.c_type c = "score"
      ∧ TeacherShowResult.c_student_id c = Some student_id
      ∧ TeacherShowResult.c_test_id c = "test1"
      ∧ TeacherShowResult.c_question_idx c = 1%Z
      ∧ TeacherShowResult.c_score c = score.
Proof.
  intros r file tests s score hr.
  pose proof (save_score_notifies_owner (fun _ => Some score) "uuid" "5.0"
                tests file s "result1" 0%Z "test1" score r) as Hedit.
  destruct Hedit as [Hend Hchanged].
  - apply Forall_cons. split; [reflexivity|apply Forall_nil_2].
  - reflexivity.
  - reflexivity.
  - reflexivity.
  - reflexivity.
  - intros t [= <-]. by eexists.
  - change (Py.float_eq
              (TeacherShowResult.get_score (pretty 0%Z) r) score)
      with false in Hchanged.
    destruct Hchanged as (_ & Hwrites & _ & Hc).
    split; [exact Hend|]. split; [exact Hwrites|]. exact Hc.
Defined.
